(** * CardRenderer: a shallow embedding of the chart rendering glue

    The JavaScript module under study configures dc.js / d3 / crossfilter
    charts, a geo heat-map renderer and a Google Maps pin map, and patches
    the rendered SVG afterwards.  The functions of the module are embedded
    as computations in a state-and-exception monad over a [World] that
    records, in order, every call made to an external library or callback
    and holds the SVG trees of the rendered charts.  External libraries
    (dc.js, d3, crossfilter, the maps API, the sibling modules [utils],
    [timeseries], [tooltip], [formatting]) are not part of the module; what
    they compute is taken from an [Env] of parameters, and a call into
    them is taken to return.  dc.js is taken to have the four chart
    constructors the module names ([pieChart], [lineChart], [barChart],
    [compositeChart]).  The exceptions of the model are the ones the
    module raises itself: the strings it throws, and the TypeError of
    reading a property of [null] or [undefined]. *)

From Stdlib Require Import Ascii String.
From stdpp Require Import gmap strings list pretty.

(** ** JavaScript values *)

(** Primitive values as they occur in settings and result rows.  Numbers
    are the integers and NaN; fractional numbers and the infinities are
    not represented. *)
Inductive JsValue :=
| VUndefined
| VNull
| VBool (b : bool)
| VNum (n : Z)
| VNaN
| VStr (s : string).

#[global] Instance JsValue_eq_dec : EqDecision JsValue.
Proof. solve_decision. Defined.

(** [v == null] *)
Definition is_nullish (v : JsValue) : bool :=
  match v with
  | VUndefined | VNull => true
  | _ => false
  end.

(** [typeof v === "string"] *)
Definition is_string (v : JsValue) : bool :=
  match v with
  | VStr _ => true
  | _ => false
  end.

(** ToBoolean, as used by [if (v)], [v || w] and [v && w]. *)
Definition truthy (v : JsValue) : bool :=
  match v with
  | VUndefined | VNull => false
  | VBool b => b
  | VNum n => negb (n =? 0)%Z
  | VNaN => false
  | VStr s => negb (String.eqb s "")
  end.

(** [v || w] *)
Definition js_or (v w : JsValue) : JsValue := if truthy v then v else w.



(** ToString, as applied by [+] when the other operand is a string.  An
    integer prints in plain decimal: this is JavaScript's ToString on
    the [plain] values, and what is stated of the printed form of a
    number is stated of those. *)
Definition to_string (v : JsValue) : string :=
  match v with
  | VUndefined => "undefined"
  | VNull => "null"
  | VBool true => "true"
  | VBool false => "false"
  | VNum n => pretty n
  | VNaN => "NaN"
  | VStr s => s
  end.

(** ToNumber on the values that are not strings; [None] is NaN. *)
Definition to_number (v : JsValue) : option Z :=
  match v with
  | VNull => Some 0%Z
  | VBool true => Some 1%Z
  | VBool false => Some 0%Z
  | VNum n => Some n
  | _ => None
  end.

(** [v + w]: string concatenation as soon as one operand is a string,
    numeric addition otherwise. *)
Definition js_add (v w : JsValue) : JsValue :=
  if is_string v || is_string w then VStr (to_string v +:+ to_string w)
  else match to_number v, to_number w with
       | Some a, Some b => VNum (a + b)
       | _, _ => VNaN
       end.

(** [v === w] *)
Definition strict_eq (v w : JsValue) : bool :=
  match v, w with
  | VNaN, _ | _, VNaN => false
  | _, _ => bool_decide (v = w)
  end.

(** A [string] stands for the JavaScript string with the same
    characters as long as these are of the ASCII alphabet (below 128):
    there a character is one UTF-16 unit, [substring] cuts between
    characters and [toUpperCase] maps the letters [a]..[z] to [A]..[Z]
    and nothing else.  What is stated of [substring] and [toUpperCase]
    is stated of [ascii_only] strings; beyond them JavaScript also maps
    other letters, and may lengthen the string. *)
Definition is_ascii (c : ascii) : bool := (nat_of_ascii c <? 128)%nat.

Definition ascii_only (s : string) : bool :=
  forallb is_ascii (list_ascii_of_string s).

Definition upper_char (c : ascii) : ascii :=
  let n := nat_of_ascii c in
  if (97 <=? n)%nat && (n <=? 122)%nat then ascii_of_nat (n - 32) else c.

Fixpoint toUpperCase (s : string) : string :=
  match s with
  | EmptyString => EmptyString
  | String c s' => String (upper_char c) (toUpperCase s')
  end.

(** [row[i]]: reading past the end of an array gives [undefined]. *)
Definition js_index (row : list JsValue) (i : nat) : JsValue :=
  default VUndefined (row !! i).

(** JSON documents (the card's [dataset_query]). *)
#[warnings="-register-all"]
Inductive Json :=
| JNull
| JBool (b : bool)
| JNum (n : Z)
| JStr (s : string)
| JArr (items : list Json)
| JObj (fields : list (string * Json)).

(** ** Cards and their visualization settings *)

Record MapSettings := {
  latitude_dataset_col_index : JsValue;
  longitude_dataset_col_index : JsValue;
  latitude_source_table_field_id : JsValue;
  longitude_source_table_field_id : JsValue;
  map_zoom : JsValue;
  center_latitude : JsValue;
  center_longitude : JsValue
}.

Record AxisSettings := {
  labels_enabled : JsValue;
  title_text : JsValue;
  gridLine_enabled : JsValue;
  title_color : JsValue;
  title_font_size : JsValue;
  gridLineWidth : JsValue;
  gridLineColor : JsValue
}.

Record LineSettings := { line_step : JsValue }.

Record PieSettings := {
  pie_legend_enabled : JsValue;
  pie_colors : list JsValue
}.

Record ChartSettings := { chart_legend_enabled : JsValue }.

(** [card.visualization_settings]; a group that is [None] is absent
    ([undefined]) and reading a property of it raises a TypeError. *)
Record VisualizationSettings := {
  vs_xAxis : option AxisSettings;
  vs_yAxis : option AxisSettings;
  vs_line : option LineSettings;
  vs_pie : option PieSettings;
  vs_chart : option ChartSettings;
  vs_map : option MapSettings
}.

Record Card := {
  display : string;
  dataset_query : Json;
  visualization_settings : VisualizationSettings
}.

(** A result column and a query result ([data] / [result]). *)
Record Col := {
  base_type : JsValue;
  display_name : JsValue;
  col_unit : JsValue
}.

Record Dataset := {
  cols : list Col;
  rows : list (list JsValue)
}.

(** ** The DOM *)

(** What identifies an element: its identity, tag name and class list. *)
Record Elem := {
  el_id : nat;
  el_tag : string;
  el_classes : list string
}.

(** The values handed to callbacks and bound to elements as their d3
    datum: a primitive, an element, a GeoJSON feature with its
    [properties], the object [{ data: { key, value } }], or the object
    [{ yAxisSplit }]. *)
Inductive Value :=
| OPrim (v : JsValue)
| OElem (e : Elem)
| OFeature (properties : gmap string JsValue)
| OData (key value : JsValue)
| OSplit (yAxisSplit : list (list nat)).

(** Functions supplied by the caller ([onHoverChange], [onRender],
    [updateMapCenter], [updateMapZoom]) are known by their identity. *)
Definition Callback := nat.

(** The functions that reach [applyChartTooltips] as [onHoverChange]: the
    caller's own function (in [pie]) or one of the three arrow functions
    written in [lineAreaBar], [state] and [country], each closed over the
    caller's [onHoverChange] (absent when [None]). *)
Inductive HoverFn :=
| HoverUser (f : Callback)
| HoverLineAreaBar (onHoverChange : option Callback)
| HoverState (data : Dataset) (onHoverChange : option Callback)
| HoverCountry (data : Dataset) (onHoverChange : option Callback).

(** The two listeners [applyChartTooltips] installs, closed over its
    [onHoverChange] argument. *)
Inductive Listener :=
| OnMouseMove (onHoverChange : option HoverFn)
| OnMouseLeave (onHoverChange : option HoverFn).

(** An element with its attributes, bound datum, d3 event listeners (by
    event type) and child elements, in document order. *)
#[warnings="-register-all"]
Inductive Node := mkNode {
  elem : Elem;
  attrs : gmap string string;
  datum : Value;
  listeners : gmap string Listener;
  children : list Node
}.

(** A compound selector [tag.class1.class2]; a selector is a comma
    separated list of them. *)
Record Compound := {
  sel_tag : option string;
  sel_classes : list string
}.

Definition Selector := list Compound.

Definition matches_compound (c : Compound) (e : Elem) : bool :=
  match sel_tag c with
  | Some t => String.eqb t (el_tag e)
  | None => true
  end
  && forallb (fun k => bool_decide (k ∈ el_classes e)) (sel_classes c).

Definition matches (sel : Selector) (n : Node) : bool :=
  existsb (fun c => matches_compound c (elem n)) sel.

(** The proper descendants of an element, in document order. *)
Fixpoint descendants (n : Node) : list Node :=
  (fix go (l : list Node) : list Node :=
     match l with
     | [] => []
     | c :: cs => c :: descendants c ++ go cs
     end) (children n).

(** An element below a root is referred to by the path of child indices
    leading to it. *)
Definition Path := list nat.

Fixpoint get_at (p : Path) (n : Node) : option Node :=
  match p with
  | [] => Some n
  | i :: p' => c ← children n !! i; get_at p' c
  end.

Fixpoint update_at (p : Path) (f : Node -> Node) (n : Node) : Node :=
  match p with
  | [] => f n
  | i :: p' =>
      mkNode (elem n) (attrs n) (datum n) (listeners n)
             (alter (update_at p' f) i (children n))
  end.

(** [selection.select(sel)[0][0]]: the first proper descendant matching
    [sel], or nothing ([null]). *)
Fixpoint select (sel : Selector) (n : Node) : option Path :=
  (fix go (i : nat) (l : list Node) : option Path :=
     match l with
     | [] => None
     | c :: cs =>
         if matches sel c then Some [i]
         else match select sel c with
              | Some p => Some (i :: p)
              | None => go (S i) cs
              end
     end) 0 (children n).

(** [selection.on(type, listener)] on one element of the selection: the
    listener replaces the one registered for that type. *)
Definition on (type : string) (l : Listener) (n : Node) : Node :=
  mkNode (elem n) (attrs n) (datum n) (<[type := l]> (listeners n)) (children n).

(** [selection.selectAll(sel)] followed by operations [f] on each selected
    element: every proper descendant matching [sel] is operated on. *)
Fixpoint selectAll_each (sel : Selector) (f : Node -> Node) (n : Node) : Node :=
  mkNode (elem n) (attrs n) (datum n) (listeners n)
         (List.map (fun c =>
                 let c' := selectAll_each sel f c in
                 if matches sel c then f c' else c')
              (children n)).

(** [selection.selectAll(sel).remove()] *)
Fixpoint selectAll_remove (sel : Selector) (n : Node) : Node :=
  mkNode (elem n) (attrs n) (datum n) (listeners n)
         ((fix go (l : list Node) : list Node :=
             match l with
             | [] => []
             | c :: cs =>
                 if matches sel c then go cs
                 else selectAll_remove sel c :: go cs
             end) (children n)).

(** The elements of a tree outside its [title] elements: the proper
    descendants that are not a [title] and not inside one. *)
Inductive outside_titles : Node -> Node -> Prop :=
| outside_child r c :
    c ∈ children r -> el_tag (elem c) <> "title" -> outside_titles r c
| outside_below r c n :
    c ∈ children r -> el_tag (elem c) <> "title" ->
    outside_titles c n -> outside_titles r n.

(** [element.setAttribute(name, value)] *)
Definition setAttribute (name value : string) (n : Node) : Node :=
  mkNode (elem n) (<[name := value]> (attrs n)) (datum n) (listeners n) (children n).

(** ** Crossfilter, d3 and dc.js objects, as data *)

(** A field of a crossfilter record: a row value, or [new Date(v)] given
    by its time value ([None] for an invalid date). *)
Inductive Cell :=
| CVal (v : JsValue)
| CDate (time : option Z).

Abbreviation CfRecord := (gmap string Cell).

(** [d => d.k] and [d => (d[k] || 0)] *)
Inductive Accessor :=
| AccField (k : string)
| AccFieldOrZero (k : string).

Record Dimension := {
  dim_records : list CfRecord;
  dim_key : Accessor
}.

(** [dimension.group()] counts; [.reduceSum(f)] sums [f]. *)
Inductive Reducer :=
| ReduceCount
| ReduceSum (f : Accessor).

Record Group := {
  grp_dimension : Dimension;
  grp_reduce : Reducer
}.

(** The functions the module hands to the libraries. *)
Inductive Closure :=
| FnPieColor (colors : list JsValue)
| FnPieLabel (col : option Col)
| FnPieTitle (sumTotalValue : JsValue)
| FnNoop
| FnFormatValue (col : option Col)
| FnTimeFormatMulti
| FnFeatureProperty (name : string)
| FnCustomizeTooltips (onHoverChange : HoverFn).

(** The listeners registered with [chart.on]: the one of
    [applyChartTooltips], the grouped-bar layout hack of [lineAreaBar] and
    the clip-path fix of [lineAndBarOnRender]. *)
Inductive Renderlet :=
| RTooltips (onHoverChange : option HoverFn)
| RGroupedBar
| RLineAndBarOnRender.

Inductive Scale :=
| TimeScale (domain : Cell * Cell)
| OrdinalScale (domain : list Cell).

Inductive Arg :=
| AVal (v : JsValue)
| ANum (n : Z)
| ADecimal (literal : string)
| AValues (l : list JsValue)
| ACells (l : list Cell)
| ARecords (l : list CfRecord)
| ADimension (d : Dimension)
| AGroup (g : Group)
| ACharts (ids : list nat)
| AFn (f : Closure)
| ARenderlet (r : Renderlet)
| AScale (s : Scale)
| ATimeInterval (name : string)
| AUnitsOrdinal
| ALegend
| AProjection (name : string).

(** What a chart is created in, and what a call is made on. *)
Inductive Parent :=
| PElement (e : Elem)
| PChart (chart : nat).

Inductive Target :=
| TChart (chart : nat)
| TAxis (chart : nat) (axis : string).

Record LatLng := { lat : JsValue; lng : JsValue }.

Record MapOptions := {
  mo_zoom : JsValue;
  mo_center : LatLng;
  mo_mapTypeId : string;
  mo_scrollwheel : bool
}.

(** The arrow function given as [getTileUrl], with the variables it
    closes over. *)
Record TileUrlFn := {
  cap_latitude_source_table_field_id : JsValue;
  cap_longitude_source_table_field_id : JsValue;
  cap_latitude_dataset_col_index : JsValue;
  cap_longitude_dataset_col_index : JsValue;
  cap_query : Json
}.

Record ImageMapType := {
  getTileUrl : TileUrlFn;
  tileSize : Z * Z
}.

(** The listeners [pin_map] registers. *)
Inductive MapListener :=
| OnCenterChanged (updateMapCenter : Callback)
| OnZoomChanged (updateMapZoom : Callback)
| OnCardResized.

(** ** The world *)

(** Every call that leaves the module, in the order made. *)
Inductive Event :=
| EvCrossfilter (records : list CfRecord)
| EvCrossfilterAdd (records : list CfRecord)
| EvDc (chart : nat) (chartType : string) (parent : Parent)
| EvCall (target : Target) (method : string) (args : list Arg)
| EvAssign (target : Target) (property : string) (value : Arg)
| EvCallback (f : Callback) (args : list Value)
| EvGeoNew (renderer : nat) (element : Elem) (card : Card) (data : Dataset)
| EvGeoCall (renderer : nat) (method : string) (args : list Arg)
| EvStyle (element : Elem) (property value : string)
| EvMapNew (element : Elem) (options : MapOptions)
| EvOverlayPush (mapType : ImageMapType)
| EvMapListener (type : string) (listener : MapListener)
| EvMapsTrigger (type : string)
| EvElementListener (element : Elem) (type : string) (listener : MapListener).

(** The trace holds the events newest first; [doms] holds, for each chart
    that has been rendered, the tree below its anchor element; [fresh] is
    the identity the next created chart or renderer gets. *)
Record World := mkWorld {
  trace : list Event;
  doms : gmap nat Node;
  fresh : nat
}.

(** What [axis.ticks()] returns: a number or an array of numbers ([None]
    stands for an entry that is not a number). *)
Inductive Ticks :=
| TicksNumber (n : option Z)
| TicksArray (l : list (option Z)).

(** ** The environment *)

(** Functions of the JavaScript runtime, of the libraries and of the
    sibling modules, none of which the module defines. *)
Class Env := {
  JSON_stringify : Json -> string;
  encodeURIComponent : string -> string;
  (* utils *)
  getAvailableCanvasWidth : Elem -> option Z;
  getAvailableCanvasHeight : Elem -> option Z;
  computeSplit : list (Cell * Cell) -> list (list nat);
  getFriendlyName : option Col -> JsValue;
  getCardColors : Card -> list JsValue;
  (* timeseries, tooltip *)
  computeTimeseriesTicksInterval : list Cell -> option Col -> Z -> Z -> string * JsValue;
  determineSeriesIndexFromElement : Elem -> JsValue;
  (* parseFloat / isFinite and Date.parse on strings *)
  string_is_numeric : string -> bool;
  Date_parse : string -> option Z;
  (* crossfilter and d3 *)
  group_all : Group -> list (Cell * JsValue);
  d3_extent : list Cell -> Cell * Cell;
  d3_time : string -> bool;
  (* dc.js: which chart constructors it has besides the ones this module
     names, which methods a chart type has, what its getters answer,
     what it draws, and the layout of the drawn elements *)
  dc_constructor : string -> bool;
  dc_has : string -> string -> bool;
  dc_width : World -> nat -> Z;
  dc_height : World -> nat -> Z;
  axis_ticks : World -> nat -> string -> Ticks;
  dc_render : World -> nat -> Node;
  getBBox : Node -> Z * Z
}.

(** ** Computations *)

(** What can be thrown: a string (the module throws nothing else itself)
    or the TypeError of reading a property of [null] / [undefined], with
    the expression that was read. *)
Inductive Exn :=
| ExnString (message : string)
| TypeError (site : string).

Inductive Result (A : Type) :=
| Ok (a : A)
| Throw (e : Exn).

Arguments Ok {A} a.
Arguments Throw {A} e.

Definition M (A : Type) : Type := World -> Result A * World.

#[global] Instance M_ret : MRet M := fun A a w => (Ok a, w).

#[global] Instance M_bind : MBind M := fun A B f m w =>
  match m w with
  | (Ok a, w') => f a w'
  | (Throw e, w') => (Throw e, w')
  end.

Definition throw {A : Type} (e : Exn) : M A := fun w => (Throw e, w).

(** [try { m } catch (e) {}]: what [m] did before it threw stays done. *)
Definition try_catch (m : M ()) : M () := fun w => (Ok (), (m w).2).

(** [o.p] where [o] may be absent. *)
Definition prop {A : Type} (site : string) (o : option A) : M A :=
  match o with
  | Some a => mret a
  | None => throw (TypeError site)
  end.

Definition emit (ev : Event) : M () := fun w =>
  (Ok (), mkWorld (ev :: trace w) (doms w) (fresh w)).

Definition call (target : Target) (method : string) (args : list Arg) : M () :=
  emit (EvCall target method args).

Definition get_world : M World := fun w => (Ok w, w).

Definition next_id : M nat := fun w =>
  (Ok (fresh w), mkWorld (trace w) (doms w) (S (fresh w))).

Definition set_dom (chart : nat) (root : Node) : M () := fun w =>
  (Ok (), mkWorld (trace w) (<[chart := root]> (doms w)) (fresh w)).

(** [l.forEach((x, i) => f(i, x))], counting from [i]. *)
Fixpoint forEach {A : Type} (f : nat -> A -> M ()) (i : nat) (l : list A) : M () :=
  match l with
  | [] => mret ()
  | x :: l' => f i x;; forEach f (S i) l'
  end.

(** [l.map((x, i) => f(i, x))] for an [f] that has effects. *)
Fixpoint mapM {A B : Type} (f : nat -> A -> M B) (i : nat) (l : list A) : M (list B) :=
  match l with
  | [] => mret []
  | x :: l' => y ← f i x; ys ← mapM f (S i) l'; mret (y :: ys)
  end.

(** The events a computation added to the trace of [w], newest first. *)
Definition emitted {A : Type} (m : M A) (w : World) : list Event :=
  take (length (trace (m w).2) - length (trace w)) (trace (m w).2).


Definition geo_calls (method : string) (evs : list Event) : list (list Arg) :=
  omap (fun ev => match ev with
                  | EvGeoCall _ m args => if String.eqb m method then Some args else None
                  | _ => None
                  end) evs.

(** A dc.js chart object: its identity and the constructor it came from. *)
Record Chart := {
  chart_id : nat;
  chart_type : string
}.

(** ** Numbers *)

(** [Math.round(a / b)] for [b] other than zero: the nearest integer,
    halves going up. *)
Definition round_div (a b : Z) : Z :=
  if (0 <? b)%Z then (2 * a + b) `div` (2 * b)
  else (2 * (- a) + (- b)) `div` (2 * (- b)).

(** [(a / n) < m] where [n] may be NaN ([None]) or zero. *)
Definition quot_lt (a : Z) (n : option Z) (m : Z) : bool :=
  match n with
  | None => false
  | Some n =>
      if (0 <? n)%Z then (a <? m * n)%Z
      else if (n <? 0)%Z then (m * n <? a)%Z
      else (a <? 0)%Z
  end.

Definition num_or_null (n : option Z) : JsValue :=
  match n with
  | Some z => VNum z
  | None => VNull
  end.

Definition MIN_PIXELS_PER_TICK_x : Z := 100.
Definition MIN_PIXELS_PER_TICK_y : Z := 30.
Definition BAR_PADDING_RATIO : Arg := ADecimal "0.2".
Definition DEFAULT_INTERPOLATION : string := "linear".

Section CardRenderer.
Context `{Env}.

(** [!isNaN(parseFloat(v)) && isFinite(v)] *)
Definition is_numeric (v : JsValue) : bool :=
  match v with
  | VNum _ => true
  | VStr s => string_is_numeric s
  | _ => false
  end.

(** The time value of [new Date(v)]; [None] is an invalid date. *)
Definition new_Date (v : JsValue) : option Z :=
  match v with
  | VStr s => Date_parse s
  | VNum n =>
      if (Z.abs n <=? 8640000000000000)%Z then Some n else None
  | VNull => Some 0%Z
  | VBool true => Some 1%Z
  | VBool false => Some 0%Z
  | VUndefined | VNaN => None
  end.

(** [d3.time[name]], with the [quarters] range the module adds to d3 when
    it is loaded. *)
Definition d3_time_has (name : string) : bool :=
  String.eqb name "quarters" || d3_time name.

(** investigate the response from a dataset query and determine if the
    dimension is a timeseries *)
Definition dimensionIsTimeseries (result : Dataset) : bool :=
  let hasDateField :=
    match cols result with
    | c :: _ => strict_eq (base_type c) (VStr "DateField")
    | [] => false
    end in
  let isDateFirstVal :=
    match rows result with
    | (v :: _) :: _ =>
        if negb (is_numeric v) then bool_decide (is_Some (new_Date v)) else false
    | _ => false
    end in
  hasDateField || isDateFirstVal.

Definition adjustTicksIfNeeded (chart : Chart) (axis : string)
    (axisSize minPixelsPerTick : Z) : M () :=
  w ← get_world;
  let numTicks :=
    match axis_ticks w (chart_id chart) axis with
    | TicksArray l => mjoin (head l)
    | TicksNumber n => n
    end in
  if quot_lt axisSize numTicks minPixelsPerTick
  then call (TAxis (chart_id chart) axis) "ticks"
            [ANum (round_div axisSize minPixelsPerTick)]
  else mret ().

Definition getDcjsChartType (cardType : string) : string :=
  if String.eqb cardType "pie" then "pieChart"
  else if String.eqb cardType "line" then "lineChart"
  else if String.eqb cardType "area" then "lineChart"
  else if String.eqb cardType "bar" then "barChart"
  else "barChart".

(** Whether [dc[chartType]] is a chart constructor: dc.js has the four
    this module names; whether it has one of another name is the
    environment's. *)
Definition dc_constructs (chartType : string) : bool :=
  bool_decide (chartType ∈ ["pieChart"; "lineChart"; "barChart"; "compositeChart"])
  || dc_constructor chartType.

(** [dc[chartType](parent)]: a TypeError when dc.js has no such
    constructor ([dc[chartType]] is [undefined], not a function). *)
Definition dc_create (chartType : string) (parent : Parent) : M Chart :=
  if dc_constructs chartType
  then
    id ← next_id;
    emit (EvDc id chartType parent);;
    mret {| chart_id := id; chart_type := chartType |}
  else throw (TypeError "dc[chartType]").

Definition chart_call (chart : Chart) (method : string) (args : list Arg) : M () :=
  call (TChart (chart_id chart)) method args.

Definition applyChartBoundary (chart : Chart) (element : Elem) : M Chart :=
  chart_call chart "width" [AVal (num_or_null (getAvailableCanvasWidth element))];;
  chart_call chart "height" [AVal (num_or_null (getAvailableCanvasHeight element))];;
  mret chart.

Definition applyChartLegend (chart : Chart) (card : Card) : M Chart :=
  let settings := visualization_settings card in
  let legendEnabled :=
    match String.eqb (display card) "pie", vs_pie settings, vs_chart settings with
    | true, Some pie, _ => pie_legend_enabled pie
    | _, _, Some c => chart_legend_enabled c
    | _, _, None => VBool false
    end in
  if truthy legendEnabled
  then chart_call chart "legend" [ALegend];; mret chart
  else mret chart.

(** The third parameter defaults to [getDcjsChartType(card.display)]. *)
Definition initializeChart (card : Card) (element : Elem)
    (chartType : option string) : M Chart :=
  let chartType := default (getDcjsChartType (display card)) chartType in
  (* create the chart *)
  chart ← dc_create chartType (PElement element);
  (* set width and height *)
  chart ← applyChartBoundary chart element;
  (* specify legend *)
  chart ← applyChartLegend chart card;
  (* disable animations *)
  chart_call chart "transitionDuration" [ANum 0];;
  mret chart.

Definition xAxis_call (chart : Chart) (method : string) (args : list Arg) : M () :=
  call (TAxis (chart_id chart) "xAxis") method args.

Definition applyChartTimeseriesXAxis (chart : Chart) (card : Card)
    (cols : list Col) (xValues : list Cell) : M () :=
  let settings := visualization_settings card in
  xAxis ← prop "settings.xAxis" (vs_xAxis settings);
  (if truthy (labels_enabled xAxis)
   then
     label ← (if truthy (js_or (title_text xAxis) VNull)
              then mret (js_or (title_text xAxis) VNull)
              else c ← prop "cols[0]" (head cols); mret (display_name c));
     chart_call chart "xAxisLabel" [AVal label];;
     chart_call chart "renderVerticalGridLines" [AVal (gridLine_enabled xAxis)];;
     (match head cols with
      | Some c =>
          if truthy (col_unit c)
          then xAxis_call chart "tickFormat" [AFn (FnFormatValue (head cols))]
          else xAxis_call chart "tickFormat" [AFn FnTimeFormatMulti]
      | None => xAxis_call chart "tickFormat" [AFn FnTimeFormatMulti]
      end);;
     w ← get_world;
     let interval :=
       computeTimeseriesTicksInterval xValues (head cols)
         (dc_width w (chart_id chart)) MIN_PIXELS_PER_TICK_x in
     xAxis_call chart "ticks" [ATimeInterval interval.1; AVal interval.2]
   else xAxis_call chart "ticks" [ANum 0]);;
  (* calculate the x-axis domain *)
  let xDomain := d3_extent xValues in
  chart_call chart "x" [AScale (TimeScale xDomain)];;
  (* use xUnits that match the provided column unit, if possible *)
  match head cols with
  | Some c =>
      let name := to_string (js_add (col_unit c) (VStr "s")) in
      if truthy (col_unit c) && d3_time_has name
      then chart_call chart "xUnits" [ATimeInterval name]
      else mret ()
  | None => mret ()
  end.

(** [xValues.filter((v, i) => i % keyInterval === 0)], with [i] the
    index of the head; the remainder by zero is NaN, which is never
    [=== 0]. *)
Fixpoint every_nth {A : Type} (keyInterval : Z) (i : nat) (l : list A) : list A :=
  match l with
  | [] => []
  | v :: l' =>
      if negb (keyInterval =? 0)%Z && (Z.of_nat i `rem` keyInterval =? 0)%Z
      then v :: every_nth keyInterval (S i) l'
      else every_nth keyInterval (S i) l'
  end.

Definition applyChartOrdinalXAxis (chart : Chart) (card : Card)
    (cols : list Col) (xValues : list Cell) : M () :=
  let settings := visualization_settings card in
  xAxis ← prop "settings.xAxis" (vs_xAxis settings);
  (if truthy (labels_enabled xAxis)
   then
     label ← (if truthy (title_text xAxis)
              then mret (title_text xAxis)
              else c ← prop "cols[0]" (head cols); mret (display_name c));
     chart_call chart "xAxisLabel" [AVal label];;
     chart_call chart "renderVerticalGridLines" [AVal (gridLine_enabled xAxis)];;
     xAxis_call chart "ticks" [ANum (Z.of_nat (length xValues))];;
     w ← get_world;
     adjustTicksIfNeeded chart "xAxis" (dc_width w (chart_id chart)) MIN_PIXELS_PER_TICK_x;;
     (* with an ordinal axis, fewer ticks than values are shown by
        choosing the visible keys *)
     w ← get_world;
     let numTicks :=
       match axis_ticks w (chart_id chart) "xAxis" with
       | TicksArray l => mjoin (head l)
       | TicksNumber n => n
       end in
     (match numTicks with
      | Some n =>
          if (n <? Z.of_nat (length xValues))%Z
          then
            let visibleKeys :=
              if (n =? 0)%Z then take 1 xValues
              else every_nth (round_div (Z.of_nat (length xValues)) n) 0 xValues in
            xAxis_call chart "tickValues" [ACells visibleKeys]
          else mret ()
      | None => mret ()
      end);;
     xAxis_call chart "tickFormat" [AFn (FnFormatValue (head cols))]
   else
     xAxis_call chart "ticks" [ANum 0];;
     xAxis_call chart "tickFormat" [AVal (VStr "")]);;
  chart_call chart "x" [AScale (OrdinalScale xValues)];;
  chart_call chart "xUnits" [AUnitsOrdinal].

Definition applyChartYAxis (chart : Chart) (card : Card) (cols : list Col) : M () :=
  let settings := visualization_settings card in
  yAxis ← prop "settings.yAxis" (vs_yAxis settings);
  if truthy (labels_enabled yAxis)
  then
    chart_call chart "yAxisLabel"
      [AVal (js_or (title_text yAxis) (getFriendlyName (cols !! 1)))];;
    chart_call chart "renderHorizontalGridLines" [AVal (VBool true)];;
    chart_call chart "elasticY" [AVal (VBool true)];;
    (* set some limits on the ticks per pixel and adjust if needed *)
    w ← get_world;
    adjustTicksIfNeeded chart "yAxis" (dc_height w (chart_id chart)) MIN_PIXELS_PER_TICK_y;;
    if dc_has (chart_type chart) "rightYAxis"
    then
      w ← get_world;
      adjustTicksIfNeeded chart "rightYAxis" (dc_height w (chart_id chart)) MIN_PIXELS_PER_TICK_y
    else mret ()
  else
    call (TAxis (chart_id chart) "yAxis") "ticks" [ANum 0];;
    if dc_has (chart_type chart) "rightYAxis"
    then call (TAxis (chart_id chart) "rightYAxis") "ticks" [ANum 0]
    else mret ().

Definition applyChartTooltips (chart : Chart) (onHoverChange : option HoverFn) : M () :=
  chart_call chart "on" [AVal (VStr "renderlet"); ARenderlet (RTooltips onHoverChange)].

Definition applyChartLineBarSettings (chart : Chart) (card : Card)
    (chartType : string) : M () :=
  (* disable brushing, it intercepts mouse hovers *)
  (if dc_has (chart_type chart) "brushOn"
   then chart_call chart "brushOn" [AVal (VBool false)]
   else mret ());;
  (* LINE/AREA *)
  (if dc_has (chart_type chart) "interpolate"
   then
     line ← prop "card.visualization_settings.line" (vs_line (visualization_settings card));
     if truthy (line_step line)
     then chart_call chart "interpolate" [AVal (VStr "step")]
     else chart_call chart "interpolate" [AVal (VStr DEFAULT_INTERPOLATION)]
   else mret ());;
  (* AREA *)
  (if dc_has (chart_type chart) "renderArea"
   then chart_call chart "renderArea" [AVal (VBool (String.eqb chartType "area"))]
   else mret ());;
  (* BAR *)
  (if dc_has (chart_type chart) "barPadding"
   then chart_call chart "barPadding" [BAR_PADDING_RATIO]
   else mret ()).

(** *** Tooltips: the renderlet and its listeners *)

Definition class_sel (cs : list string) : Compound :=
  {| sel_tag := None; sel_classes := cs |}.

Definition tag_sel (t : string) (cs : list string) : Compound :=
  {| sel_tag := Some t; sel_classes := cs |}.

(** [".bar, .dot, .area, .line, g.pie-slice, g.features"] *)
Definition tooltip_selector : Selector :=
  [class_sel ["bar"]; class_sel ["dot"]; class_sel ["area"]; class_sel ["line"];
   tag_sel "g" ["pie-slice"]; tag_sel "g" ["features"]].

(** The function [applyChartTooltips] registers for ["renderlet"], run by
    dc.js on the tree of the rendered chart. *)
Definition renderlet_tooltips (onHoverChange : option HoverFn) (root : Node) : Node :=
  let root :=
    selectAll_each tooltip_selector
      (fun n => on "mouseleave" (OnMouseLeave onHoverChange)
                  (on "mousemove" (OnMouseMove onHoverChange) n))
      root in
  selectAll_remove [tag_sel "title" []] root.

Definition value_truthy (v : Value) : bool :=
  match v with
  | OPrim p => truthy p
  | _ => true
  end.

(** The parameter at position [i]; a parameter without argument is
    [undefined]. *)
Definition param (args : list Value) (i : nat) : Value :=
  default (OPrim VUndefined) (args !! i).

(** [_.findWhere(rows, { [0]: v })] *)
Definition findWhere_0 (rows : list (list JsValue)) (v : JsValue) : option (list JsValue) :=
  List.find (fun row => match row with
                        | x :: _ => strict_eq x v
                        | [] => false
                        end) rows.

(** [d.properties[name]] *)
Definition feature_property (name : string) (d : Value) : M JsValue :=
  match d with
  | OFeature properties => mret (default VUndefined (properties !! name))
  | _ => throw (TypeError "d.properties")
  end.

(** Calling the function that stands for [onHoverChange] inside
    [applyChartTooltips]. *)
Definition apply_hover (f : HoverFn) (args : list Value) : M () :=
  match f with
  | HoverUser g => emit (EvCallback g args)
  | HoverLineAreaBar onHoverChange =>
      let e := param args 0 in
      let d := param args 1 in
      let seriesIndex := param args 2 in
      match onHoverChange with
      | Some g =>
          (* disable tooltips on lines *)
          e ← (if value_truthy e
               then match e with
                    | OElem el =>
                        if bool_decide ("line" ∈ el_classes el)
                        then mret (OPrim VNull) else mret e
                    | _ => throw (TypeError "e.classList")
                    end
               else mret e);
          emit (EvCallback g [e; d; seriesIndex])
      | None => mret ()
      end
  | HoverState data onHoverChange =>
      let e := param args 0 in
      let d := param args 1 in
      let seriesIndex := param args 2 in
      match onHoverChange with
      | Some g =>
          d ← (if value_truthy d
               then
                 name ← feature_property "name" d;
                 match findWhere_0 (rows data) name with
                 | Some row => mret (OData (js_index row 0) (js_index row 1))
                 | None => mret (OPrim (VBool false))
                 end
               else mret d);
          emit (EvCallback g [e; d; seriesIndex])
      | None => mret ()
      end
  | HoverCountry data onHoverChange =>
      let e := param args 0 in
      let d := param args 1 in
      let seriesIndex := param args 2 in
      match onHoverChange with
      | Some g =>
          d ← (if value_truthy d
               then
                 code ← feature_property "ISO_A2" d;
                 match findWhere_0 (rows data) code with
                 | Some row =>
                     name ← feature_property "NAME" d;
                     mret (OData name (js_index row 1))
                 | None => mret (OPrim (VBool false))
                 end
               else mret d);
          emit (EvCallback g [e; d; seriesIndex])
      | None => mret ()
      end
  end.

(** Running a listener of [applyChartTooltips] with [this] the element the
    event is dispatched to and [d] its datum. *)
Definition run_listener (l : Listener) (this : Node) : M () :=
  match l with
  | OnMouseMove onHoverChange =>
      match onHoverChange with
      | Some f =>
          apply_hover f [OElem (elem this); datum this;
                         OPrim (determineSeriesIndexFromElement (elem this))]
      | None => mret ()
      end
  | OnMouseLeave onHoverChange =>
      match onHoverChange with
      | Some f => apply_hover f [OPrim VNull]
      | None => mret ()
      end
  end.

(** An event of the given type reaching an element. *)
Definition dispatch (type : string) (this : Node) : M () :=
  match listeners this !! type with
  | Some l => run_listener l this
  | None => mret ()
  end.

(** *** Patching the rendered SVG *)

(** [chart.render()]: dc.js draws the chart anew below its anchor. *)
Definition chart_render (chart : Chart) : M () :=
  chart_call chart "render" [];;
  w ← get_world;
  set_dom (chart_id chart) (dc_render w (chart_id chart)).

(** The tree below the chart's anchor; nothing before the first render. *)
Definition chart_root (chart : Chart) : M (option Node) :=
  w ← get_world; mret (doms w !! chart_id chart).

(** [chart.svg()]: the [svg] element below the anchor, if any. *)
Definition chart_svg (chart : Chart) : M (option Path) :=
  root ← chart_root chart;
  mret (root ≫= fun r =>
        (fix go (i : nat) (l : list Node) : option Path :=
           match l with
           | [] => None
           | c :: cs => if String.eqb (el_tag (elem c)) "svg" then Some [i]
                        else go (S i) cs
           end) 0 (children r)).

(** The element at path [p] below the anchor. *)
Definition node_at (root : option Node) (p : Path) : option Node :=
  match root with
  | Some r => get_at p r
  | None => None
  end.

(** The first match of [sel] below the element at [p], as a path from the
    anchor. *)
Definition select_below (root : option Node) (p : Path) (sel : Selector)
  : option Path :=
  match node_at root p with
  | Some n => (fun q => p ++ q) <$> select sel n
  | None => None
  end.

(** [svg.select(sel)[0][0]], as a path from the anchor. *)
Definition svg_select (chart : Chart) (svg : option Path) (sel : Selector)
  : M (option Path) :=
  p ← prop "svg.select" svg;
  root ← chart_root chart;
  mret (select_below root p sel).

(** [chart.select(sel)[0][0]] *)
Definition chart_select (chart : Chart) (sel : Selector) : M (option Path) :=
  root ← chart_root chart;
  mret (select_below root [] sel).

(** [node.children] *)
Definition node_children (chart : Chart) (p : Path) : M (list Path) :=
  root ← chart_root chart;
  mret (match node_at root p with
        | Some n => List.map (fun i => p ++ [i]) (seq 0 (length (children n)))
        | None => []
        end).

Definition set_attribute (chart : Chart) (p : Path) (attrName attrValue : string) : M () :=
  root ← chart_root chart;
  match root with
  | Some r => set_dom (chart_id chart) (update_at p (setAttribute attrName attrValue) r)
  | None => mret ()
  end.

(** What [customizer] is applied to: one element or a collection. *)
Inductive Customized :=
| OneElement (p : Path)
| Collection (ps : list Path).

(** [customizer(element)(attrName, attrValue, attrValueTransformFn)]: set
    [attrName] to [attrValue] for the element(s) if [attrValue] is truthy;
    [element] is [None] when it is [null]. *)
Definition customizer (chart : Chart) (element : option Customized)
    (attrName : string) (attrValue : JsValue)
    (attrValueTransformFn : option (JsValue -> JsValue)) : M () :=
  if truthy attrValue
  then
    let attrValue :=
      match attrValueTransformFn with
      | Some f => f attrValue
      | None => attrValue
      end in
    e ← prop "element.length" element;
    match e with
    | Collection ps =>
        forEach (fun _ p => set_attribute chart p attrName (to_string attrValue)) 0 ps
    | OneElement p => set_attribute chart p attrName (to_string attrValue)
    end
  else mret ().

Definition lineAndBarOnRender (chart : Chart) (card : Card) : M () :=
  svg ← chart_svg chart;
  let settings := visualization_settings card in
  let x := vs_xAxis settings in
  let y := vs_yAxis settings in
  (* x-axis label customizations *)
  try_catch (
    e ← svg_select chart svg [class_sel ["x-axis-label"]];
    let customizeX := customizer chart (OneElement <$> e) in
    x' ← prop "x.title_color" x;
    customizeX "fill" (title_color x') None;;
    customizeX "font-size" (title_font_size x') None);;
  (* y-axis label customizations *)
  try_catch (
    e ← svg_select chart svg [class_sel ["y-axis-label"]];
    let customizeY := customizer chart (OneElement <$> e) in
    y' ← prop "y.title_color" y;
    customizeY "fill" (title_color y') None;;
    customizeY "font-size" (title_font_size y') None);;
  (* grid lines - .grid-line .horizontal, .vertical *)
  try_catch (
    e ← svg_select chart svg [class_sel ["grid-line"; "vertical"]];
    p ← prop "svg.select('.grid-line.vertical')[0][0].children" e;
    cs ← node_children chart p;
    let customizeVertGL := customizer chart (Some (Collection cs)) in
    x' ← prop "x.gridLineWidth" x;
    customizeVertGL "stroke-width" (gridLineWidth x') None;;
    customizeVertGL "style" (gridLineColor x')
      (Some (fun colorStr => js_add (js_add (VStr "stroke:") colorStr) (VStr ";"))));;
  try_catch (
    e ← svg_select chart svg [class_sel ["grid-line"; "horizontal"]];
    p ← prop "svg.select('.grid-line.horizontal')[0][0].children" e;
    cs ← node_children chart p;
    let customizeHorzGL := customizer chart (Some (Collection cs)) in
    y' ← prop "y.gridLineWidth" y;
    customizeHorzGL "stroke-width" (gridLineWidth y') None;;
    customizeHorzGL "style" (gridLineColor y')
      (Some (fun colorStr => js_add (js_add (VStr "stroke:") (VStr "#ddd")) (VStr ";"))));;
  chart_call chart "on"
    [AVal (VStr "renderlet.lineAndBarOnRender"); ARenderlet RLineAndBarOnRender];;
  (* adjust the margins to fit the Y-axis tick label sizes, and rerender *)
  root ← chart_root chart;
  ay ← chart_select chart [class_sel ["axis"; "y"]];
  ny ← prop "chart.select('.axis.y')[0][0]" (ay ≫= node_at root);
  emit (EvAssign (TChart (chart_id chart)) "margins().left" (ANum ((getBBox ny).1 + 30)));;
  ax ← chart_select chart [class_sel ["axis"; "x"]];
  nx ← prop "chart.select('.axis.x')[0][0]" (ax ≫= node_at root);
  emit (EvAssign (TChart (chart_id chart)) "margins().bottom" (ANum ((getBBox nx).2 + 30)));;
  chart_render chart.

(** The two halves of [lineAndBarOnRender], for reference in the
    properties: the four [try] blocks, given the value of [chart.svg()],
    and the statements after them. *)
Definition lineAndBarOnRender_styling (chart : Chart) (card : Card)
    (svg : option Path) : M () :=
  let settings := visualization_settings card in
  let x := vs_xAxis settings in
  let y := vs_yAxis settings in
  try_catch (
    e ← svg_select chart svg [class_sel ["x-axis-label"]];
    let customizeX := customizer chart (OneElement <$> e) in
    x' ← prop "x.title_color" x;
    customizeX "fill" (title_color x') None;;
    customizeX "font-size" (title_font_size x') None);;
  try_catch (
    e ← svg_select chart svg [class_sel ["y-axis-label"]];
    let customizeY := customizer chart (OneElement <$> e) in
    y' ← prop "y.title_color" y;
    customizeY "fill" (title_color y') None;;
    customizeY "font-size" (title_font_size y') None);;
  try_catch (
    e ← svg_select chart svg [class_sel ["grid-line"; "vertical"]];
    p ← prop "svg.select('.grid-line.vertical')[0][0].children" e;
    cs ← node_children chart p;
    let customizeVertGL := customizer chart (Some (Collection cs)) in
    x' ← prop "x.gridLineWidth" x;
    customizeVertGL "stroke-width" (gridLineWidth x') None;;
    customizeVertGL "style" (gridLineColor x')
      (Some (fun colorStr => js_add (js_add (VStr "stroke:") colorStr) (VStr ";"))));;
  try_catch (
    e ← svg_select chart svg [class_sel ["grid-line"; "horizontal"]];
    p ← prop "svg.select('.grid-line.horizontal')[0][0].children" e;
    cs ← node_children chart p;
    let customizeHorzGL := customizer chart (Some (Collection cs)) in
    y' ← prop "y.gridLineWidth" y;
    customizeHorzGL "stroke-width" (gridLineWidth y') None;;
    customizeHorzGL "style" (gridLineColor y')
      (Some (fun colorStr => js_add (js_add (VStr "stroke:") (VStr "#ddd")) (VStr ";")))).

Definition lineAndBarOnRender_margins (chart : Chart) : M () :=
  chart_call chart "on"
    [AVal (VStr "renderlet.lineAndBarOnRender"); ARenderlet RLineAndBarOnRender];;
  root ← chart_root chart;
  ay ← chart_select chart [class_sel ["axis"; "y"]];
  ny ← prop "chart.select('.axis.y')[0][0]" (ay ≫= node_at root);
  emit (EvAssign (TChart (chart_id chart)) "margins().left" (ANum ((getBBox ny).1 + 30)));;
  ax ← chart_select chart [class_sel ["axis"; "x"]];
  nx ← prop "chart.select('.axis.x')[0][0]" (ax ≫= node_at root);
  emit (EvAssign (TChart (chart_id chart)) "margins().bottom" (ANum ((getBBox nx).2 + 30)));;
  chart_render chart.

Definition on_lineAndBarOnRender (chart : Chart) : Event :=
  EvCall (TChart (chart_id chart)) "on"
    [AVal (VStr "renderlet.lineAndBarOnRender"); ARenderlet RLineAndBarOnRender].

(** Worlds that differ at most in the attributes of the elements of a
    chart: the same trace, the same identities, and every selector finds
    the same element below the chart's anchor. *)
Definition same_but_attrs (chart : nat) (w w' : World) : Prop :=
  trace w' = trace w
  /\ fresh w' = fresh w
  /\ forall sel, select_below (doms w' !! chart) [] sel
                 = select_below (doms w !! chart) [] sel.

(** A computation that changes at most attributes of elements of the
    chart. *)
Definition attrs_only {A : Type} (chart : nat) (m : M A) : Prop :=
  forall w, same_but_attrs chart w (m w).2.

(** A computation that, when it returns, returns [a]. *)
Definition returns {A : Type} (a : A) (m : M A) : Prop :=
  forall w b w', m w = (Ok b, w') -> b = a.

(** A computation that only adds to the trace. *)
Definition extends {A : Type} (m : M A) : Prop :=
  forall w, exists new, trace (m w).2 = new ++ trace w.

(** *** The renderers *)

(** The props the card renderers read: [{ card, data, onHoverChange }]. *)
Record CardProps := {
  p_card : Card;
  p_data : Dataset;
  p_onHoverChange : option Callback
}.

Record Series := {
  s_card : Card;
  s_data : Dataset
}.

(** The props [lineAreaBar] reads: [{ series, onHoverChange, onRender }]. *)
Record ChartProps := {
  p_series : list Series;
  p_hover : option Callback;
  p_onRender : option Callback
}.

(** [{ key: row[0], value: row[1] }] and the like. *)
Definition record2 (k1 : string) (v1 : Cell) (k2 : string) (v2 : Cell) : CfRecord :=
  <[k2 := v2]> {[k1 := v1]}.

Definition CardRenderer_pie (element : Elem) (props : CardProps) : M () :=
  let card := p_card props in
  let result := p_data props in
  let onHoverChange := p_onHoverChange props in
  let settings := visualization_settings card in
  let data := List.map (fun row => (js_index row 0, js_index row 1)) (rows result) in
  let sumTotalValue := foldl (fun acc d => js_add acc d.2) (VNum 0) data in
  (* build crossfilter dataset + dimension + base group *)
  let records := List.map (fun d => record2 "key" (CVal d.1) "value" (CVal d.2)) data in
  emit (EvCrossfilter records);;
  let dimension := {| dim_records := records; dim_key := AccField "key" |} in
  let group := {| grp_dimension := dimension; grp_reduce := ReduceSum (AccField "value") |} in
  chart ← initializeChart card element None;
  chart_call chart "dimension" [ADimension dimension];;
  chart_call chart "group" [AGroup group];;
  pie ← prop "settings.pie" (vs_pie settings);
  chart_call chart "colors" [AValues (pie_colors pie)];;
  chart_call chart "colorCalculator" [AFn (FnPieColor (pie_colors pie))];;
  chart_call chart "label" [AFn (FnPieLabel (head (cols result)))];;
  chart_call chart "title" [AFn (FnPieTitle sumTotalValue)];;
  (* disables ability to select slices *)
  emit (EvAssign (TChart (chart_id chart)) "filter" (AFn FnNoop));;
  applyChartTooltips chart (HoverUser <$> onHoverChange);;
  chart_render chart.

(** [isTimeseries ? new Date(v) : v] *)
Definition x_cell (isTimeseries : bool) (v : JsValue) : Cell :=
  if isTimeseries then CDate (new_Date v) else CVal v.

(** [colors[index % colors.length]] *)
Definition color_at (colors : list JsValue) (index : nat) : JsValue :=
  match length colors with
  | O => VUndefined
  | S _ => default VUndefined (colors !! (index mod length colors))
  end.

(** The data [lineAreaBar] derives from its series.  The record of a
    row of series [index] is [{ x: ..., ["y" + index]: row[1] }]. *)
Definition series_records (isTimeseries : bool) (index : nat) (s : Series)
  : list CfRecord :=
  List.map (fun row =>
         record2 "x" (x_cell isTimeseries (js_index row 0))
                 ("y" +:+ pretty index) (CVal (js_index row 1)))
      (rows (s_data s)).

(** [dataset.dimension(d => d.x)], once every series has been added. *)
Definition series_dimension (isTimeseries : bool) (series : list Series) : Dimension :=
  {| dim_records := mjoin (imap (series_records isTimeseries) series);
     dim_key := AccField "x" |}.

(** [dimension.group().reduceSum(d => (d["y" + index] || 0))] *)
Definition series_group (dimension : Dimension) (index : nat) : Group :=
  {| grp_dimension := dimension;
     grp_reduce := ReduceSum (AccFieldOrZero ("y" +:+ pretty index)) |}.

Definition series_groups (isTimeseries : bool) (series : list Series) : list Group :=
  imap (fun index (_ : Series) =>
          series_group (series_dimension isTimeseries series) index)
       series.

(** [dimension.group().all().map(d => d.key)] *)
Definition series_xValues (isTimeseries : bool) (series : list Series) : list Cell :=
  (group_all {| grp_dimension := series_dimension isTimeseries series;
                grp_reduce := ReduceCount |}).*1.

(** [computeSplit(groups.map(group => d3.extent(group.all(), d => d.value)))] *)
Definition series_yAxisSplit (isTimeseries : bool) (series : list Series)
  : list (list nat) :=
  let yExtents :=
    List.map (fun group => d3_extent (List.map (fun d => CVal d.2) (group_all group)))
        (series_groups isTimeseries series) in
  computeSplit yExtents.

Definition CardRenderer_lineAreaBar (element : Elem) (chartType : string)
    (props : ChartProps) : M () :=
  let series := p_series props in
  let onHoverChange := p_hover props in
  let onRender := p_onRender props in
  s0 ← prop "series[0]" (head series);
  let card := s_card s0 in
  let result := s_data s0 in
  let colors := getCardColors card in
  let isTimeseries := dimensionIsTimeseries result in
  let isStacked := String.eqb chartType "area" in
  let isLinear := false in
  (* validation.  we require at least 2 rows for line charting *)
  if (length (cols result) <? 2)%nat then mret ()
  else
    (* pre-process data: a clone of each row with its first value
       converted; only handed to applyChartYAxis, which does not read it *)
    let data :=
      List.map (fun row => x_cell isTimeseries (js_index row 0) :: (CVal <$> tail row))
          (rows result) in
    (* build crossfilter dataset + dimension + base group *)
    emit (EvCrossfilter []);;
    forEach (fun index s => emit (EvCrossfilterAdd (series_records isTimeseries index s)))
            0 series;;
    let dimension := series_dimension isTimeseries series in
    let groups := series_groups isTimeseries series in
    let xValues := series_xValues isTimeseries series in
    let yAxisSplit := series_yAxisSplit isTimeseries series in
    chart ←
      (if isStacked || (length series =? 1)%nat
       then
         chart ← initializeChart (s_card s0) element None;
         chart_call chart "dimension" [ADimension dimension];;
         chart_call chart "group" [AGroup (series_group dimension 0)];;
         (* apply any stacked series if applicable *)
         forEach (fun _ g => chart_call chart "stack" [AGroup g]) 1 (tail groups);;
         applyChartLineBarSettings chart card chartType;;
         chart_call chart "ordinalColors" [AValues colors];;
         mret chart
       else
         chart ← initializeChart card element (Some "compositeChart");
         subCharts ←
           mapM (fun _ (_ : Series) =>
                   dc_create (getDcjsChartType (display (s_card s0)))
                             (PChart (chart_id chart)))
                0 series;
         forEach (fun index subChart =>
                    chart_call subChart "dimension" [ADimension dimension];;
                    chart_call subChart "group" [AGroup (series_group dimension index)];;
                    chart_call subChart "colors" [AVal (color_at colors index)];;
                    chart_call subChart "useRightYAxis"
                      [AVal (VBool ((1 <? length yAxisSplit)%nat
                                    && bool_decide (index ∈ default [] (yAxisSplit !! 1))))];;
                    applyChartLineBarSettings subChart card chartType;;
                    (* BAR *)
                    if dc_has (chart_type subChart) "barPadding"
                    then
                      chart_call subChart "barPadding" [BAR_PADDING_RATIO];;
                      chart_call subChart "centerBar" [AVal (VBool isLinear)]
                    else mret ())
                 0 subCharts;;
         chart_call chart "compose" [ACharts (chart_id <$> subCharts)];;
         chart_call chart "on"
           [AVal (VStr "renderlet.groupedbar"); ARenderlet RGroupedBar];;
         (* HACK: compositeChart + ordinal X axis shenanigans *)
         (if String.eqb chartType "bar"
          then chart_call chart "_rangeBandPadding" [BAR_PADDING_RATIO]
          else chart_call chart "_rangeBandPadding" [ANum 1]);;
         mret chart);
    (* x-axis settings *)
    (if isTimeseries
     then applyChartTimeseriesXAxis chart card (cols result) xValues
     else applyChartOrdinalXAxis chart card (cols result) xValues);;
    (* y-axis settings *)
    applyChartYAxis chart card (cols result);;
    applyChartTooltips chart (Some (HoverLineAreaBar onHoverChange));;
    (* disable brushing, it intercepts mouse hovers *)
    (if dc_has (chart_type chart) "brushOn"
     then chart_call chart "brushOn" [AVal (VBool false)]
     else mret ());;
    (* render *)
    chart_render chart;;
    (* apply any on-rendering functions *)
    lineAndBarOnRender chart card;;
    match onRender with
    | Some f => emit (EvCallback f [OSplit yAxisSplit])
    | None => mret ()
    end.

Definition CardRenderer_bar (element : Elem) (props : ChartProps) : M () :=
  CardRenderer_lineAreaBar element "bar" props.

Definition CardRenderer_line (element : Elem) (props : ChartProps) : M () :=
  CardRenderer_lineAreaBar element "line" props.

Definition CardRenderer_area (element : Elem) (props : ChartProps) : M () :=
  CardRenderer_lineAreaBar element "area" props.

(** The renderer of the sibling module [GeoHeatmapChartRenderer] is known
    by the calls made on it; each method of the chain is taken to return
    the renderer, which is how the chain is written. *)
Definition geo_call (renderer : nat) (method : string) (args : list Arg) : M () :=
  emit (EvGeoCall renderer method args).

Definition CardRenderer_state (element : Elem) (props : CardProps) : M nat :=
  let card := p_card props in
  let data := p_data props in
  let onHoverChange := p_onHoverChange props in
  let chartData :=
    List.map (fun value => record2 "stateCode" (CVal (js_index value 0))
                               "value" (CVal (js_index value 1)))
        (rows data) in
  chartRenderer ← next_id;
  emit (EvGeoNew chartRenderer element card data);;
  geo_call chartRenderer "setData"
    [ARecords chartData; AVal (VStr "stateCode"); AVal (VStr "value")];;
  geo_call chartRenderer "setJson"
    [AVal (VStr "/app/charts/us-states.json"); AFn (FnFeatureProperty "name")];;
  geo_call chartRenderer "setProjection" [AProjection "albersUsa"];;
  geo_call chartRenderer "customize"
    [AFn (FnCustomizeTooltips (HoverState data onHoverChange))];;
  geo_call chartRenderer "render" [];;
  mret chartRenderer.

(** The country code of a row of [CardRenderer.country]:
    [value[0].substring(0, 2).toUpperCase()] for a string.  It is the
    program's where the first two characters of the string are ASCII
    ([code_in_ascii] below). *)
Definition countryCode (value : list JsValue) : JsValue :=
  let countryCode := js_index value 0 in
  match countryCode with
  | VStr s => VStr (toUpperCase (String.substring 0 2 s))
  | _ => countryCode
  end.

(** The first values whose country code is computed within the ASCII
    alphabet: the values that are not strings, and the strings whose
    first two characters are ASCII. *)
Definition code_in_ascii (v : JsValue) : bool :=
  match v with
  | VStr s => ascii_only (String.substring 0 2 s)
  | _ => true
  end.

Definition CardRenderer_country (element : Elem) (props : CardProps) : M nat :=
  let card := p_card props in
  let data := p_data props in
  let onHoverChange := p_onHoverChange props in
  let chartData :=
    List.map (fun value => record2 "code" (CVal (countryCode value))
                               "value" (CVal (js_index value 1)))
        (rows data) in
  chartRenderer ← next_id;
  emit (EvGeoNew chartRenderer element card data);;
  geo_call chartRenderer "setData"
    [ARecords chartData; AVal (VStr "code"); AVal (VStr "value")];;
  geo_call chartRenderer "setJson"
    [AVal (VStr "/app/charts/world.json"); AFn (FnFeatureProperty "ISO_A2")];;
  geo_call chartRenderer "setProjection" [AProjection "mercator"];;
  geo_call chartRenderer "customize"
    [AFn (FnCustomizeTooltips (HoverCountry data onHoverChange))];;
  geo_call chartRenderer "render" [];;
  mret chartRenderer.


Definition CardRenderer_pin_map (element : Elem) (card : Card)
    (updateMapCenter updateMapZoom : Callback) : M () :=
  let query := dataset_query card in
  let vs := visualization_settings card in
  map ← prop "vs.map" (vs_map vs);
  let latitude_dataset_col_index := latitude_dataset_col_index map in
  let longitude_dataset_col_index := longitude_dataset_col_index map in
  let latitude_source_table_field_id := latitude_source_table_field_id map in
  let longitude_source_table_field_id := longitude_source_table_field_id map in
  if is_nullish latitude_dataset_col_index || is_nullish longitude_dataset_col_index
  then mret ()
  else if is_nullish latitude_source_table_field_id
          || is_nullish longitude_source_table_field_id
  then throw (ExnString "Map ERROR: latitude and longitude column indices must be specified")
  else if is_nullish latitude_dataset_col_index || is_nullish longitude_dataset_col_index
  then throw (ExnString "Map ERROR: unable to find specified latitude / longitude columns in source table")
  else
    let mapOptions :=
      {| mo_zoom := map_zoom map;
         mo_center := {| lat := center_latitude map; lng := center_longitude map |};
         mo_mapTypeId := "google.maps.MapTypeId.MAP";
         mo_scrollwheel := false |} in
    let markerImageMapType :=
      {| getTileUrl :=
           {| cap_latitude_source_table_field_id := latitude_source_table_field_id;
              cap_longitude_source_table_field_id := longitude_source_table_field_id;
              cap_latitude_dataset_col_index := latitude_dataset_col_index;
              cap_longitude_dataset_col_index := longitude_dataset_col_index;
              cap_query := query |};
         tileSize := (256, 256)%Z |} in
    (match getAvailableCanvasHeight element with
     | Some height => emit (EvStyle element "height" (pretty height +:+ "px"))
     | None => mret ()
     end);;
    (match getAvailableCanvasWidth element with
     | Some width => emit (EvStyle element "width" (pretty width +:+ "px"))
     | None => mret ()
     end);;
    emit (EvMapNew element mapOptions);;
    emit (EvOverlayPush markerImageMapType);;
    emit (EvMapListener "center_changed" (OnCenterChanged updateMapCenter));;
    emit (EvMapListener "zoom_changed" (OnZoomChanged updateMapZoom));;
    (* trigger resize at least once after the map is (re)configured *)
    emit (EvMapsTrigger "resize");;
    (* listen for the resize event internal to CardRenderer *)
    emit (EvElementListener element "cardrenderer-card-resized" OnCardResized).

(** *** The exported object *)

(** A method of [CardRenderer], by the shape of its parameters. *)
Inductive Method :=
| CardMethod (f : Elem -> CardProps -> M ())
| TypedChartMethod (f : Elem -> string -> ChartProps -> M ())
| ChartMethod (f : Elem -> ChartProps -> M ())
| GeoMethod (f : Elem -> CardProps -> M nat)
| MapMethod (f : Elem -> Card -> Callback -> Callback -> M ()).

(** [CardRenderer[key]] *)
Definition CardRenderer (key : string) : option Method :=
  if String.eqb key "pie" then Some (CardMethod CardRenderer_pie)
  else if String.eqb key "lineAreaBar" then Some (TypedChartMethod CardRenderer_lineAreaBar)
  else if String.eqb key "bar" then Some (ChartMethod CardRenderer_bar)
  else if String.eqb key "line" then Some (ChartMethod CardRenderer_line)
  else if String.eqb key "area" then Some (ChartMethod CardRenderer_area)
  else if String.eqb key "state" then Some (GeoMethod CardRenderer_state)
  else if String.eqb key "country" then Some (GeoMethod CardRenderer_country)
  else if String.eqb key "pin_map" then Some (MapMethod CardRenderer_pin_map)
  else None.

(** What dc.js does with a registered listener when it fires
    ["renderlet"]: it runs it on the chart.  The listener of
    [applyChartTooltips] is interpreted; the other two rearrange bars and
    clip paths and are not. *)
Definition run_renderlet (r : Renderlet) : option (Node -> Node) :=
  match r with
  | RTooltips onHoverChange => Some (renderlet_tooltips onHoverChange)
  | RGroupedBar | RLineAndBarOnRender => None
  end.

(** *** The properties in the words of the specification *)


(** Upper case, by the alphabet: a lower case letter becomes the upper
    case letter at the same place, any other character stays. *)
Definition upper_case_letter (c : ascii) : ascii :=
  default c
    (snd <$> List.find (fun p => Ascii.eqb p.1 c)
               (zip (list_ascii_of_string "abcdefghijklmnopqrstuvwxyz")
                    (list_ascii_of_string "ABCDEFGHIJKLMNOPQRSTUVWXYZ"))).

(** The country code of a first value: the first two characters of a
    string, converted to upper case; any other value unchanged. *)
Definition country_code_spec (v : JsValue) : JsValue :=
  match v with
  | VStr s =>
      VStr (string_of_list_ascii
              (upper_case_letter <$> take 2 (list_ascii_of_string s)))
  | _ => v
  end.

(** A computation that only adds events that [keep] accepts to the
    trace, whether it returns or throws; one that moreover always
    throws. *)
Definition emits_only {A : Type} (keep : Event -> bool) (m : M A) : Prop :=
  forall w, exists new,
    trace (m w).2 = new ++ trace w /\ forallb keep new = true.

Definition fails_emitting {A : Type} (keep : Event -> bool) (m : M A) : Prop :=
  forall w,
    (exists e, (m w).1 = Throw e)
    /\ exists new, trace (m w).2 = new ++ trace w /\ forallb keep new = true.

(** The events that are not the render of a chart, not the creation of a
    chart, and not the making or filling of a crossfilter dataset. *)
Definition not_render (ev : Event) : bool :=
  match ev with
  | EvCall (TChart _) method _ => negb (String.eqb method "render")
  | _ => true
  end.

Definition not_dc (ev : Event) : bool :=
  match ev with
  | EvDc _ _ _ => false
  | _ => true
  end.

Definition not_crossfilter (ev : Event) : bool :=
  match ev with
  | EvCrossfilter _ | EvCrossfilterAdd _ => false
  | _ => true
  end.

(** The charts created, and the crossfilter events, among some events. *)
Definition dcs (evs : list Event) : list (nat * string * Parent) :=
  omap (fun ev => match ev with
                  | EvDc chart chartType parent => Some (chart, chartType, parent)
                  | _ => None
                  end) evs.

Definition crossfilters (evs : list Event) : list Event :=
  List.filter (fun ev => negb (not_crossfilter ev)) evs.

End CardRenderer.

(** ** Concrete inputs *)

Module Samples.

Definition el (id : nat) (tag : string) (classes : list string) : Elem :=
  {| el_id := id; el_tag := tag; el_classes := classes |}.

Definition node (e : Elem) (d : JsValue) (cs : list Node) : Node :=
  mkNode e ∅ (OPrim d) ∅ cs.

(** A rendered bar chart: axes, axis labels, grid lines and two bars,
    the first with a [title]. *)
Definition svg : Node :=
  node (el 1 "svg" []) VUndefined
    [node (el 2 "g" ["axis"; "x"]) VUndefined [];
     node (el 3 "text" ["x-axis-label"]) VUndefined [];
     node (el 4 "g" ["axis"; "y"]) VUndefined [];
     node (el 5 "text" ["y-axis-label"]) VUndefined [];
     node (el 6 "g" ["grid-line"; "vertical"]) VUndefined
       [node (el 7 "line" []) VUndefined []; node (el 8 "line" []) VUndefined []];
     node (el 9 "g" ["grid-line"; "horizontal"]) VUndefined
       [node (el 10 "line" []) VUndefined []];
     node (el 11 "g" ["chart-body"]) VUndefined
       [node (el 12 "rect" ["bar"]) (VNum 7)
          [node (el 13 "title" []) VUndefined []];
        node (el 14 "rect" ["bar"]) (VNum 9) []]].

Definition root : Node := node (el 0 "div" []) VUndefined [svg].

(** A tree with the two axes and nothing to style: no axis label and no
    grid line. *)
Definition axes_only_root : Node :=
  node (el 0 "div" []) VUndefined
    [node (el 1 "svg" []) VUndefined
       [node (el 2 "g" ["axis"; "x"]) VUndefined [];
        node (el 3 "g" ["axis"; "y"]) VUndefined []]].

(** A tree dc.js has not drawn any axis in. *)
Definition bare_root : Node :=
  node (el 0 "div" []) VUndefined [node (el 1 "svg" []) VUndefined []].

(** dc.js 2.0: the methods this module probes for. *)
Definition has (chartType method : string) : bool :=
  if String.eqb method "brushOn"
  then bool_decide (chartType ∈ ["lineChart"; "barChart"; "compositeChart"])
  else if String.eqb method "interpolate" then String.eqb chartType "lineChart"
  else if String.eqb method "renderArea" then String.eqb chartType "lineChart"
  else if String.eqb method "barPadding" then String.eqb chartType "barChart"
  else if String.eqb method "rightYAxis" then String.eqb chartType "compositeChart"
  else false.

(** [JSON.stringify] on documents whose strings need no escape. *)
Definition quote : string := String "034"%char EmptyString.

Fixpoint stringify (j : Json) : string :=
  match j with
  | JNull => "null"
  | JBool true => "true"
  | JBool false => "false"
  | JNum n => pretty n
  | JStr s => quote +:+ s +:+ quote
  | JArr items => "[" +:+ String.concat "," (List.map stringify items) +:+ "]"
  | JObj fields =>
      "{"
      +:+ String.concat ","
            (List.map (fun field =>
                         match field with
                         | (k, v) => quote +:+ k +:+ quote +:+ ":" +:+ stringify v
                         end) fields)
      +:+ "}"
  end.

(** [encodeURIComponent] on ASCII strings: every character but the
    letters, the digits and [- _ . ! ~ * ' ( )] becomes [%] and its code
    in two hexadecimal digits. *)
Definition hex_digit (n : nat) : ascii :=
  default "0"%char (list_ascii_of_string "0123456789ABCDEF" !! n).

Definition unreserved (c : ascii) : bool :=
  let n := nat_of_ascii c in
  (48 <=? n)%nat && (n <=? 57)%nat
  || (65 <=? n)%nat && (n <=? 90)%nat
  || (97 <=? n)%nat && (n <=? 122)%nat
  || bool_decide (c ∈ list_ascii_of_string "-_.!~*'()").

Fixpoint encode (s : string) : string :=
  match s with
  | EmptyString => EmptyString
  | String c s' =>
      if unreserved c then String c (encode s')
      else String "%"%char
             (String (hex_digit (nat_of_ascii c / 16))
                (String (hex_digit (nat_of_ascii c mod 16)) (encode s')))
  end.

Definition env_with (rendered : Node) : Env :=
  {| JSON_stringify := stringify;
     encodeURIComponent := encode;
     getAvailableCanvasWidth := fun _ => Some 400%Z;
     getAvailableCanvasHeight := fun _ => Some 300%Z;
     computeSplit := fun extents => [seq 0 (length extents)];
     getFriendlyName := fun c => from_option display_name VUndefined c;
     getCardColors := fun _ => [VStr "#509EE3"; VStr "#9CC177"];
     computeTimeseriesTicksInterval := fun _ _ _ _ => ("month", VNum 1);
     determineSeriesIndexFromElement := fun _ => VNum 0;
     string_is_numeric := fun _ => false;
     Date_parse := fun _ => None;
     group_all := fun _ => [];
     d3_extent := fun _ => (CVal VUndefined, CVal VUndefined);
     d3_time := fun name => bool_decide (name ∈ ["days"; "weeks"; "months"; "years"]);
     dc_constructor := fun name => bool_decide (name ∈ ["rowChart"; "scatterPlot"]);
     dc_has := has;
     dc_width := fun _ _ => 400%Z;
     dc_height := fun _ _ => 300%Z;
     axis_ticks := fun _ _ _ => TicksArray [Some 10%Z];
     dc_render := fun _ _ => rendered;
     getBBox := fun _ => (40, 20)%Z |}.

Definition env : Env := env_with root.

Definition world : World := mkWorld [] ∅ 0.

Definition axis : AxisSettings :=
  {| labels_enabled := VBool true;
     title_text := VNull;
     gridLine_enabled := VBool true;
     title_color := VStr "#707070";
     title_font_size := VNum 12;
     gridLineWidth := VNum 1;
     gridLineColor := VStr "#999999" |}.

Definition map_settings (lat_col lon_col lat_field lon_field : JsValue) : MapSettings :=
  {| latitude_dataset_col_index := lat_col;
     longitude_dataset_col_index := lon_col;
     latitude_source_table_field_id := lat_field;
     longitude_source_table_field_id := lon_field;
     map_zoom := VNum 9;
     center_latitude := VNum 37;
     center_longitude := VNum (-122) |}.

Definition settings (map : option MapSettings) : VisualizationSettings :=
  {| vs_xAxis := Some axis;
     vs_yAxis := Some axis;
     vs_line := Some {| line_step := VBool false |};
     vs_pie := Some {| pie_legend_enabled := VBool false;
                       pie_colors := [VStr "#509EE3"; VStr "#9CC177"] |};
     vs_chart := Some {| chart_legend_enabled := VBool false |};
     vs_map := map |}.

Definition card (display : string) (map : option MapSettings) : Card :=
  {| display := display;
     dataset_query := JObj [("database", JNum 1)];
     visualization_settings := settings map |}.

Definition column (name : string) : Col :=
  {| base_type := VStr "TextField"; display_name := VStr name; col_unit := VUndefined |}.

Definition dataset : Dataset :=
  {| cols := [column "Country"; column "Count"];
     rows := [[VStr "united states"; VNum 12]; [VStr "fr"; VNum 5]; [VNum 44; VNum 3]] |}.

Definition one_column : Dataset :=
  {| cols := [column "Count"]; rows := [[VNum 12]] |}.

Definition card_props : CardProps :=
  {| p_card := card "pie" None; p_data := dataset; p_onHoverChange := Some 1 |}.

Definition chart_props (data : Dataset) : ChartProps :=
  {| p_series := [{| s_card := card "bar" None; s_data := data |}];
     p_hover := Some 1;
     p_onRender := Some 2 |}.

Definition target : Elem := el 0 "div" ["card"].

(** A bar chart that has been rendered once. *)
Definition bar_chart : Chart := {| chart_id := 0; chart_type := "barChart" |}.

Definition rendered_world : World := mkWorld [] {[0 := root]} 1.


(** An axis with labels and grid lines disabled. *)
Definition quiet_axis : AxisSettings :=
  {| labels_enabled := VBool false;
     title_text := VNull;
     gridLine_enabled := VBool false;
     title_color := VStr "#707070";
     title_font_size := VNum 12;
     gridLineWidth := VNum 1;
     gridLineColor := VStr "#999999" |}.

Definition quiet_card : Card :=
  {| display := "bar";
     dataset_query := JObj [("database", JNum 1)];
     visualization_settings :=
       {| vs_xAxis := Some quiet_axis;
          vs_yAxis := Some quiet_axis;
          vs_line := None;
          vs_pie := None;
          vs_chart := None;
          vs_map := None |} |}.

(** A card whose visualization settings have no group at all. *)
Definition bare_card (display : string) : Card :=
  {| display := display;
     dataset_query := JObj [("database", JNum 1)];
     visualization_settings :=
       {| vs_xAxis := None;
          vs_yAxis := None;
          vs_line := None;
          vs_pie := None;
          vs_chart := None;
          vs_map := None |} |}.

Definition quarter_column : Col :=
  {| base_type := VStr "DateTimeField";
     display_name := VStr "Created";
     col_unit := VStr "quarter" |}.

Definition bare_props (display : string) : ChartProps :=
  {| p_series := [{| s_card := bare_card display; s_data := dataset |}];
     p_hover := None;
     p_onRender := None |}.

Definition two_series : ChartProps :=
  {| p_series := [{| s_card := card "line" None; s_data := dataset |};
                  {| s_card := card "line" None; s_data := dataset |}];
     p_hover := Some 1;
     p_onRender := None |}.
End Samples.

(** * Properties *)

Section Properties.
Context `{Env}.

(** ** Reasoning about computations *)



Lemma emitted_prefix {A : Type} (m : M A) (w : World) (new : list Event) :
  trace (m w).2 = new ++ trace w -> emitted m w = new.
Proof.
  intros E. unfold emitted. rewrite E, length_app.
  replace (length new + length (trace w) - length (trace w)) with (length new) by lia.
  apply take_app_length.
Qed.

Lemma bind_ok {A B : Type} (m : M A) (k : A -> M B) (w w' : World) (b : B) :
  (m ≫= k) w = (Ok b, w') ->
  exists a w1, m w = (Ok a, w1) /\ k a w1 = (Ok b, w').
Proof.
  unfold mbind, M_bind. destruct (m w) as [[a|e] w1]; [eauto | discriminate].
Qed.

(** ** The pin map *)

(** C1, as the code has it: when the latitude or longitude dataset column
    index is null or undefined, [pin_map] returns without a word and
    without touching anything; when both are there and the latitude or
    longitude source table field id is null or undefined, it throws the
    string "Map ERROR: latitude and longitude column indices must be
    specified"; in neither case is a map made. *)
Theorem pin_map_missing_configuration element card f g w m :
  vs_map (visualization_settings card) = Some m ->
  is_nullish (latitude_dataset_col_index m)
  || is_nullish (longitude_dataset_col_index m)
  || is_nullish (latitude_source_table_field_id m)
  || is_nullish (longitude_source_table_field_id m) = true ->
  CardRenderer_pin_map element card f g w =
  (if is_nullish (latitude_dataset_col_index m)
      || is_nullish (longitude_dataset_col_index m)
   then Ok ()
   else Throw (ExnString "Map ERROR: latitude and longitude column indices must be specified"),
   w).
Proof.
  intros Hm Hnull. unfold CardRenderer_pin_map. rewrite Hm. simpl.
  unfold mbind, M_bind, mret, M_ret. simpl.
  destruct (is_nullish (latitude_dataset_col_index m)
            || is_nullish (longitude_dataset_col_index m)) eqn:E1.
  - reflexivity.
  - simpl in Hnull. rewrite Hnull. reflexivity.
Qed.

(** C9: no call of [pin_map] throws "Map ERROR: unable to find specified
    latitude / longitude columns in source table": under the guard of
    that throw, that the latitude or longitude dataset column index is
    null or undefined, the function has already returned. *)
Theorem pin_map_second_throw_unreachable element card f g w :
  (CardRenderer_pin_map element card f g w).1 <>
  Throw (ExnString "Map ERROR: unable to find specified latitude / longitude columns in source table")
  /\ forall m,
       vs_map (visualization_settings card) = Some m ->
       is_nullish (latitude_dataset_col_index m)
       || is_nullish (longitude_dataset_col_index m) = true ->
       CardRenderer_pin_map element card f g w = (Ok (), w).
Proof.
  unfold CardRenderer_pin_map. split.
  - destruct (vs_map (visualization_settings card)) as [m|]; simpl; [|discriminate].
    unfold mbind, M_bind, mret, M_ret; simpl.
    destruct (is_nullish (latitude_dataset_col_index m)
              || is_nullish (longitude_dataset_col_index m)); [discriminate|].
    destruct (is_nullish (latitude_source_table_field_id m)
              || is_nullish (longitude_source_table_field_id m)); [discriminate|].
    destruct (getAvailableCanvasHeight element), (getAvailableCanvasWidth element);
      simpl; discriminate.
  - intros m -> Hguard. simpl.
    unfold mbind, M_bind, mret, M_ret; simpl. by rewrite Hguard.
Qed.



(** ** The geo heat maps *)

Lemma state_run element props w :
  CardRenderer_state element props w =
  (Ok (fresh w),
   mkWorld
     ([EvGeoCall (fresh w) "render" [];
       EvGeoCall (fresh w) "customize"
         [AFn (FnCustomizeTooltips (HoverState (p_data props) (p_onHoverChange props)))];
       EvGeoCall (fresh w) "setProjection" [AProjection "albersUsa"];
       EvGeoCall (fresh w) "setJson"
         [AVal (VStr "/app/charts/us-states.json"); AFn (FnFeatureProperty "name")];
       EvGeoCall (fresh w) "setData"
         [ARecords (List.map (fun value =>
                           record2 "stateCode" (CVal (js_index value 0))
                                   "value" (CVal (js_index value 1)))
                        (rows (p_data props)));
          AVal (VStr "stateCode"); AVal (VStr "value")];
       EvGeoNew (fresh w) element (p_card props) (p_data props)]
      ++ trace w)
     (doms w) (S (fresh w))).
Proof. reflexivity. Qed.

Lemma country_run element props w :
  CardRenderer_country element props w =
  (Ok (fresh w),
   mkWorld
     ([EvGeoCall (fresh w) "render" [];
       EvGeoCall (fresh w) "customize"
         [AFn (FnCustomizeTooltips (HoverCountry (p_data props) (p_onHoverChange props)))];
       EvGeoCall (fresh w) "setProjection" [AProjection "mercator"];
       EvGeoCall (fresh w) "setJson"
         [AVal (VStr "/app/charts/world.json"); AFn (FnFeatureProperty "ISO_A2")];
       EvGeoCall (fresh w) "setData"
         [ARecords (List.map (fun value =>
                           record2 "code" (CVal (countryCode value))
                                   "value" (CVal (js_index value 1)))
                        (rows (p_data props)));
          AVal (VStr "code"); AVal (VStr "value")];
       EvGeoNew (fresh w) element (p_card props) (p_data props)]
      ++ trace w)
     (doms w) (S (fresh w))).
Proof. reflexivity. Qed.

(** C4: whatever the input, [state] sets the JSON source of its renderer
    once, to ['/app/charts/us-states.json'] with the key function
    [d => d.properties.name], and [country] sets it once, to
    ['/app/charts/world.json'] with [d => d.properties.ISO_A2]; applied
    to a feature, the key functions give that property of the feature. *)
Theorem geo_heatmaps_fixed_json element props w :
  geo_calls "setJson" (emitted (CardRenderer_state element props) w)
  = [[AVal (VStr "/app/charts/us-states.json"); AFn (FnFeatureProperty "name")]]
  /\ geo_calls "setJson" (emitted (CardRenderer_country element props) w)
     = [[AVal (VStr "/app/charts/world.json"); AFn (FnFeatureProperty "ISO_A2")]]
  /\ forall name properties w',
       feature_property name (OFeature properties) w'
       = (Ok (default VUndefined (properties !! name)), w').
Proof.
  split; [|split].
  - erewrite emitted_prefix by (rewrite state_run; reflexivity). reflexivity.
  - erewrite emitted_prefix by (rewrite country_run; reflexivity). reflexivity.
  - reflexivity.
Qed.

Lemma first_two_upper (s : string) :
  toUpperCase (String.substring 0 2 s)
  = string_of_list_ascii (upper_char <$> take 2 (list_ascii_of_string s)).
Proof.
  destruct s as [|a [|b [|c s]]]; reflexivity.
Qed.

(** On every character, mapping [a]..[z] by their codes is upper case
    by the alphabet. *)
Lemma upper_char_letter (c : ascii) : upper_char c = upper_case_letter c.
Proof. destruct c as [[] [] [] [] [] [] [] []]; reflexivity. Qed.

Lemma countryCode_spec (value : list JsValue) :
  countryCode value = country_code_spec (js_index value 0).
Proof.
  unfold countryCode, country_code_spec.
  destruct (js_index value 0); try reflexivity.
  rewrite first_two_upper. do 2 f_equal.
  apply list_fmap_ext. intros _ c _. apply upper_char_letter.
Qed.

(** C10: the data [country] gives its renderer has one record per row,
    in the order of the rows.  For a row whose first value is a string
    with its first two characters in the ASCII alphabet, the code of the
    record is these two characters (or the only one, or none), each
    lower case letter replaced by the upper case letter of the alphabet
    and no other character changed; for a row whose first value is not a
    string, the code is that value itself. *)
Theorem country_code_first_two_characters element props w :
  exists chartData,
    geo_calls "setData" (emitted (CardRenderer_country element props) w)
    = [[ARecords chartData; AVal (VStr "code"); AVal (VStr "value")]]
    /\ length chartData = length (rows (p_data props))
    /\ forall i row,
         rows (p_data props) !! i = Some row ->
         code_in_ascii (js_index row 0) = true ->
         exists record,
           chartData !! i = Some record
           /\ record !! "code" = Some (CVal (country_code_spec (js_index row 0))).
Proof.
  eexists. split; [|split].
  - erewrite emitted_prefix by (rewrite country_run; reflexivity). reflexivity.
  - by rewrite length_map.
  - intros i row Hrow _. eexists. split.
    + rewrite list_lookup_fmap, Hrow. reflexivity.
    + unfold record2. rewrite lookup_insert_ne by done.
      rewrite lookup_singleton_eq. by rewrite countryCode_spec.
Qed.

(** ** Bar, line and area charts *)

(** C5: [CardRenderer] has the methods [pie], [line], [bar], [area],
    [state], [country] and [pin_map] (and [lineAreaBar]), and [bar],
    [line] and [area] compute what [lineAreaBar] computes with the chart
    type ["bar"], ["line"] and ["area"]. *)
Theorem CardRenderer_chart_kinds element props w :
  CardRenderer "pie" = Some (CardMethod CardRenderer_pie)
  /\ CardRenderer "line" = Some (ChartMethod CardRenderer_line)
  /\ CardRenderer "bar" = Some (ChartMethod CardRenderer_bar)
  /\ CardRenderer "area" = Some (ChartMethod CardRenderer_area)
  /\ CardRenderer "state" = Some (GeoMethod CardRenderer_state)
  /\ CardRenderer "country" = Some (GeoMethod CardRenderer_country)
  /\ CardRenderer "pin_map" = Some (MapMethod CardRenderer_pin_map)
  /\ CardRenderer "lineAreaBar" = Some (TypedChartMethod CardRenderer_lineAreaBar)
  /\ CardRenderer_bar element props w = CardRenderer_lineAreaBar element "bar" props w
  /\ CardRenderer_line element props w = CardRenderer_lineAreaBar element "line" props w
  /\ CardRenderer_area element props w = CardRenderer_lineAreaBar element "area" props w.
Proof. repeat split; reflexivity. Qed.

(** C8: when the result of the first series has fewer than two columns,
    [lineAreaBar] returns [undefined] and the world is as it was: no
    crossfilter dataset, no chart, no render, no callback. *)
Theorem lineAreaBar_fewer_than_two_columns element chartType props s0 w :
  head (p_series props) = Some s0 ->
  (length (cols (s_data s0)) < 2)%nat ->
  CardRenderer_lineAreaBar element chartType props w = (Ok (), w).
Proof.
  intros Hs Hc. unfold CardRenderer_lineAreaBar. rewrite Hs. simpl.
  unfold mbind, M_bind, mret, M_ret. simpl.
  destruct (Nat.ltb_spec (length (cols (s_data s0))) 2); [reflexivity | lia].
Qed.

(** ** Tooltips *)

Lemma Node_ind' (P : Node -> Prop) :
  (forall e a d l cs, Forall P cs -> P (mkNode e a d l cs)) ->
  forall n, P n.
Proof.
  intros step. fix rec 1. intros [e a d l cs]. apply step.
  induction cs as [|c cs IH]; constructor; [apply rec | apply IH].
Qed.

Lemma map_fmap {A B : Type} (f : A -> B) (l : list A) : List.map f l = f <$> l.
Proof. reflexivity. Qed.

Lemma descendants_bind (n : Node) :
  descendants n = children n ≫= fun c => c :: descendants c.
Proof.
  destruct n as [e a d l cs]. simpl.
  induction cs as [|c cs IH]; [reflexivity|].
  simpl. by rewrite IH.
Qed.

Lemma elem_of_descendants (n x : Node) :
  x ∈ descendants n <-> exists c, c ∈ children n /\ (x = c \/ x ∈ descendants c).
Proof.
  rewrite descendants_bind, list_elem_of_bind.
  split; intros (c & ? & ?); exists c.
  - rewrite elem_of_cons in *. tauto.
  - rewrite elem_of_cons. tauto.
Qed.

Lemma children_selectAll_remove (sel : Selector) (n : Node) :
  children (selectAll_remove sel n)
  = selectAll_remove sel <$> List.filter (fun c => negb (matches sel c)) (children n).
Proof.
  destruct n as [e a d l cs]. simpl.
  induction cs as [|c cs IH]; [reflexivity|].
  simpl. destruct (matches sel c); simpl; by rewrite IH.
Qed.

Lemma elem_selectAll_remove sel n : elem (selectAll_remove sel n) = elem n.
Proof. by destruct n. Qed.

Lemma listeners_selectAll_remove sel n : listeners (selectAll_remove sel n) = listeners n.
Proof. by destruct n. Qed.

Lemma datum_selectAll_remove sel n : datum (selectAll_remove sel n) = datum n.
Proof. by destruct n. Qed.

Lemma elem_selectAll_each sel f n : elem (selectAll_each sel f n) = elem n.
Proof. by destruct n. Qed.

Lemma matches_elem sel n n' : elem n = elem n' -> matches sel n = matches sel n'.
Proof. unfold matches. by intros ->. Qed.

(** What is left after [selectAll(sel).remove()] comes from an element
    that did not match [sel]. *)
Lemma descendants_selectAll_remove (sel : Selector) (r x : Node) :
  x ∈ descendants (selectAll_remove sel r) ->
  exists x0, x0 ∈ descendants r /\ matches sel x0 = false
             /\ x = selectAll_remove sel x0.
Proof.
  revert x. induction r as [e a d l cs IH] using Node_ind'. intros x Hx.
  apply elem_of_descendants in Hx as (c & Hc & Hx).
  rewrite children_selectAll_remove in Hc. simpl in Hc.
  apply list_elem_of_fmap in Hc as (c0 & -> & Hc0).
  apply list_elem_of_In, filter_In in Hc0 as [Hin Hm].
  apply list_elem_of_In in Hin. apply negb_true_iff in Hm.
  destruct Hx as [-> | Hx].
  - exists c0. split; [|done].
    apply elem_of_descendants. exists c0. simpl. tauto.
  - rewrite Forall_forall in IH.
    destruct (IH c0 Hin x Hx) as (x0 & Hx0 & ? & ?).
    exists x0. split; [|done].
    apply elem_of_descendants. exists c0. simpl. tauto.
Qed.

Lemma matches_title n :
  matches [tag_sel "title" []] n = false <-> el_tag (elem n) <> "title".
Proof.
  unfold matches, matches_compound. cbn -[String.eqb].
  destruct (String.eqb_spec "title" (el_tag (elem n))) as [E|E]; cbn.
  - split; [done | intros Hn; by destruct Hn].
  - split; [intros _ E'; by apply E | done].
Qed.

Lemma datum_selectAll_each sel f n : datum (selectAll_each sel f n) = datum n.
Proof. by destruct n. Qed.

Lemma listeners_selectAll_each sel f n :
  listeners (selectAll_each sel f n) = listeners n.
Proof. by destruct n. Qed.

Section Each.
Variables (sel : Selector) (f : Node -> Node).
Hypothesis f_elem : forall n, elem (f n) = elem n.
Hypothesis f_children : forall n, children (f n) = children n.

Lemma descendants_f n : descendants (f n) = descendants n.
Proof. by rewrite !descendants_bind, f_children. Qed.

(** Every selected element has been operated on. *)
Lemma descendants_selectAll_each (r x : Node) :
  x ∈ descendants (selectAll_each sel f r) ->
  matches sel x = true ->
  exists x0, x = f x0.
Proof.
  revert x. induction r as [e a d l cs IH] using Node_ind'. intros x Hx Hm.
  apply elem_of_descendants in Hx as (c & Hc & Hx). simpl in Hc.
  rewrite map_fmap in Hc.
  apply list_elem_of_fmap in Hc as (c0 & -> & Hc0).
  rewrite Forall_forall in IH.
  destruct (matches sel c0) eqn:Hc0m.
  - destruct Hx as [-> | Hx]; [eauto|].
    rewrite descendants_f in Hx. eauto.
  - destruct Hx as [-> | Hx]; [|eauto].
    rewrite (matches_elem _ _ c0) in Hm by apply elem_selectAll_each.
    congruence.
Qed.

Hypothesis f_remove :
  forall t n, selectAll_remove t (f n) = f (selectAll_remove t n).

(** Operating on the selected elements does not change which elements
    a later [remove()] leaves. *)
Lemma elems_remove_each (t : Selector) (r : Node) :
  elem <$> descendants (selectAll_remove t (selectAll_each sel f r))
  = elem <$> descendants (selectAll_remove t r).
Proof.
  induction r as [e a d l cs IH] using Node_ind'.
  rewrite !descendants_bind, !children_selectAll_remove. simpl.
  induction cs as [|c cs IHcs]; [reflexivity|].
  apply Forall_cons in IH as [IHc IH]. specialize (IHcs IH). simpl.
  set (g := fun c => let c' := selectAll_each sel f c in
                     if matches sel c then f c' else c') in *.
  assert (elem (g c) = elem c) as Hg.
  { subst g. simpl. destruct (matches sel c);
      by rewrite ?f_elem, elem_selectAll_each. }
  change (if matches sel c then f (selectAll_each sel f c)
          else selectAll_each sel f c) with (g c).
  rewrite (matches_elem t (g c) c Hg).
  destruct (matches t c); cbn [negb]; [exact IHcs|].
  rewrite !fmap_cons, !bind_cons, !fmap_app, IHcs. f_equal.
  rewrite !fmap_cons. f_equal.
  - by rewrite !elem_selectAll_remove.
  - rewrite <- IHc. subst g. cbn beta zeta.
    destruct (matches sel c); [|reflexivity].
    by rewrite f_remove, descendants_f.
Qed.

(** An element outside the [title] elements is still there after the
    selected elements have been operated on and the titles removed:
    operated on if it was selected, and without the titles below it. *)
Lemma outside_titles_kept (r n0 : Node) :
  outside_titles r n0 ->
  selectAll_remove [tag_sel "title" []]
    (if matches sel n0 then f (selectAll_each sel f n0) else selectAll_each sel f n0)
  ∈ descendants (selectAll_remove [tag_sel "title" []] (selectAll_each sel f r)).
Proof.
  set (t := [tag_sel "title" []]).
  set (g := fun c => if matches sel c then f (selectAll_each sel f c)
                     else selectAll_each sel f c).
  change (outside_titles r n0 ->
          selectAll_remove t (g n0)
          ∈ descendants (selectAll_remove t (selectAll_each sel f r))).
  assert (forall c, elem (g c) = elem c) as Hg.
  { intros c. unfold g. destruct (matches sel c);
      by rewrite ?f_elem, elem_selectAll_each. }
  assert (forall r c, c ∈ children r -> el_tag (elem c) <> "title" ->
                      selectAll_remove t (g c)
                      ∈ children (selectAll_remove t (selectAll_each sel f r)))
    as Hchild.
  { intros r' c Hc Htag. rewrite children_selectAll_remove.
    apply list_elem_of_fmap_2. apply list_elem_of_In, filter_In. split.
    - apply list_elem_of_In. destruct r' as [e a d l cs]. simpl in *.
      rewrite map_fmap. by apply (list_elem_of_fmap_2 g).
    - apply negb_true_iff. rewrite (matches_elem t (g c) c (Hg c)).
      by apply matches_title. }
  induction 1 as [r c Hc Htag | r c n Hc Htag Hout IH].
  - apply elem_of_descendants. exists (selectAll_remove t (g c)).
    split; [by apply Hchild | by left].
  - apply elem_of_descendants. exists (selectAll_remove t (g c)).
    split; [by apply Hchild | right].
    unfold g at 2. destruct (matches sel c); [|exact IH].
    by rewrite f_remove, descendants_f.
Qed.
End Each.

Lemma selectAll_remove_on t type l n :
  selectAll_remove t (on type l n) = on type l (selectAll_remove t n).
Proof. by destruct n. Qed.

(** C6: [applyChartTooltips] registers a listener for ["renderlet"].
    Run on the tree of a rendered chart with a callback [f], that
    listener leaves no [title] element and adds none; every rendered
    element that is not a [title] and not inside one is still there,
    with its datum; and on each of these that matches
    [.bar, .dot, .area, .line, g.pie-slice, g.features] a mousemove calls
    [f] with the element, its datum and the series index determined from
    the element, and a mouseleave calls [f] with [null]: where [f] is a
    function [g] of the caller, the one thing that happens is that call
    of [g]. *)
Theorem applyChartTooltips_binds_mouse_events chart (f : HoverFn) (root : Node) :
  (forall w,
     applyChartTooltips chart (Some f) w =
     (Ok (),
      mkWorld (EvCall (TChart (chart_id chart)) "on"
                 [AVal (VStr "renderlet"); ARenderlet (RTooltips (Some f))]
               :: trace w) (doms w) (fresh w)))
  /\ run_renderlet (RTooltips (Some f)) = Some (renderlet_tooltips (Some f))
  /\ (forall n, n ∈ descendants (renderlet_tooltips (Some f) root) ->
                el_tag (elem n) <> "title"
                /\ exists n0, n0 ∈ descendants root /\ elem n = elem n0)
  /\ (forall n0,
        outside_titles root n0 ->
        exists n,
          n ∈ descendants (renderlet_tooltips (Some f) root)
          /\ elem n = elem n0
          /\ datum n = datum n0
          /\ (matches tooltip_selector n0 = true ->
              forall w,
                let args := [OElem (elem n0); datum n0;
                             OPrim (determineSeriesIndexFromElement (elem n0))] in
                dispatch "mousemove" n w = apply_hover f args w
                /\ dispatch "mouseleave" n w = apply_hover f [OPrim VNull] w
                /\ forall g,
                     f = HoverUser g ->
                     dispatch "mousemove" n w
                     = (Ok (), mkWorld (EvCallback g args :: trace w) (doms w) (fresh w))
                     /\ dispatch "mouseleave" n w
                        = (Ok (),
                           mkWorld (EvCallback g [OPrim VNull] :: trace w)
                                   (doms w) (fresh w)))).
Proof.
  split; [reflexivity|]. split; [reflexivity|].
  unfold renderlet_tooltips.
  set (bind := fun n => on "mouseleave" (OnMouseLeave (Some f))
                          (on "mousemove" (OnMouseMove (Some f)) n)).
  assert (forall n, elem (bind n) = elem n) as Hb1 by done.
  assert (forall n, children (bind n) = children n) as Hb2 by done.
  assert (forall t n, selectAll_remove t (bind n) = bind (selectAll_remove t n))
    as Hb3 by (intros; unfold bind; by rewrite !selectAll_remove_on).
  split.
  - intros n Hn. split.
    + apply descendants_selectAll_remove in Hn as (n1 & _ & Hm & ->).
      rewrite elem_selectAll_remove. by apply matches_title.
    + assert (elem n ∈ elem <$> descendants
                (selectAll_remove [tag_sel "title" []]
                   (selectAll_each tooltip_selector bind root))) as Helem
        by (by apply list_elem_of_fmap_2).
      rewrite elems_remove_each in Helem by done.
      apply list_elem_of_fmap in Helem as (x & Hx & Hin).
      apply descendants_selectAll_remove in Hin as (n0 & Hn0 & _ & ->).
      exists n0. by rewrite Hx, elem_selectAll_remove.
  - intros n0 Hout.
    eexists. split.
    { exact (outside_titles_kept tooltip_selector bind Hb1 Hb2 Hb3 root n0 Hout). }
    rewrite elem_selectAll_remove, datum_selectAll_remove.
    split; [by destruct (matches tooltip_selector n0); cbn; rewrite elem_selectAll_each|].
    split; [by destruct (matches tooltip_selector n0); cbn; rewrite datum_selectAll_each|].
    intros Hm w. rewrite Hm.
    set (args := [OElem (elem n0); datum n0;
                  OPrim (determineSeriesIndexFromElement (elem n0))]).
    assert (forall type l,
               listeners (selectAll_remove [tag_sel "title" []]
                            (bind (selectAll_each tooltip_selector bind n0))) !! type
               = Some l ->
               dispatch type
                 (selectAll_remove [tag_sel "title" []]
                    (bind (selectAll_each tooltip_selector bind n0))) w
               = run_listener l (mkNode (elem n0) ∅ (datum n0) ∅ []) w) as Hrun.
    { intros type l Hl. unfold dispatch. rewrite Hl.
      destruct l as [[h|]|[h|]]; cbn [run_listener]; try reflexivity.
      rewrite elem_selectAll_remove, datum_selectAll_remove. cbn.
      by rewrite elem_selectAll_each, datum_selectAll_each. }
    assert (dispatch "mousemove"
              (selectAll_remove [tag_sel "title" []]
                 (bind (selectAll_each tooltip_selector bind n0))) w
            = apply_hover f args w) as Hmove.
    { rewrite (Hrun "mousemove" (OnMouseMove (Some f))); [reflexivity|].
      rewrite listeners_selectAll_remove. cbn.
      rewrite lookup_insert_ne by done. by rewrite lookup_insert_eq. }
    assert (dispatch "mouseleave"
              (selectAll_remove [tag_sel "title" []]
                 (bind (selectAll_each tooltip_selector bind n0))) w
            = apply_hover f [OPrim VNull] w) as Hleave.
    { rewrite (Hrun "mouseleave" (OnMouseLeave (Some f))); [reflexivity|].
      rewrite listeners_selectAll_remove. cbn. by rewrite lookup_insert_eq. }
    split; [exact Hmove|]. split; [exact Hleave|].
    intros g ->. rewrite Hmove, Hleave. split; reflexivity.
Qed.

(** ** Best-effort styling *)

Lemma lineAndBarOnRender_halves chart card :
  lineAndBarOnRender chart card
  = (svg ← chart_svg chart;
     lineAndBarOnRender_styling chart card svg;;
     lineAndBarOnRender_margins chart).
Proof. reflexivity. Qed.

Lemma same_but_attrs_refl chart w : same_but_attrs chart w w.
Proof. by repeat split. Qed.

Lemma same_but_attrs_trans chart w1 w2 w3 :
  same_but_attrs chart w1 w2 -> same_but_attrs chart w2 w3 ->
  same_but_attrs chart w1 w3.
Proof.
  intros (? & ? & E1) (? & ? & E2).
  split; [congruence|]. split; [congruence|].
  intros sel. by rewrite E2, E1.
Qed.

Lemma attrs_only_ret {A} chart (a : A) : attrs_only chart (mret a : M A).
Proof. intros w. apply same_but_attrs_refl. Qed.

Lemma attrs_only_throw {A} chart e : attrs_only chart (throw e : M A).
Proof. intros w. apply same_but_attrs_refl. Qed.

Lemma attrs_only_bind {A B} chart (m : M A) (k : A -> M B) :
  attrs_only chart m -> (forall a, attrs_only chart (k a)) ->
  attrs_only chart (m ≫= k).
Proof.
  intros Hm Hk w. unfold mbind, M_bind.
  specialize (Hm w). destruct (m w) as [[a|e] w1]; simpl in *; [|done].
  eapply same_but_attrs_trans; [done | apply Hk].
Qed.

Lemma attrs_only_prop {A} chart site (o : option A) : attrs_only chart (prop site o).
Proof. destruct o; [apply attrs_only_ret | apply attrs_only_throw]. Qed.

Lemma attrs_only_get_world chart : attrs_only chart get_world.
Proof. intros w. apply same_but_attrs_refl. Qed.

Lemma attrs_only_try_catch chart m : attrs_only chart m -> attrs_only chart (try_catch m).
Proof. intros Hm w. apply Hm. Qed.

Lemma attrs_only_forEach {A} chart (f : nat -> A -> M ()) i l :
  (forall i a, attrs_only chart (f i a)) -> attrs_only chart (forEach f i l).
Proof.
  intros Hf. revert i. induction l as [|a l IH]; intros i; simpl.
  - apply attrs_only_ret.
  - apply attrs_only_bind; [apply Hf | intros _; apply IH].
Qed.

(** *** Selecting after attributes have been set *)

Lemma select_children sel n n' : children n = children n' -> select sel n = select sel n'.
Proof. destruct n, n'; simpl. by intros ->. Qed.

Lemma select_ext sel n n' :
  Forall2 (fun c c' => elem c = elem c' /\ select sel c = select sel c')
          (children n) (children n') ->
  select sel n = select sel n'.
Proof.
  destruct n as [? ? ? ? cs], n' as [? ? ? ? cs']; simpl.
  generalize 0. intros i Hcs. revert i.
  induction Hcs as [|c c' cs cs' [He Hs] _ IH]; intros i; [reflexivity|].
  rewrite (matches_elem sel c c' He), Hs, IH. reflexivity.
Qed.

Lemma elem_update_at p f n :
  (forall x, elem (f x) = elem x) -> elem (update_at p f n) = elem n.
Proof. intros Hf. destruct p; simpl; [apply Hf | reflexivity]. Qed.

Lemma select_update_at sel p f n :
  (forall x, elem (f x) = elem x) ->
  (forall x, children (f x) = children x) ->
  select sel (update_at p f n) = select sel n.
Proof.
  intros He Hc. revert n. induction p as [|i p IH]; intros n.
  - apply select_children. simpl. apply Hc.
  - apply select_ext. simpl.
    generalize (children n). intros cs. revert i.
    induction cs as [|c cs IHcs]; intros [|i]; simpl; constructor;
      try (split; [by rewrite ?elem_update_at | by rewrite ?IH]);
      try apply IHcs.
    + clear. induction cs; constructor; auto.
Qed.

Lemma attrs_only_set_attribute chart c p name value :
  chart_id c = chart -> attrs_only chart (set_attribute c p name value).
Proof.
  intros <- w. unfold set_attribute, chart_root, get_world.
  unfold mbind, M_bind, mret, M_ret. simpl.
  destruct (doms w !! chart_id c) as [r|] eqn:Hr; simpl;
    [|apply same_but_attrs_refl].
  repeat split. intros sel. simpl.
  rewrite lookup_insert_eq, Hr. unfold select_below. simpl.
  by rewrite select_update_at.
Qed.

Lemma attrs_only_chart_root chart c : attrs_only chart (chart_root c).
Proof. intros w. apply same_but_attrs_refl. Qed.

Lemma attrs_only_svg_select chart c svg sel : attrs_only chart (svg_select c svg sel).
Proof.
  unfold svg_select. apply attrs_only_bind; [apply attrs_only_prop|]. intros p.
  apply attrs_only_bind; [apply attrs_only_chart_root|]. intros r.
  apply attrs_only_ret.
Qed.

Lemma attrs_only_node_children chart c p : attrs_only chart (node_children c p).
Proof.
  unfold node_children. apply attrs_only_bind; [apply attrs_only_chart_root|].
  intros r. apply attrs_only_ret.
Qed.

Lemma attrs_only_customizer chart c element name value transform :
  chart_id c = chart -> attrs_only chart (customizer c element name value transform).
Proof.
  intros Hc. unfold customizer. destruct (truthy value); [|apply attrs_only_ret].
  apply attrs_only_bind; [apply attrs_only_prop|]. intros [p|ps].
  - by apply attrs_only_set_attribute.
  - apply attrs_only_forEach. intros. by apply attrs_only_set_attribute.
Qed.

Create HintDb attrs.

#[local] Hint Resolve attrs_only_ret attrs_only_throw attrs_only_prop
  attrs_only_try_catch attrs_only_svg_select attrs_only_node_children
  attrs_only_customizer attrs_only_chart_root : attrs.

Lemma attrs_only_styling chart card svg :
  attrs_only (chart_id chart) (lineAndBarOnRender_styling chart card svg).
Proof.
  unfold lineAndBarOnRender_styling.
  repeat (first [ solve [auto with attrs]
                | apply attrs_only_customizer; reflexivity
                | apply attrs_only_bind; [|intros ?]
                | apply attrs_only_try_catch ]).
Qed.

(** *** The margin adjustment *)

Lemma run_bind {A B : Type} (m : M A) (k : A -> M B) (w : World) :
  (m ≫= k) w = match m w with
               | (Ok a, w') => k a w'
               | (Throw e, w') => (Throw e, w')
               end.
Proof. reflexivity. Qed.

Ltac run :=
  repeat first
    [ rewrite run_bind
    | progress cbn -[select_below node_at select get_at] ].

Lemma select_get_at sel r p : select sel r = Some p -> is_Some (get_at p r).
Proof.
  revert p. induction r as [e a d l cs IH] using Node_ind'. intros p. simpl.
  assert (forall k q,
             (fix go (i : nat) (l : list Node) : option Path :=
                match l with
                | [] => None
                | c :: cs =>
                    if matches sel c then Some [i]
                    else match select sel c with
                         | Some p => Some (i :: p)
                         | None => go (S i) cs
                         end
                end) k cs = Some q ->
             exists j q' c, q = (k + j) :: q' /\ cs !! j = Some c
                            /\ is_Some (get_at q' c)) as Hgo.
  { induction cs as [|c cs IHcs]; intros k q; [discriminate|].
    apply Forall_cons in IH as [IHc IH]. specialize (IHcs IH).
    destruct (matches sel c).
    - intros [= <-]. exists 0, [], c. rewrite Nat.add_0_r. by eauto.
    - destruct (select sel c) as [q0|] eqn:Hq0.
      + intros [= <-]. exists 0, q0, c. rewrite Nat.add_0_r. by eauto.
      + intros Hq. apply IHcs in Hq as (j & q' & c' & -> & ? & ?).
        exists (S j), q', c'. split; [f_equal; lia | done]. }
  intros Hp. apply Hgo in Hp as (j & q' & c & -> & Hj & Hc).
  simpl. rewrite Hj. exact Hc.
Qed.

(** Where [select_below] finds an element from the anchor, the element
    is there. *)
Lemma select_below_node root sel p :
  select_below root [] sel = Some p -> is_Some (node_at root p).
Proof.
  unfold select_below, node_at. destruct root as [r|]; [|discriminate]. simpl.
  destruct (select sel r) as [q|] eqn:Hq; [|discriminate].
  intros [= <-]. by eapply select_get_at.
Qed.

Lemma margins_run chart w :
  lineAndBarOnRender_margins chart w =
  let id := chart_id chart in
  let root := doms w !! id in
  let t1 := on_lineAndBarOnRender chart :: trace w in
  match select_below root [] [class_sel ["axis"; "y"]] ≫= node_at root with
  | None =>
      (Throw (TypeError "chart.select('.axis.y')[0][0]"),
       mkWorld t1 (doms w) (fresh w))
  | Some ny =>
      let t2 := EvAssign (TChart id) "margins().left" (ANum ((getBBox ny).1 + 30))
                :: t1 in
      match select_below root [] [class_sel ["axis"; "x"]] ≫= node_at root with
      | None =>
          (Throw (TypeError "chart.select('.axis.x')[0][0]"),
           mkWorld t2 (doms w) (fresh w))
      | Some nx =>
          let t3 := EvCall (TChart id) "render" []
                    :: EvAssign (TChart id) "margins().bottom"
                         (ANum ((getBBox nx).2 + 30))
                    :: t2 in
          (Ok (),
           mkWorld t3
             (<[id := dc_render (mkWorld t3 (doms w) (fresh w)) id]> (doms w))
             (fresh w))
      end
  end.
Proof.
  unfold lineAndBarOnRender_margins, chart_select, chart_root, chart_render,
    chart_call, call, emit, get_world, set_dom, on_lineAndBarOnRender.
  run.
  destruct (select_below (doms w !! chart_id chart) [] [class_sel ["axis"; "y"]]
            ≫= node_at (doms w !! chart_id chart)) as [ny|]; run; [|reflexivity].
  destruct (select_below (doms w !! chart_id chart) [] [class_sel ["axis"; "x"]]
            ≫= node_at (doms w !! chart_id chart)) as [nx|]; run; reflexivity.
Qed.

Lemma select_below_bind_node root sel p :
  select_below root [] sel = Some p ->
  exists n, select_below root [] sel ≫= node_at root = Some n.
Proof.
  intros Hp. destruct (select_below_node _ _ _ Hp) as [n Hn].
  exists n. rewrite Hp. exact Hn.
Qed.

Lemma margins_cases chart w :
  let r := lineAndBarOnRender_margins chart w in
  let root := doms w !! chart_id chart in
  (r.1 = Throw (TypeError "chart.select('.axis.y')[0][0]")
   /\ trace r.2 = on_lineAndBarOnRender chart :: trace w
   /\ select_below root [] [class_sel ["axis"; "y"]] = None)
  \/ (r.1 = Throw (TypeError "chart.select('.axis.x')[0][0]")
      /\ (exists left,
            trace r.2 = EvAssign (TChart (chart_id chart)) "margins().left" left
                        :: on_lineAndBarOnRender chart :: trace w)
      /\ select_below root [] [class_sel ["axis"; "x"]] = None)
  \/ (r.1 = Ok ()
      /\ exists left bottom,
           trace r.2 = [EvCall (TChart (chart_id chart)) "render" [];
                        EvAssign (TChart (chart_id chart)) "margins().bottom" bottom;
                        EvAssign (TChart (chart_id chart)) "margins().left" left;
                        on_lineAndBarOnRender chart] ++ trace w).
Proof.
  intros r root. subst r. rewrite margins_run. cbn zeta. fold root.
  destruct (select_below root [] [class_sel ["axis"; "y"]]) as [py|] eqn:Hy;
    [|left; done].
  destruct (select_below_bind_node _ _ _ Hy) as [ny Hny].
  rewrite Hy in Hny. rewrite Hny.
  destruct (select_below root [] [class_sel ["axis"; "x"]]) as [px|] eqn:Hx;
    [|right; left; cbn; eauto].
  destruct (select_below_bind_node _ _ _ Hx) as [nx Hnx].
  rewrite Hx in Hnx. rewrite Hnx.
  right; right. cbn. eauto.
Qed.

Lemma chart_svg_run chart w : exists svg, chart_svg chart w = (Ok svg, w).
Proof. unfold chart_svg, chart_root, get_world. run. eauto. Qed.

Lemma styling_ok chart card svg w :
  (lineAndBarOnRender_styling chart card svg w).1 = Ok ().
Proof. unfold lineAndBarOnRender_styling, try_catch. run. reflexivity. Qed.

Lemma lineAndBarOnRender_run chart card w :
  exists w', same_but_attrs (chart_id chart) w w'
             /\ lineAndBarOnRender chart card w = lineAndBarOnRender_margins chart w'.
Proof.
  destruct (chart_svg_run chart w) as [svg Hsvg].
  exists (lineAndBarOnRender_styling chart card svg w).2. split.
  - apply attrs_only_styling.
  - rewrite lineAndBarOnRender_halves, run_bind, Hsvg, run_bind.
    pose proof (styling_ok chart card svg w) as Hok.
    destruct (lineAndBarOnRender_styling chart card svg w) as [[[]|e] w'];
      [reflexivity | discriminate].
Qed.



(** ** Rendering before returning *)

Lemma extends_ret {A} (a : A) : extends (mret a : M A).
Proof. intros w. by exists []. Qed.

Lemma extends_throw {A} e : extends (throw e : M A).
Proof. intros w. by exists []. Qed.

Lemma extends_bind {A B} (m : M A) (k : A -> M B) :
  extends m -> (forall a, extends (k a)) -> extends (m ≫= k).
Proof.
  intros Hm Hk w. rewrite run_bind.
  destruct (Hm w) as [new1 E1]. destruct (m w) as [[a|e] w1]; simpl in *.
  - destruct (Hk a w1) as [new2 E2]. exists (new2 ++ new1).
    by rewrite E2, E1, app_assoc.
  - eauto.
Qed.

Lemma extends_prop {A} site (o : option A) : extends (prop site o).
Proof. destruct o; [apply extends_ret | apply extends_throw]. Qed.

Lemma extends_emit ev : extends (emit ev).
Proof. intros w. by exists [ev]. Qed.

Lemma extends_get_world : extends get_world.
Proof. intros w. by exists []. Qed.

Lemma extends_next_id : extends next_id.
Proof. intros w. by exists []. Qed.

Lemma extends_set_dom chart root : extends (set_dom chart root).
Proof. intros w. by exists []. Qed.

Lemma extends_forEach {A} (f : nat -> A -> M ()) i l :
  (forall i a, extends (f i a)) -> extends (forEach f i l).
Proof.
  intros Hf. revert i. induction l as [|a l IH]; intros i; simpl.
  - apply extends_ret.
  - apply extends_bind; [apply Hf | intros _; apply IH].
Qed.

Lemma extends_mapM {A B} (f : nat -> A -> M B) i l :
  (forall i a, extends (f i a)) -> extends (mapM f i l).
Proof.
  intros Hf. revert i. induction l as [|a l IH]; intros i; simpl.
  - apply extends_ret.
  - apply extends_bind; [apply Hf | intros b].
    apply extends_bind; [apply IH | intros bs; apply extends_ret].
Qed.

Ltac extends_step :=
  lazymatch goal with
  | |- extends (if ?b then _ else _) => destruct b
  | |- extends (match ?x with _ => _ end) => destruct x
  | |- extends (mbind _ _) => apply extends_bind; [|intros ?]
  | |- extends (mret _) => apply extends_ret
  | |- extends (throw _) => apply extends_throw
  | |- extends (prop _ _) => apply extends_prop
  | |- extends (emit _) => apply extends_emit
  | |- extends get_world => apply extends_get_world
  | |- extends next_id => apply extends_next_id
  | |- extends (set_dom _ _) => apply extends_set_dom
  | |- extends (forEach _ _ _) => apply extends_forEach; intros ? ?
  | |- extends (mapM _ _ _) => apply extends_mapM; intros ? ?
  end.

Ltac extends_auto := repeat extends_step.

Lemma extends_chart_call c method args : extends (chart_call c method args).
Proof. unfold chart_call, call. extends_auto. Qed.

Lemma extends_adjustTicksIfNeeded c axis size m :
  extends (adjustTicksIfNeeded c axis size m).
Proof. unfold adjustTicksIfNeeded, call. extends_auto. Qed.

Lemma extends_dc_create ty parent : extends (dc_create ty parent).
Proof. unfold dc_create. destruct (dc_constructs ty); extends_auto. Qed.

Lemma extends_initializeChart card element ty : extends (initializeChart card element ty).
Proof.
  unfold initializeChart, applyChartBoundary, applyChartLegend.
  repeat first [apply extends_chart_call | apply extends_dc_create | extends_step].
Qed.

Lemma extends_applyChartTimeseriesXAxis c card cols xValues :
  extends (applyChartTimeseriesXAxis c card cols xValues).
Proof.
  unfold applyChartTimeseriesXAxis, xAxis_call, call.
  repeat first [apply extends_chart_call | extends_step].
Qed.

Lemma extends_applyChartOrdinalXAxis c card cols xValues :
  extends (applyChartOrdinalXAxis c card cols xValues).
Proof.
  unfold applyChartOrdinalXAxis, xAxis_call, call.
  repeat first [apply extends_chart_call | apply extends_adjustTicksIfNeeded
               | extends_step].
Qed.

Lemma extends_applyChartYAxis c card cols : extends (applyChartYAxis c card cols).
Proof.
  unfold applyChartYAxis, call.
  repeat first [apply extends_chart_call | apply extends_adjustTicksIfNeeded
               | extends_step].
Qed.

Lemma extends_applyChartLineBarSettings c card chartType :
  extends (applyChartLineBarSettings c card chartType).
Proof.
  unfold applyChartLineBarSettings.
  repeat first [apply extends_chart_call | extends_step].
Qed.

Lemma extends_chart_render c : extends (chart_render c).
Proof.
  unfold chart_render. repeat first [apply extends_chart_call | extends_step].
Qed.

(** [getDcjsChartType] only gives names of chart constructors. *)
Lemma dc_constructs_default cardType :
  dc_constructs (getDcjsChartType cardType) = true.
Proof.
  unfold getDcjsChartType.
  repeat match goal with
         | |- context [if ?b then _ else _] => destruct b
         end; reflexivity.
Qed.

Lemma initializeChart_run card element ty w :
  dc_constructs (default (getDcjsChartType (display card)) ty) = true ->
  exists new,
    initializeChart card element ty w =
    (Ok {| chart_id := fresh w;
           chart_type := default (getDcjsChartType (display card)) ty |},
     mkWorld (new ++ EvDc (fresh w) (default (getDcjsChartType (display card)) ty)
                          (PElement element) :: trace w)
             (doms w) (S (fresh w))).
Proof.
  intros Hty.
  unfold initializeChart, applyChartBoundary, applyChartLegend, dc_create,
    chart_call, call, emit, next_id.
  cbv zeta. rewrite Hty.
  run.
  match goal with |- context [truthy ?v] => destruct (truthy v) end; run.
  - by eexists [_; _; _; _].
  - by eexists [_; _; _].
Qed.

Lemma chart_render_run c w :
  chart_render c w =
  (Ok (),
   mkWorld (EvCall (TChart (chart_id c)) "render" [] :: trace w)
     (<[chart_id c :=
          dc_render (mkWorld (EvCall (TChart (chart_id c)) "render" [] :: trace w)
                             (doms w) (fresh w)) (chart_id c)]> (doms w))
     (fresh w)).
Proof. reflexivity. Qed.

Lemma pie_run element props w pie :
  vs_pie (visualization_settings (p_card props)) = Some pie ->
  exists new ds,
    CardRenderer_pie element props w =
    (Ok (), mkWorld (EvCall (TChart (fresh w)) "render" [] :: new ++ trace w)
                    ds (S (fresh w)))
    /\ EvDc (fresh w) (getDcjsChartType (display (p_card props))) (PElement element)
       ∈ new.
Proof.
  intros Hpie. unfold CardRenderer_pie. cbv zeta. rewrite Hpie.
  rewrite run_bind. unfold emit at 1. cbn [fst snd].
  rewrite run_bind.
  match goal with
  | |- context [initializeChart ?c ?e ?t ?w0] =>
      destruct (initializeChart_run c e t w0 (dc_constructs_default _)) as [new ->]
  end.
  unfold applyChartTooltips, chart_call, call, emit, prop.
  repeat (rewrite run_bind; cbn [fst snd mret M_ret trace doms fresh chart_id]).
  rewrite chart_render_run. cbn [trace doms fresh chart_id].
  eexists (_ :: _ :: _ :: _ :: _ :: _ :: _ :: _ :: new ++ [_; _]), _.
  split.
  - simpl. rewrite <- app_assoc. reflexivity.
  - set_solver.
Qed.

Lemma bind_ok_extends {A B : Type} (m : M A) (k : A -> M B) w w' b :
  extends m ->
  (m ≫= k) w = (Ok b, w') ->
  exists a w1 new, m w = (Ok a, w1) /\ trace w1 = new ++ trace w
                   /\ k a w1 = (Ok b, w').
Proof.
  intros Hm Hrun. apply bind_ok in Hrun as (a & w1 & E & Hk).
  destruct (Hm w) as [new Hnew]. rewrite E in Hnew. eauto 6.
Qed.

Lemma forEach_emit {A : Type} (g : nat -> A -> Event) i l w :
  exists new,
    forEach (fun i a => emit (g i a)) i l w
    = (Ok (), mkWorld (new ++ trace w) (doms w) (fresh w)).
Proof.
  revert i w. induction l as [|a l IH]; intros i w; simpl.
  - exists []. by destruct w.
  - rewrite run_bind. unfold emit at 1.
    destruct (IH (S i) (mkWorld (g i a :: trace w) (doms w) (fresh w)))
      as [new ->]. simpl.
    exists (new ++ [g i a]). by rewrite <- app_assoc.
Qed.

Lemma returns_ret {A : Type} (a : A) : returns a (mret a : M A).
Proof. intros w b w' Hret. by injection Hret as <- _. Qed.

Lemma returns_bind {A B : Type} (a : A) (m : M B) (k : B -> M A) :
  (forall x, returns a (k x)) -> returns a (m ≫= k).
Proof.
  intros Hk w b w' Hrun. apply bind_ok in Hrun as (x & w1 & _ & Hrun).
  by eapply Hk.
Qed.

Lemma lineAndBarOnRender_ok chart card w w' :
  lineAndBarOnRender chart card w = (Ok (), w') ->
  exists left bottom,
    trace w' = [EvCall (TChart (chart_id chart)) "render" [];
                EvAssign (TChart (chart_id chart)) "margins().bottom" bottom;
                EvAssign (TChart (chart_id chart)) "margins().left" left;
                on_lineAndBarOnRender chart] ++ trace w.
Proof.
  intros Hrun.
  destruct (lineAndBarOnRender_run chart card w) as (w1 & (Ht & _) & E).
  rewrite E in Hrun. pose proof (margins_cases chart w1) as Hcases.
  cbn zeta in Hcases. rewrite Hrun, Ht in Hcases. simpl in Hcases.
  destruct Hcases as [(? & _) | [(? & _) | (_ & Hok)]]; [discriminate..|done].
Qed.

(** The chart [lineAreaBar] builds is the one it initializes in the
    target element. *)
Lemma lineAreaBar_chart element (card0 : Card) ty
    (body : Chart -> M Chart) (w w' : World) chart :
  dc_constructs (default (getDcjsChartType (display card0)) ty) = true ->
  (forall c, extends (body c)) ->
  (forall c, returns c (body c)) ->
  (c ← initializeChart card0 element ty; body c) w = (Ok chart, w') ->
  chart_id chart = fresh w
  /\ exists new ty', trace w' = new ++ EvDc (fresh w) ty' (PElement element) :: trace w.
Proof.
  intros Hty Hext Hret Hrun. rewrite run_bind in Hrun.
  destruct (initializeChart_run card0 element ty w Hty) as [new0 E0].
  rewrite E0 in Hrun.
  pose proof (Hret _ _ _ _ Hrun) as ->.
  split; [reflexivity|].
  destruct (Hext {| chart_id := fresh w;
                    chart_type := default (getDcjsChartType (display card0)) ty |}
                 (mkWorld (new0 ++ EvDc (fresh w)
                                    (default (getDcjsChartType (display card0)) ty)
                                    (PElement element) :: trace w)
                          (doms w) (S (fresh w)))) as [new Ht].
  rewrite Hrun in Ht. simpl in Ht.
  eexists (new ++ new0), _. rewrite Ht, <- app_assoc. reflexivity.
Qed.

Ltac extends_all :=
  repeat first
    [ lazymatch goal with
      | |- extends (chart_call _ _ _) => apply extends_chart_call
      | |- extends (adjustTicksIfNeeded _ _ _ _) => apply extends_adjustTicksIfNeeded
      | |- extends (dc_create _ _) => apply extends_dc_create
      | |- extends (initializeChart _ _ _) => apply extends_initializeChart
      | |- extends (applyChartTimeseriesXAxis _ _ _ _) =>
          apply extends_applyChartTimeseriesXAxis
      | |- extends (applyChartOrdinalXAxis _ _ _ _) =>
          apply extends_applyChartOrdinalXAxis
      | |- extends (applyChartYAxis _ _ _) => apply extends_applyChartYAxis
      | |- extends (applyChartLineBarSettings _ _ _) =>
          apply extends_applyChartLineBarSettings
      | |- extends (chart_render _) => apply extends_chart_render
      | |- extends (applyChartTooltips _ _) => unfold applyChartTooltips
      end
    | extends_step ].

Lemma lineAreaBar_renders element chartType props s0 w w' :
  head (p_series props) = Some s0 ->
  (2 <= length (cols (s_data s0)))%nat ->
  CardRenderer_lineAreaBar element chartType props w = (Ok (), w') ->
  exists ty rest,
    trace w'
    = match p_onRender props with
      | Some f =>
          [EvCallback f
             [OSplit (series_yAxisSplit (dimensionIsTimeseries (s_data s0))
                                        (p_series props))]]
      | None => []
      end
      ++ EvCall (TChart (fresh w)) "render" [] :: rest
    /\ EvDc (fresh w) ty (PElement element) ∈ rest.
Proof.
  intros Hs Hcols. unfold CardRenderer_lineAreaBar. cbv zeta. rewrite Hs.
  rewrite run_bind. cbn [prop mret M_ret].
  destruct (Nat.ltb_spec (length (cols (s_data s0))) 2) as [|_]; [lia|].
  intros Hrun.
  (* the crossfilter dataset *)
  rewrite run_bind in Hrun. unfold emit at 1 in Hrun. cbn [fst snd] in Hrun.
  rewrite run_bind in Hrun.
  match type of Hrun with
  | context [forEach ?f ?i ?l ?w0] =>
      destruct (forEach_emit
                  (fun index s =>
                     EvCrossfilterAdd
                       (series_records (dimensionIsTimeseries (s_data s0)) index s))
                  i l w0) as [added Eadd]
  end.
  rewrite Eadd in Hrun. clear Eadd.
  (* the chart *)
  apply bind_ok in Hrun as (chart & w3 & Hchart & Hrun).
  assert (chart_id chart = fresh w
          /\ exists pre ty post,
               trace w3 = pre ++ EvDc (fresh w) ty (PElement element) :: post)
    as (Hid & pre & ty & post & Ht3).
  { destruct (_ || _) in Hchart;
      (apply lineAreaBar_chart in Hchart as (Hid & new & ty & Ht);
       [ split; [exact Hid|]; simpl in Ht; eauto
       | first [apply dc_constructs_default | reflexivity]
       | intros c; extends_all
       | intros c; repeat (apply returns_bind; intros ?); apply returns_ret ]). }
  (* the axes, the tooltips and the first render *)
  apply bind_ok_extends in Hrun as (? & w4 & new4 & _ & Ht4 & Hrun);
    [|extends_all].
  apply bind_ok_extends in Hrun as (? & w5 & new5 & _ & Ht5 & Hrun);
    [|extends_all].
  apply bind_ok_extends in Hrun as (? & w6 & new6 & _ & Ht6 & Hrun);
    [|unfold applyChartTooltips; extends_all].
  apply bind_ok_extends in Hrun as (? & w7 & new7 & _ & Ht7 & Hrun);
    [|extends_all].
  apply bind_ok_extends in Hrun as (? & w8 & new8 & _ & Ht8 & Hrun);
    [|extends_all].
  (* the patches, the second render and the callback *)
  apply bind_ok in Hrun as ([] & w9 & Hpatch & Hrun).
  apply lineAndBarOnRender_ok in Hpatch as (left & bottom & Ht9).
  rewrite Hid in Ht9.
  exists ty.
  exists ([EvAssign (TChart (fresh w)) "margins().bottom" bottom;
           EvAssign (TChart (fresh w)) "margins().left" left;
           on_lineAndBarOnRender chart]
          ++ new8 ++ new7 ++ new6 ++ new5 ++ new4 ++ pre
          ++ EvDc (fresh w) ty (PElement element) :: post).
  split.
  - destruct (p_onRender props) as [f|]; injection Hrun as <-; simpl;
      rewrite Ht9, Ht8, Ht7, Ht6, Ht5, Ht4, Ht3; simpl;
      rewrite <- ?app_assoc; reflexivity.
  - set_solver.
Qed.

(** C7: each renderer has called [render] by the time it returns.
    [pie], whenever the card has pie settings, returns with the render of
    the chart it created in the element as the last call made; [state]
    and [country] always return with the render of their renderer as the
    last call made; and whenever [lineAreaBar], given at least two
    columns, returns, the last call it made is the render of the chart it
    created in the element, followed only, when [onRender] is given, by
    the call of [onRender] with the computed [yAxisSplit]. *)
Theorem renderers_render_before_returning element cprops chartType lprops w :
  (forall pie,
     vs_pie (visualization_settings (p_card cprops)) = Some pie ->
     exists w' rest,
       CardRenderer_pie element cprops w = (Ok (), w')
       /\ trace w' = EvCall (TChart (fresh w)) "render" [] :: rest ++ trace w
       /\ EvDc (fresh w) (getDcjsChartType (display (p_card cprops)))
               (PElement element) ∈ rest)
  /\ (exists w' rest,
        CardRenderer_state element cprops w = (Ok (fresh w), w')
        /\ trace w' = EvGeoCall (fresh w) "render" [] :: rest ++ trace w
        /\ EvGeoNew (fresh w) element (p_card cprops) (p_data cprops) ∈ rest)
  /\ (exists w' rest,
        CardRenderer_country element cprops w = (Ok (fresh w), w')
        /\ trace w' = EvGeoCall (fresh w) "render" [] :: rest ++ trace w
        /\ EvGeoNew (fresh w) element (p_card cprops) (p_data cprops) ∈ rest)
  /\ (forall s0 w',
        head (p_series lprops) = Some s0 ->
        (2 <= length (cols (s_data s0)))%nat ->
        CardRenderer_lineAreaBar element chartType lprops w = (Ok (), w') ->
        exists ty rest,
          trace w'
          = match p_onRender lprops with
            | Some f =>
                [EvCallback f
                   [OSplit (series_yAxisSplit (dimensionIsTimeseries (s_data s0))
                                              (p_series lprops))]]
            | None => []
            end
            ++ EvCall (TChart (fresh w)) "render" [] :: rest
          /\ EvDc (fresh w) ty (PElement element) ∈ rest).
Proof.
  split; [|split; [|split]].
  - intros pie Hpie.
    destruct (pie_run element cprops w pie Hpie) as (new & ds & Hrun & Hdc).
    eauto 6.
  - rewrite state_run. do 2 eexists. split; [reflexivity|].
    split; [reflexivity|]. set_solver.
  - rewrite country_run. do 2 eexists. split; [reflexivity|].
    split; [reflexivity|]. set_solver.
  - intros s0 w'. apply lineAreaBar_renders.
Qed.


(** * Further properties of the module *)

(** ** The dimension and the ticks *)

Lemma strict_eq_string (v : JsValue) (s : string) :
  strict_eq v (VStr s) = true <-> v = VStr s.
Proof.
  destruct v; simpl; try (split; [discriminate | discriminate]).
  apply bool_decide_eq_true.
Qed.

(** X1: what the first value of the first row decides.  A number never
    makes a result a timeseries (only a first column of base type
    DateField does), while [null] and the booleans always do, since
    [new Date(null)], [new Date(true)] and [new Date(false)] are valid
    dates. *)
Theorem dimensionIsTimeseries_first_value result v row rest :
  rows result = (v :: row) :: rest ->
  (v = VNull \/ (exists b, v = VBool b) -> dimensionIsTimeseries result = true)
  /\ (forall n, v = VNum n ->
                dimensionIsTimeseries result = true
                <-> exists c cs, cols result = c :: cs
                                 /\ base_type c = VStr "DateField").
Proof.
  intros Hrows. unfold dimensionIsTimeseries. rewrite Hrows. split.
  - intros [-> | [b ->]]; simpl; [|destruct b]; apply orb_true_r.
  - intros n ->. simpl. rewrite orb_false_r.
    destruct (cols result) as [|c cs].
    + split; [discriminate | by intros (? & ? & ? & _)].
    + rewrite strict_eq_string. split; [by eauto|].
      by intros (c' & cs' & [= <- <-] & ?).
Qed.

(** X2: [adjustTicksIfNeeded] never asks for more ticks than the axis
    has.  With a positive tick count [n], a positive minimum and a
    non-negative axis size, it either leaves the axis alone, there being
    room for [n] ticks, or sets a count between 0 and [n]. *)
Theorem adjustTicksIfNeeded_never_more_ticks chart axis axisSize minPixelsPerTick n w :
  (0 < minPixelsPerTick)%Z -> (0 < n)%Z -> (0 <= axisSize)%Z ->
  (axis_ticks w (chart_id chart) axis = TicksNumber (Some n)
   \/ exists l, axis_ticks w (chart_id chart) axis = TicksArray (Some n :: l)) ->
  ((minPixelsPerTick * n <= axisSize)%Z
   /\ adjustTicksIfNeeded chart axis axisSize minPixelsPerTick w = (Ok (), w))
  \/ exists k,
       (0 <= k <= n)%Z
       /\ adjustTicksIfNeeded chart axis axisSize minPixelsPerTick w
          = (Ok (),
             mkWorld (EvCall (TAxis (chart_id chart) axis) "ticks" [ANum k] :: trace w)
                     (doms w) (fresh w)).
Proof.
  intros Hm Hn Ha Hticks.
  assert (adjustTicksIfNeeded chart axis axisSize minPixelsPerTick w
          = if quot_lt axisSize (Some n) minPixelsPerTick
            then call (TAxis (chart_id chart) axis) "ticks"
                      [ANum (round_div axisSize minPixelsPerTick)] w
            else (Ok (), w)) as ->.
  { unfold adjustTicksIfNeeded. rewrite run_bind. cbn [get_world].
    destruct Hticks as [-> | [l ->]]; cbn -[quot_lt round_div];
      by destruct (quot_lt _ _ _). }
  unfold quot_lt, round_div.
  destruct (Z.ltb_spec 0 n) as [_|]; [|lia].
  destruct (Z.ltb_spec 0 minPixelsPerTick) as [_|]; [|lia].
  destruct (Z.ltb_spec axisSize (minPixelsPerTick * n)) as [Hlt|Hge].
  - right. eexists. split; [|reflexivity]. split.
    + apply Z.div_pos; lia.
    + apply Z.lt_succ_r, Z.div_lt_upper_bound; lia.
  - left. split; [lia | reflexivity].
Qed.

(** X3: the visible keys of the ordinal axis,
    [xValues.filter((v, i) => i % keyInterval === 0)], are a subsequence
    of the values; every value is kept with interval 1, none with
    interval 0 (the remainder is NaN), and otherwise the first value is
    always kept. *)
Theorem every_nth_visible_keys {A : Type} (keyInterval : Z) (xValues : list A) :
  sublist (every_nth keyInterval 0 xValues) xValues
  /\ every_nth 1 0 xValues = xValues
  /\ every_nth 0 0 xValues = []
  /\ (keyInterval <> 0%Z -> head (every_nth keyInterval 0 xValues) = head xValues).
Proof.
  assert (forall k i (l : list A), sublist (every_nth k i l) l) as Hsub.
  { intros k i l. revert i. induction l as [|x l IH]; intros i; simpl; [done|].
    destruct (_ && _); [apply sublist_skip | apply sublist_cons]; apply IH. }
  assert (forall i (l : list A), every_nth 1 i l = l) as Hone.
  { intros i l. revert i. induction l as [|x l IH]; intros i; simpl; [done|].
    rewrite Z.rem_1_r. simpl. by rewrite IH. }
  assert (forall i (l : list A), every_nth 0 i l = []) as Hzero.
  { intros i l. revert i. induction l as [|x l IH]; intros i; simpl; [done|].
    apply IH. }
  repeat split; auto.
  intros Hk. destruct xValues as [|x l]; [done|]. simpl.
  by destruct (Z.eqb_spec keyInterval 0).
Qed.

Lemma upper_char_idemp (c : ascii) : upper_char (upper_char c) = upper_char c.
Proof. destruct c as [[] [] [] [] [] [] [] []]; reflexivity. Qed.

Lemma is_ascii_upper_char (c : ascii) : is_ascii (upper_char c) = is_ascii c.
Proof. destruct c as [[] [] [] [] [] [] [] []]; reflexivity. Qed.

(** X4: for a row whose first value is a string with its first two
    characters in the ASCII alphabet, the country code is a string of as
    many characters as the first value has, up to two; it is ASCII as
    well, and it is its own country code: a row whose first value is
    already a code keeps it. *)
Theorem countryCode_short_and_stable (value : list JsValue) (s : string) :
  js_index value 0 = VStr s ->
  ascii_only (String.substring 0 2 s) = true ->
  exists code,
    countryCode value = VStr code
    /\ String.length code = String.length s `min` 2
    /\ ascii_only code = true
    /\ countryCode [VStr code] = VStr code.
Proof.
  intros Hv Hs. unfold countryCode. rewrite Hv.
  eexists. split; [reflexivity|].
  destruct s as [|a [|b s']]; [done| |].
  - unfold ascii_only in *. cbn -[is_ascii upper_char] in *.
    rewrite ?is_ascii_upper_char, ?upper_char_idemp, ?Nat.min_0_r. auto.
  - assert (String.substring 0 2 (String a (String b s'))
            = String a (String b EmptyString)) as E by (by destruct s').
    rewrite E in *. unfold ascii_only in *. cbn -[is_ascii upper_char] in *.
    rewrite ?is_ascii_upper_char, ?upper_char_idemp, ?Nat.min_0_r. auto.
Qed.

(** ** Setting up a chart *)

Ltac crunch :=
  run;
  repeat (match goal with
          | |- context [match ?t with TicksNumber _ => _ | TicksArray _ => _ end] =>
              destruct t as [[?|]|[|[?|] ?]]
          | |- context [if ?b then _ else _] => destruct b eqn:?
          end; run).

Lemma initializeChart_exact card element ty w :
  dc_constructs (default (getDcjsChartType (display card)) ty) = true ->
  let chartType := default (getDcjsChartType (display card)) ty in
  let id := fresh w in
  let settings := visualization_settings card in
  let legendEnabled :=
    match vs_pie settings, vs_chart settings with
    | Some pie, _ =>
        if String.eqb (display card) "pie" then pie_legend_enabled pie
        else from_option chart_legend_enabled (VBool false) (vs_chart settings)
    | None, Some c => chart_legend_enabled c
    | None, None => VBool false
    end in
  initializeChart card element ty w =
  (Ok {| chart_id := id; chart_type := chartType |},
   mkWorld
     (EvCall (TChart id) "transitionDuration" [ANum 0]
      :: (if truthy legendEnabled then [EvCall (TChart id) "legend" [ALegend]] else [])
      ++ [EvCall (TChart id) "height"
            [AVal (num_or_null (getAvailableCanvasHeight element))];
          EvCall (TChart id) "width"
            [AVal (num_or_null (getAvailableCanvasWidth element))];
          EvDc id chartType (PElement element)]
      ++ trace w)
     (doms w) (S id)).
Proof.
  intros Hty. cbv zeta.
  unfold initializeChart, applyChartBoundary, applyChartLegend, dc_create,
    chart_call, call, emit, next_id.
  cbv zeta. rewrite Hty.
  run.
  destruct (vs_pie (visualization_settings card)) as [pie|],
    (vs_chart (visualization_settings card)) as [c|],
    (String.eqb (display card) "pie"); cbn;
    match goal with
    | |- context [truthy ?v] => destruct (truthy v)
    | _ => idtac
    end; reflexivity.
Qed.

Lemma initializeChart_unknown card element ty w :
  dc_constructs (default (getDcjsChartType (display card)) ty) = false ->
  initializeChart card element ty w = (Throw (TypeError "dc[chartType]"), w).
Proof.
  intros Hty. unfold initializeChart, dc_create. cbv zeta. by rewrite Hty.
Qed.

(** X5: [initializeChart] fails for a chart type that dc.js has no
    constructor for, with a TypeError and before anything is done, and
    in no other case; without a chart type given, the type is
    that of the card's display and it does not fail.  When it returns it
    has created one chart in the element, of that type, given it the
    available canvas width and height, a legend when the settings enable
    it (for a pie card with pie settings, [settings.pie.legend_enabled];
    otherwise [settings.chart.legend_enabled] when there are chart
    settings), and disabled animations last. *)
Theorem initializeChart_calls card element ty w :
  let chartType := default (getDcjsChartType (display card)) ty in
  let id := fresh w in
  let settings := visualization_settings card in
  let legendEnabled :=
    match vs_pie settings, vs_chart settings with
    | Some pie, _ =>
        if String.eqb (display card) "pie" then pie_legend_enabled pie
        else from_option chart_legend_enabled (VBool false) (vs_chart settings)
    | None, Some c => chart_legend_enabled c
    | None, None => VBool false
    end in
  (ty = None -> dc_constructs chartType = true)
  /\ initializeChart card element ty w =
     if dc_constructs chartType
     then
       (Ok {| chart_id := id; chart_type := chartType |},
        mkWorld
          (EvCall (TChart id) "transitionDuration" [ANum 0]
           :: (if truthy legendEnabled
               then [EvCall (TChart id) "legend" [ALegend]] else [])
           ++ [EvCall (TChart id) "height"
                 [AVal (num_or_null (getAvailableCanvasHeight element))];
               EvCall (TChart id) "width"
                 [AVal (num_or_null (getAvailableCanvasWidth element))];
               EvDc id chartType (PElement element)]
           ++ trace w)
          (doms w) (S id))
     else (Throw (TypeError "dc[chartType]"), w).
Proof.
  cbv zeta. split.
  - intros ->. apply dc_constructs_default.
  - destruct (dc_constructs (default (getDcjsChartType (display card)) ty)) eqn:Hty.
    + by apply initializeChart_exact.
    + by apply initializeChart_unknown.
Qed.

(** X6: [applyChartLineBarSettings] fails in one case only: the chart has
    an [interpolate] method and the card has no line settings; it then
    throws the TypeError of reading [line.step]. *)
Theorem applyChartLineBarSettings_needs_line_settings chart card chartType w :
  (applyChartLineBarSettings chart card chartType w).1
  = if dc_has (chart_type chart) "interpolate"
       && bool_decide (vs_line (visualization_settings card) = None)
    then Throw (TypeError "card.visualization_settings.line")
    else Ok ().
Proof.
  unfold applyChartLineBarSettings, chart_call, call, emit, prop.
  destruct (dc_has (chart_type chart) "brushOn"),
    (dc_has (chart_type chart) "interpolate"),
    (dc_has (chart_type chart) "renderArea"),
    (dc_has (chart_type chart) "barPadding"),
    (vs_line (visualization_settings card)) as [line|];
    run; try reflexivity;
    destruct (truthy (line_step line)); reflexivity.
Qed.

(** X7: when the axis functions fail.  Without x-axis settings both
    x-axis functions throw a TypeError before any call is made, and
    without y-axis settings so does [applyChartYAxis]; with y-axis
    settings [applyChartYAxis] always returns; with x-axis settings the
    ordinal x axis fails only when labels are enabled, the settings give
    no title, and there is no first column to take the title from. *)
Theorem axis_functions_failures chart card cols xValues w :
  (vs_xAxis (visualization_settings card) = None ->
   applyChartTimeseriesXAxis chart card cols xValues w
   = (Throw (TypeError "settings.xAxis"), w)
   /\ applyChartOrdinalXAxis chart card cols xValues w
      = (Throw (TypeError "settings.xAxis"), w))
  /\ (vs_yAxis (visualization_settings card) = None ->
      applyChartYAxis chart card cols w = (Throw (TypeError "settings.yAxis"), w))
  /\ (is_Some (vs_yAxis (visualization_settings card)) ->
      (applyChartYAxis chart card cols w).1 = Ok ())
  /\ (forall xAxis,
        vs_xAxis (visualization_settings card) = Some xAxis ->
        (applyChartOrdinalXAxis chart card cols xValues w).1
        = if truthy (labels_enabled xAxis) && negb (truthy (title_text xAxis))
             && bool_decide (cols = [])
          then Throw (TypeError "cols[0]")
          else Ok ()).
Proof.
  split; [|split; [|split]].
  - intros Hx. unfold applyChartTimeseriesXAxis, applyChartOrdinalXAxis.
    cbv zeta. by rewrite Hx.
  - intros Hy. unfold applyChartYAxis. cbv zeta. by rewrite Hy.
  - intros [yAxis Hy]. unfold applyChartYAxis, adjustTicksIfNeeded, chart_call,
      call, emit, get_world. cbv zeta. rewrite Hy. crunch; reflexivity.
  - intros xAxis Hx. unfold applyChartOrdinalXAxis, adjustTicksIfNeeded,
      xAxis_call, chart_call, call, emit, get_world, prop. cbv zeta. rewrite Hx.
    destruct cols as [|c cols]; crunch; reflexivity || discriminate.
Qed.

(** X8: with axis labels disabled no label, grid line or tick format
    based on the column is asked for: the ordinal x axis gets 0 ticks, an
    empty tick format, the values as its ordinal domain and ordinal
    units, and nothing else; the y axis (and the right y axis of a chart
    that has one) gets 0 ticks and nothing else. *)
Theorem axis_labels_disabled chart card cols xValues w xAxis yAxis :
  vs_xAxis (visualization_settings card) = Some xAxis ->
  vs_yAxis (visualization_settings card) = Some yAxis ->
  truthy (labels_enabled xAxis) = false ->
  truthy (labels_enabled yAxis) = false ->
  applyChartOrdinalXAxis chart card cols xValues w
  = (Ok (),
     mkWorld ([EvCall (TChart (chart_id chart)) "xUnits" [AUnitsOrdinal];
               EvCall (TChart (chart_id chart)) "x" [AScale (OrdinalScale xValues)];
               EvCall (TAxis (chart_id chart) "xAxis") "tickFormat" [AVal (VStr "")];
               EvCall (TAxis (chart_id chart) "xAxis") "ticks" [ANum 0]]
              ++ trace w) (doms w) (fresh w))
  /\ applyChartYAxis chart card cols w
     = (Ok (),
        mkWorld ((if dc_has (chart_type chart) "rightYAxis"
                  then [EvCall (TAxis (chart_id chart) "rightYAxis") "ticks" [ANum 0]]
                  else [])
                 ++ EvCall (TAxis (chart_id chart) "yAxis") "ticks" [ANum 0]
                 :: trace w) (doms w) (fresh w)).
Proof.
  intros Hx Hy Hxl Hyl. split.
  - unfold applyChartOrdinalXAxis, xAxis_call, chart_call, call, emit.
    cbv zeta. rewrite Hx. run. rewrite Hxl. run. reflexivity.
  - unfold applyChartYAxis, call, emit. cbv zeta. rewrite Hy. run. rewrite Hyl.
    destruct (dc_has (chart_type chart) "rightYAxis"); run; reflexivity.
Qed.

(** X9: a first column whose unit is ["quarter"] always gets quarter
    units on the time axis, whatever d3 provides: the module itself adds
    [d3.time.quarters].  The call of [xUnits] is the last one made. *)
Theorem timeseries_quarter_units chart card c cols xValues xAxis w :
  vs_xAxis (visualization_settings card) = Some xAxis ->
  col_unit c = VStr "quarter" ->
  exists rest ds,
    applyChartTimeseriesXAxis chart card (c :: cols) xValues w
    = (Ok (),
       mkWorld (EvCall (TChart (chart_id chart)) "xUnits" [ATimeInterval "quarters"]
                :: rest ++ trace w) ds (fresh w)).
Proof.
  intros Hx Hunit.
  unfold applyChartTimeseriesXAxis, xAxis_call, chart_call, call, emit,
    get_world, d3_time_has.
  cbv zeta. rewrite Hx. cbn [head]. rewrite Hunit.
  destruct (truthy (labels_enabled xAxis)) eqn:Hl; run; rewrite Hl; run.
  - destruct (truthy (js_or (title_text xAxis) VNull)); run;
      by eexists [_; _; _; _; _], _.
  - by eexists [_; _], _.
Qed.

(** ** Patching attributes *)

Lemma get_at_update_at p f r n :
  get_at p r = Some n -> get_at p (update_at p f r) = Some (f n).
Proof.
  revert r. induction p as [|i p IH]; intros r; simpl.
  - by intros [= ->].
  - rewrite list_lookup_alter_eq.
    destruct (children r !! i) as [c|]; simpl; [apply IH | discriminate].
Qed.

(** X10: the function [customizer] returns.  A falsy attribute value is
    skipped without looking at the element, so that it does nothing even
    for a [null] element; a truthy value for a [null] element is a
    TypeError; a truthy value for an element of the chart sets that
    attribute of the element to the (transformed) value as a string,
    leaves its other attributes, its identity and its children alone and
    makes no library call. *)
Theorem customizer_sets_attribute chart element attrName attrValue transform w :
  (truthy attrValue = false ->
   customizer chart element attrName attrValue transform w = (Ok (), w))
  /\ (truthy attrValue = true ->
      customizer chart None attrName attrValue transform w
      = (Throw (TypeError "element.length"), w))
  /\ (forall root p n,
        truthy attrValue = true ->
        doms w !! chart_id chart = Some root ->
        get_at p root = Some n ->
        exists w' n',
          customizer chart (Some (OneElement p)) attrName attrValue transform w
          = (Ok (), w')
          /\ trace w' = trace w
          /\ node_at (doms w' !! chart_id chart) p = Some n'
          /\ attrs n'
             = <[attrName := to_string (from_option (fun f => f attrValue) attrValue
                                                    transform)]> (attrs n)
          /\ elem n' = elem n /\ children n' = children n).
Proof.
  unfold customizer. split; [|split].
  - by intros ->.
  - by intros ->.
  - intros root p n -> Hroot Hn.
    unfold set_attribute, chart_root, get_world, set_dom, prop. run.
    rewrite Hroot. run.
    eexists _, _. split; [reflexivity|]. split; [reflexivity|]. simpl.
    rewrite lookup_insert_eq. simpl.
    split; [by apply get_at_update_at|].
    by destruct transform.
Qed.

(** X11: on a chart in which no element [.axis.y] is found,
    [lineAndBarOnRender] throws the TypeError of the margin adjustment
    after registering its listener: no margin is set and the chart is
    not rendered again. *)
Theorem lineAndBarOnRender_without_y_axis chart card w :
  select_below (doms w !! chart_id chart) [] [class_sel ["axis"; "y"]] = None ->
  exists ds,
    lineAndBarOnRender chart card w
    = (Throw (TypeError "chart.select('.axis.y')[0][0]"),
       mkWorld (on_lineAndBarOnRender chart :: trace w) ds (fresh w)).
Proof.
  intros Hy.
  destruct (lineAndBarOnRender_run chart card w) as (w' & (Ht & Hf & Hsel) & ->).
  rewrite margins_run. cbv zeta. rewrite Hsel, Hy, Ht, Hf. simpl. eauto.
Qed.

(** ** Hovering *)

(** The listeners the renderlet leaves on a selected element. *)
Lemma bound_listeners cb root n :
  n ∈ descendants (renderlet_tooltips cb root) ->
  matches tooltip_selector n = true ->
  listeners n !! "mousemove" = Some (OnMouseMove cb)
  /\ listeners n !! "mouseleave" = Some (OnMouseLeave cb).
Proof.
  unfold renderlet_tooltips. intros Hn Hm.
  apply descendants_selectAll_remove in Hn as (n0 & Hn0 & _ & ->).
  rewrite (matches_elem _ _ n0) in Hm by apply elem_selectAll_remove.
  apply descendants_selectAll_each in Hn0 as (x & ->); [|done..].
  rewrite !listeners_selectAll_remove. simpl.
  rewrite lookup_insert_ne by done. by rewrite !lookup_insert_eq.
Qed.

(** X12: when the caller gives no [onHoverChange], hovering does nothing.
    Whichever renderer registered the tooltips ([pie] passes the absent
    function itself, [lineAreaBar], [state] and [country] their own
    function closed over it), a mousemove or mouseleave on a selected
    element of the rendered chart makes no call and raises nothing. *)
Theorem hovering_without_callback cb data root n w :
  cb = None \/ cb = Some (HoverLineAreaBar None)
  \/ cb = Some (HoverState data None) \/ cb = Some (HoverCountry data None) ->
  n ∈ descendants (renderlet_tooltips cb root) ->
  matches tooltip_selector n = true ->
  dispatch "mousemove" n w = (Ok (), w)
  /\ dispatch "mouseleave" n w = (Ok (), w).
Proof.
  intros Hcb Hn Hm. destruct (bound_listeners cb root n Hn Hm) as [Hmove Hleave].
  unfold dispatch. rewrite Hmove, Hleave.
  destruct Hcb as [-> | [-> | [-> | ->]]]; split; reflexivity.
Qed.


(** A row whose first value is there and strictly equal to [v]. *)
Lemma findWhere_0_first rows v pre row post :
  rows = pre ++ row :: post ->
  Forall (fun r => strict_eq (js_index r 0) v = false \/ r = []) pre ->
  strict_eq (js_index row 0) v = true -> row <> [] ->
  findWhere_0 rows v = Some row.
Proof.
  intros -> Hpre Hrow Hne. unfold findWhere_0.
  induction Hpre as [|r pre Hr _ IH]; simpl.
  - destruct row as [|x row]; [done|]. unfold js_index in Hrow. simpl in Hrow.
    by rewrite Hrow.
  - destruct r as [|x r]; [exact IH|].
    destruct Hr as [Hr|]; [|done]. unfold js_index in Hr. simpl in Hr.
    by rewrite Hr.
Qed.

Lemma findWhere_0_none rows v :
  Forall (fun r => strict_eq (js_index r 0) v = false \/ r = []) rows ->
  findWhere_0 rows v = None.
Proof.
  unfold findWhere_0. induction 1 as [|r rows Hr _ IH]; simpl; [done|].
  destruct r as [|x r]; [exact IH|].
  destruct Hr as [Hr|]; [|done]. unfold js_index in Hr. simpl in Hr.
  by rewrite Hr.
Qed.

(** X14: what the hover functions of the maps report for a feature.
    [state] looks up the first row whose first value is the feature's
    [name] and reports [{ data: { key: row[0], value: row[1] } }];
    [country] looks up the first row whose first value is the feature's
    [ISO_A2] and reports the feature's [NAME] as the key; both report
    [false] when no row has that first value. *)
Theorem map_hover_reports_the_row data g e properties i w :
  let prop_of name := default VUndefined (properties !! name) in
  let is_row v row := strict_eq (js_index row 0) v = true /\ row <> [] in
  let no_row v := Forall (fun r => strict_eq (js_index r 0) v = false \/ r = []) in
  (forall pre row post,
     rows data = pre ++ row :: post ->
     no_row (prop_of "name") pre -> is_row (prop_of "name") row ->
     apply_hover (HoverState data (Some g)) [e; OFeature properties; i] w
     = emit (EvCallback g [e; OData (js_index row 0) (js_index row 1); i]) w)
  /\ (forall pre row post,
        rows data = pre ++ row :: post ->
        no_row (prop_of "ISO_A2") pre -> is_row (prop_of "ISO_A2") row ->
        apply_hover (HoverCountry data (Some g)) [e; OFeature properties; i] w
        = emit (EvCallback g [e; OData (prop_of "NAME") (js_index row 1); i]) w)
  /\ (no_row (prop_of "name") (rows data) ->
      apply_hover (HoverState data (Some g)) [e; OFeature properties; i] w
      = emit (EvCallback g [e; OPrim (VBool false); i]) w)
  /\ (no_row (prop_of "ISO_A2") (rows data) ->
      apply_hover (HoverCountry data (Some g)) [e; OFeature properties; i] w
      = emit (EvCallback g [e; OPrim (VBool false); i]) w).
Proof.
  cbv zeta. unfold apply_hover, param, feature_property. simpl.
  split; [|split; [|split]].
  - intros pre row post Hrows Hpre [Hrow Hne]. run.
    by rewrite (findWhere_0_first _ _ pre row post).
  - intros pre row post Hrows Hpre [Hrow Hne]. run.
    by rewrite (findWhere_0_first _ _ pre row post).
  - intros Hnone. run. by rewrite findWhere_0_none.
  - intros Hnone. run. by rewrite findWhere_0_none.
Qed.

(** ** The renderers at their edges *)

(** X15: a pie card without pie settings.  [pie] only finds out when it
    reads [settings.pie.colors]: by then the crossfilter dataset and the
    chart exist and the chart has its dimension and group; it throws a
    TypeError, and the chart is never rendered. *)
Theorem pie_without_pie_settings element props w :
  vs_pie (visualization_settings (p_card props)) = None ->
  (CardRenderer_pie element props w).1 = Throw (TypeError "settings.pie")
  /\ (exists records ty,
        EvCrossfilter records ∈ emitted (CardRenderer_pie element props) w
        /\ EvDc (fresh w) ty (PElement element)
           ∈ emitted (CardRenderer_pie element props) w)
  /\ forall chart args,
       EvCall (TChart chart) "render" args ∉ emitted (CardRenderer_pie element props) w.
Proof.
  intros Hpie.
  assert (exists new,
             CardRenderer_pie element props w
             = (Throw (TypeError "settings.pie"),
                mkWorld (new ++ trace w) (doms w) (S (fresh w)))
             /\ (exists records ty,
                   EvCrossfilter records ∈ new
                   /\ EvDc (fresh w) ty (PElement element) ∈ new)
             /\ forall chart args, EvCall (TChart chart) "render" args ∉ new)
    as (new & Hrun & Hin & Hout).
  { unfold CardRenderer_pie. cbv zeta. rewrite Hpie.
    rewrite run_bind. unfold emit at 1. cbn [fst snd].
    rewrite run_bind, initializeChart_exact by apply dc_constructs_default.
    cbv zeta.
    unfold chart_call, call, emit, prop. run.
    destruct (truthy _).
    - eexists [_; _; _; _; _; _; _; _]. split; [reflexivity|]. split.
      + do 2 eexists. split; apply list_elem_of_lookup;
          [by exists 7 | by exists 6].
      + intros chart args Hin.
        repeat (apply elem_of_cons in Hin as [Hin|Hin]; [discriminate|]).
        by apply elem_of_nil in Hin.
    - eexists [_; _; _; _; _; _; _]. split; [reflexivity|]. split.
      + do 2 eexists. split; apply list_elem_of_lookup;
          [by exists 6 | by exists 5].
      + intros chart args Hin.
        repeat (apply elem_of_cons in Hin as [Hin|Hin]; [discriminate|]).
        by apply elem_of_nil in Hin. }
  rewrite (emitted_prefix _ _ new) by (by rewrite Hrun).
  rewrite Hrun. auto.
Qed.

(** X16: [state], unlike [country], hands the first value of each row to
    its renderer as it is: one record per row, with the row's first value
    as [stateCode] and its second as [value]. *)
Theorem state_codes_unchanged element props w :
  exists chartData,
    geo_calls "setData" (emitted (CardRenderer_state element props) w)
    = [[ARecords chartData; AVal (VStr "stateCode"); AVal (VStr "value")]]
    /\ length chartData = length (rows (p_data props))
    /\ forall i row,
         rows (p_data props) !! i = Some row ->
         exists record,
           chartData !! i = Some record
           /\ record !! "stateCode" = Some (CVal (js_index row 0))
           /\ record !! "value" = Some (CVal (js_index row 1)).
Proof.
  eexists. split; [|split].
  - erewrite emitted_prefix by (rewrite state_run; reflexivity). reflexivity.
  - by rewrite length_map.
  - intros i row Hrow. eexists. split.
    + rewrite list_lookup_fmap, Hrow. reflexivity.
    + unfold record2. rewrite lookup_insert_ne by done.
      by rewrite lookup_singleton_eq, lookup_insert_eq.
Qed.

(** Where an element of a tree operated on by [selectAll_each] comes
    from. *)
Lemma descendants_selectAll_each_origin sel f (r x : Node) :
  (forall n, children (f n) = children n) ->
  x ∈ descendants (selectAll_each sel f r) ->
  exists x0, x0 ∈ descendants r
             /\ x = if matches sel x0 then f (selectAll_each sel f x0)
                    else selectAll_each sel f x0.
Proof.
  intros Hf. revert x. induction r as [e a d l cs IH] using Node_ind'.
  intros x Hx.
  apply elem_of_descendants in Hx as (c & Hc & Hx). simpl in Hc.
  rewrite map_fmap in Hc. apply list_elem_of_fmap in Hc as (c0 & -> & Hc0).
  rewrite Forall_forall in IH.
  destruct Hx as [-> | Hx].
  - exists c0. split; [|done].
    apply elem_of_descendants. exists c0. simpl. tauto.
  - assert (x ∈ descendants (selectAll_each sel f c0)) as Hx'.
    { destruct (matches sel c0); [|done].
      by rewrite !descendants_bind, Hf, <- descendants_bind in Hx. }
    destruct (IH c0 Hc0 x Hx') as (x0 & Hx0 & ->).
    exists x0. split; [|done].
    apply elem_of_descendants. exists c0. simpl. tauto.
Qed.

Lemma attrs_selectAll_remove sel n : attrs (selectAll_remove sel n) = attrs n.
Proof. by destruct n. Qed.

Lemma node_selectAll_each sel f n :
  attrs (selectAll_each sel f n) = attrs n
  /\ datum (selectAll_each sel f n) = datum n
  /\ listeners (selectAll_each sel f n) = listeners n.
Proof. by destruct n. Qed.

(** X17: the renderlet of the tooltips only touches what it is for.  An
    element of the tree it leaves comes from an element of the rendered
    tree that is not a [title], with the same identity, attributes and
    datum; unless it is selected for tooltips it has the same listeners
    too, and when it is, only its mousemove and mouseleave listeners are
    replaced. *)
Theorem renderlet_tooltips_leaves_the_rest cb root n :
  n ∈ descendants (renderlet_tooltips cb root) ->
  exists n0,
    n0 ∈ descendants root
    /\ el_tag (elem n0) <> "title"
    /\ elem n = elem n0 /\ attrs n = attrs n0 /\ datum n = datum n0
    /\ (matches tooltip_selector n = false -> listeners n = listeners n0)
    /\ forall type, type <> "mousemove" -> type <> "mouseleave" ->
                    listeners n !! type = listeners n0 !! type.
Proof.
  unfold renderlet_tooltips. intros Hn.
  apply descendants_selectAll_remove in Hn as (n1 & Hn1 & Htitle & ->).
  apply descendants_selectAll_each_origin in Hn1 as (n0 & Hn0 & ->); [|done].
  exists n0. split; [done|].
  destruct (node_selectAll_each tooltip_selector
              (fun n => on "mouseleave" (OnMouseLeave cb)
                          (on "mousemove" (OnMouseMove cb) n)) n0)
    as (Hattrs & Hdatum & Hlisteners).
  rewrite elem_selectAll_remove, attrs_selectAll_remove, datum_selectAll_remove,
    listeners_selectAll_remove.
  set (bind := fun n => on "mouseleave" (OnMouseLeave cb)
                          (on "mousemove" (OnMouseMove cb) n)) in *.
  assert (elem (if matches tooltip_selector n0
                then bind (selectAll_each tooltip_selector bind n0)
                else selectAll_each tooltip_selector bind n0) = elem n0) as Helem.
  { destruct (matches tooltip_selector n0); simpl; by rewrite elem_selectAll_each. }
  rewrite (matches_elem _ _ n0 Helem) in Htitle.
  assert (el_tag (elem n0) <> "title") as Htag.
  { intros Htag. unfold matches, matches_compound in Htitle. simpl in Htitle.
    rewrite Htag in Htitle. discriminate. }
  split; [done|].
  rewrite (matches_elem tooltip_selector (selectAll_remove _ _) n0)
    by (by rewrite elem_selectAll_remove).
  split; [exact Helem|]. clear Helem. subst bind.
  destruct (matches tooltip_selector n0); simpl;
    rewrite ?Hattrs, ?Hdatum, ?Hlisteners.
  - repeat split; [discriminate|].
    intros type H1 H2. by rewrite !lookup_insert_ne.
  - done.
Qed.

(** X18: with the four values configured, [pin_map] never fails.  It
    sizes the element where a canvas height or width is available, makes
    the map in the element with the zoom and center of the settings and
    the scroll wheel off, pushes the tile overlay, registers
    [updateMapCenter] for [center_changed] and [updateMapZoom] for
    [zoom_changed], triggers a resize, and listens for the card being
    resized, in that order and nothing else. *)
Theorem pin_map_configured element card f g w m :
  vs_map (visualization_settings card) = Some m ->
  is_nullish (latitude_dataset_col_index m) = false ->
  is_nullish (longitude_dataset_col_index m) = false ->
  is_nullish (latitude_source_table_field_id m) = false ->
  is_nullish (longitude_source_table_field_id m) = false ->
  CardRenderer_pin_map element card f g w
  = (Ok (),
     mkWorld
       ([EvElementListener element "cardrenderer-card-resized" OnCardResized;
         EvMapsTrigger "resize";
         EvMapListener "zoom_changed" (OnZoomChanged g);
         EvMapListener "center_changed" (OnCenterChanged f);
         EvOverlayPush
           {| getTileUrl :=
                {| cap_latitude_source_table_field_id := latitude_source_table_field_id m;
                   cap_longitude_source_table_field_id := longitude_source_table_field_id m;
                   cap_latitude_dataset_col_index := latitude_dataset_col_index m;
                   cap_longitude_dataset_col_index := longitude_dataset_col_index m;
                   cap_query := dataset_query card |};
              tileSize := (256, 256)%Z |};
         EvMapNew element
           {| mo_zoom := map_zoom m;
              mo_center := {| lat := center_latitude m; lng := center_longitude m |};
              mo_mapTypeId := "google.maps.MapTypeId.MAP";
              mo_scrollwheel := false |}]
        ++ from_option (fun width => [EvStyle element "width" (pretty width +:+ "px")])
             [] (getAvailableCanvasWidth element)
        ++ from_option (fun height => [EvStyle element "height" (pretty height +:+ "px")])
             [] (getAvailableCanvasHeight element)
        ++ trace w)
       (doms w) (fresh w)).
Proof.
  intros Hm H1 H2 H3 H4.
  unfold CardRenderer_pin_map. rewrite Hm. simpl.
  unfold mbind, M_bind, mret, M_ret. simpl.
  rewrite H1, H2, H3, H4. simpl.
  destruct (getAvailableCanvasHeight element), (getAvailableCanvasWidth element);
    reflexivity.
Qed.

(** ** What [lineAreaBar] asks of the libraries *)

Lemma emits_ret {A} keep (a : A) : emits_only keep (mret a : M A).
Proof. intros w. by exists []. Qed.

Lemma emits_throw {A} keep e : emits_only keep (throw e : M A).
Proof. intros w. by exists []. Qed.

Lemma emits_bind {A B} keep (m : M A) (k : A -> M B) :
  emits_only keep m -> (forall a, emits_only keep (k a)) ->
  emits_only keep (m ≫= k).
Proof.
  intros Hm Hk w. rewrite run_bind.
  destruct (Hm w) as (new1 & E1 & F1). destruct (m w) as [[a|e] w1]; simpl in *.
  - destruct (Hk a w1) as (new2 & E2 & F2). exists (new2 ++ new1).
    rewrite E2, E1, app_assoc, forallb_app, F1, F2. done.
  - eauto.
Qed.

Lemma emits_prop {A} keep site (o : option A) : emits_only keep (prop site o).
Proof. destruct o; [apply emits_ret | apply emits_throw]. Qed.

Lemma emits_emit keep ev : keep ev = true -> emits_only keep (emit ev).
Proof. intros Hev w. exists [ev]. simpl. by rewrite Hev. Qed.

Lemma emits_get_world keep : emits_only keep get_world.
Proof. intros w. by exists []. Qed.

Lemma emits_next_id keep : emits_only keep next_id.
Proof. intros w. by exists []. Qed.

Lemma emits_set_dom keep chart root : emits_only keep (set_dom chart root).
Proof. intros w. by exists []. Qed.

Lemma emits_try_catch keep m : emits_only keep m -> emits_only keep (try_catch m).
Proof. intros Hm w. apply Hm. Qed.

Lemma emits_forEach {A} keep (f : nat -> A -> M ()) i l :
  (forall i a, emits_only keep (f i a)) -> emits_only keep (forEach f i l).
Proof.
  intros Hf. revert i. induction l as [|a l IH]; intros i; simpl.
  - apply emits_ret.
  - apply emits_bind; [apply Hf | intros _; apply IH].
Qed.

Lemma emits_mapM {A B} keep (f : nat -> A -> M B) i l :
  (forall i a, emits_only keep (f i a)) -> emits_only keep (mapM f i l).
Proof.
  intros Hf. revert i. induction l as [|a l IH]; intros i; simpl.
  - apply emits_ret.
  - apply emits_bind; [apply Hf | intros b].
    apply emits_bind; [apply IH | intros bs; apply emits_ret].
Qed.

Ltac emits_step :=
  lazymatch goal with
  | |- emits_only _ (if ?b then _ else _) => destruct b
  | |- emits_only _ (match ?x with _ => _ end) => destruct x
  | |- emits_only _ (mbind _ _) => apply emits_bind; [|intros ?]
  | |- emits_only _ (mret _) => apply emits_ret
  | |- emits_only _ (throw _) => apply emits_throw
  | |- emits_only _ (prop _ _) => apply emits_prop
  | |- emits_only _ (emit _) => apply emits_emit; reflexivity
  | |- emits_only _ get_world => apply emits_get_world
  | |- emits_only _ next_id => apply emits_next_id
  | |- emits_only _ (set_dom _ _) => apply emits_set_dom
  | |- emits_only _ (try_catch _) => apply emits_try_catch
  | |- emits_only _ (forEach _ _ _) => apply emits_forEach; intros ? ?
  | |- emits_only _ (mapM _ _ _) => apply emits_mapM; intros ? ?
  | |- emits_only _ (chart_call _ _ _) => unfold chart_call, call
  | |- emits_only _ (call _ _ _) => unfold call
  | |- emits_only _ (xAxis_call _ _ _) => unfold xAxis_call, call
  | |- emits_only _ (adjustTicksIfNeeded _ _ _ _) => unfold adjustTicksIfNeeded
  | |- emits_only _ (dc_create _ _) => unfold dc_create
  | |- emits_only _ (applyChartBoundary _ _) => unfold applyChartBoundary
  | |- emits_only _ (applyChartLegend _ _) => unfold applyChartLegend; cbv zeta
  | |- emits_only _ (initializeChart _ _ _) => unfold initializeChart; cbv zeta
  | |- emits_only _ (applyChartTimeseriesXAxis _ _ _ _) =>
      unfold applyChartTimeseriesXAxis; cbv zeta
  | |- emits_only _ (applyChartOrdinalXAxis _ _ _ _) =>
      unfold applyChartOrdinalXAxis; cbv zeta
  | |- emits_only _ (applyChartYAxis _ _ _) => unfold applyChartYAxis; cbv zeta
  | |- emits_only _ (applyChartLineBarSettings _ _ _) =>
      unfold applyChartLineBarSettings
  | |- emits_only _ (applyChartTooltips _ _) => unfold applyChartTooltips
  | |- emits_only _ (chart_render _) => unfold chart_render
  end.

Ltac emits_all := repeat emits_step.

Lemma fails_throw {A} keep e : fails_emitting keep (throw e : M A).
Proof. intros w. split; [by eexists | by exists []]. Qed.

Lemma fails_bind_now {A B} keep (m : M A) (k : A -> M B) :
  fails_emitting keep m -> fails_emitting keep (m ≫= k).
Proof.
  intros Hm w. rewrite run_bind. destruct (Hm w) as ([e He] & Hnew).
  destruct (m w) as [[a|e'] w1]; simpl in *; [discriminate|]. eauto.
Qed.

Lemma fails_bind_later {A B} keep (m : M A) (k : A -> M B) :
  emits_only keep m -> (forall a, fails_emitting keep (k a)) ->
  fails_emitting keep (m ≫= k).
Proof.
  intros Hm Hk w. rewrite run_bind.
  destruct (Hm w) as (new1 & E1 & F1). destruct (m w) as [[a|e] w1]; simpl in *.
  - destruct (Hk a w1) as (He & new2 & E2 & F2). split; [done|].
    exists (new2 ++ new1). rewrite E2, E1, app_assoc, forallb_app, F1, F2. done.
  - split; eauto.
Qed.

Lemma fails_bind_prop_some {A B} keep site (a : A) (k : A -> M B) :
  fails_emitting keep (k a) -> fails_emitting keep (prop site (Some a) ≫= k).
Proof. intros Hk w. rewrite run_bind. apply Hk. Qed.

(** X19: [lineAreaBar] does not render a chart whose card lacks x-axis or
    y-axis settings.  Given a first series with at least two columns, it
    then throws, and no chart has been rendered when it does. *)
Theorem lineAreaBar_needs_axis_settings element chartType props s0 w :
  head (p_series props) = Some s0 ->
  (2 <= length (cols (s_data s0)))%nat ->
  vs_xAxis (visualization_settings (s_card s0)) = None
  \/ vs_yAxis (visualization_settings (s_card s0)) = None ->
  (exists e, (CardRenderer_lineAreaBar element chartType props w).1 = Throw e)
  /\ forall chart args,
       EvCall (TChart chart) "render" args
       ∉ emitted (CardRenderer_lineAreaBar element chartType props) w.
Proof.
  intros Hs Hcols Haxis.
  assert (fails_emitting not_render (CardRenderer_lineAreaBar element chartType props))
    as Hfails.
  { unfold CardRenderer_lineAreaBar. cbv zeta. rewrite Hs.
    apply fails_bind_prop_some.
    destruct (Nat.ltb_spec (length (cols (s_data s0))) 2) as [|_]; [lia|].
    apply fails_bind_later; [emits_all|intros _].
    apply fails_bind_later; [emits_all|intros _].
    apply fails_bind_later; [emits_all|intros chart].
    destruct (vs_xAxis (visualization_settings (s_card s0))) as [xAxis|] eqn:Hx.
    - destruct Haxis as [|Hy]; [discriminate|].
      apply fails_bind_later; [emits_all|intros _].
      apply fails_bind_now. unfold applyChartYAxis. cbv zeta. rewrite Hy.
      apply fails_bind_now, fails_throw.
    - apply fails_bind_now.
      destruct (dimensionIsTimeseries (s_data s0));
        [unfold applyChartTimeseriesXAxis | unfold applyChartOrdinalXAxis];
        cbv zeta; rewrite Hx; apply fails_bind_now, fails_throw. }
  destruct (Hfails w) as (He & new & Hnew & Hkeep).
  split; [exact He|].
  rewrite (emitted_prefix _ _ new Hnew).
  intros chart args Hin.
  rewrite forallb_forall in Hkeep.
  apply list_elem_of_In, Hkeep in Hin. discriminate.
Qed.

Lemma bind_assoc {A B C : Type} (m : M A) (k1 : A -> M B) (k2 : B -> M C) w :
  ((m ≫= k1) ≫= k2) w = (m ≫= fun a => k1 a ≫= k2) w.
Proof. rewrite !run_bind. by destruct (m w) as [[a|e] w1]. Qed.

Lemma rev_imap_cons {A B : Type} (f : nat -> A -> B) (x : A) (l : list A) :
  rev (imap f (x :: l)) = rev (imap (f ∘ S) l) ++ [f 0 x].
Proof. reflexivity. Qed.

Lemma forEach_emit_exact {A : Type} (g : nat -> A -> Event) i l w :
  forEach (fun i a => emit (g i a)) i l w
  = (Ok (),
     mkWorld (rev (imap (fun j a => g (i + j) a) l) ++ trace w) (doms w) (fresh w)).
Proof.
  revert i w. induction l as [|a l IH]; intros i w.
  - by destruct w.
  - cbn [forEach]. rewrite run_bind. unfold emit at 1. rewrite IH.
    rewrite rev_imap_cons, <- app_assoc, Nat.add_0_r. cbn [trace doms fresh].
    do 4 f_equal. apply imap_ext. intros j x _. simpl. f_equal. lia.
Qed.

Lemma mapM_dc_create {A : Type} ty parent i (l : list A) w :
  dc_constructs ty = true ->
  mapM (fun _ _ => dc_create ty parent) i l w
  = (Ok (imap (fun j _ => {| chart_id := fresh w + j; chart_type := ty |}) l),
     mkWorld (rev (imap (fun j _ => EvDc (fresh w + j) ty parent) l) ++ trace w)
             (doms w) (fresh w + length l)).
Proof.
  intros Hty. revert i w. induction l as [|a l IH]; intros i w.
  - simpl. rewrite Nat.add_0_r. by destruct w.
  - cbn [mapM]. rewrite run_bind. unfold dc_create at 1, next_id, emit.
    rewrite Hty. run.
    rewrite IH. cbn [fst snd trace doms fresh length].
    rewrite <- app_assoc, !Nat.add_0_r. unfold mret, M_ret.
    f_equal; [do 2 f_equal | f_equal; [do 2 f_equal | lia]];
      apply imap_ext; intros j x _; simpl; f_equal; lia.
Qed.

Lemma emits_lineAndBarOnRender keep chart card :
  (forall target method args, keep (EvCall target method args) = true) ->
  (forall target property value, keep (EvAssign target property value) = true) ->
  emits_only keep (lineAndBarOnRender chart card).
Proof.
  intros Hcall Hassign w.
  destruct (lineAndBarOnRender_run chart card w) as (w' & (Ht & _) & ->).
  pose proof (margins_cases chart w') as Hcases. cbn zeta in Hcases.
  rewrite Ht in Hcases. unfold on_lineAndBarOnRender in Hcases.
  destruct Hcases as [(_ & -> & _) | [(_ & [left ->] & _) | (_ & left & bottom & ->)]].
  - eexists [_]. split; [reflexivity|]. simpl. by rewrite Hcall.
  - eexists [_; _]. split; [reflexivity|]. simpl. by rewrite Hcall, Hassign.
  - eexists [_; _; _; _]. split; [reflexivity|]. simpl.
    by rewrite !Hcall, !Hassign.
Qed.

Ltac emits_more :=
  repeat first
    [ emits_step
    | lazymatch goal with
      | |- emits_only _ (lineAndBarOnRender _ _) =>
          apply emits_lineAndBarOnRender; reflexivity
      end ].

Lemma forallb_filter_nil {A : Type} (keep : A -> bool) (l : list A) :
  forallb keep l = true -> List.filter (fun x => negb (keep x)) l = [].
Proof.
  induction l as [|x l IH]; simpl; [done|].
  intros [-> Hl]%andb_true_iff. simpl. auto.
Qed.

Lemma dcs_app l1 l2 : dcs (l1 ++ l2) = dcs l1 ++ dcs l2.
Proof. apply omap_app. Qed.

Lemma dcs_not_dc l : forallb not_dc l = true -> dcs l = [].
Proof.
  induction l as [|ev l IH]; simpl; [done|].
  intros [Hev Hl]%andb_true_iff. unfold dcs in *. simpl.
  destruct ev; try discriminate; auto.
Qed.

(** X20: the crossfilter dataset of [lineAreaBar].  Given a first series
    with at least two columns, whatever happens later, the renderer makes
    one empty dataset and adds to it once per series, in the order of
    the series, the records of that series: one per row, with [x] and
    [y<index>]. *)
Theorem lineAreaBar_fills_one_dataset element chartType props s0 w :
  head (p_series props) = Some s0 ->
  (2 <= length (cols (s_data s0)))%nat ->
  rev (crossfilters (emitted (CardRenderer_lineAreaBar element chartType props) w))
  = EvCrossfilter []
    :: imap (fun index s =>
               EvCrossfilterAdd
                 (series_records (dimensionIsTimeseries (s_data s0)) index s))
            (p_series props).
Proof.
  intros Hs Hcols.
  set (adds := imap (fun index s =>
                       EvCrossfilterAdd
                         (series_records (dimensionIsTimeseries (s_data s0)) index s))
                    (p_series props)).
  assert (exists new,
             trace (CardRenderer_lineAreaBar element chartType props w).2
             = (new ++ rev adds ++ [EvCrossfilter []]) ++ trace w
             /\ forallb not_crossfilter new = true) as (new & Hnew & Hkeep).
  { unfold CardRenderer_lineAreaBar. cbv zeta. rewrite Hs.
    rewrite run_bind. cbn [prop mret M_ret].
    destruct (Nat.ltb_spec (length (cols (s_data s0))) 2) as [|_]; [lia|].
    rewrite run_bind. unfold emit at 1. cbn [fst snd].
    rewrite run_bind, forEach_emit_exact.
    match goal with
    | |- context [trace (?rest ?w2).2] =>
        assert (emits_only not_crossfilter rest) as Hrest
    end.
    { emits_more. }
    match goal with
    | |- context [trace (?rest ?w2).2] =>
        destruct (Hrest w2) as (new & Hnew & Hkeep)
    end.
    exists new. split; [|done]. rewrite Hnew. cbn [trace].
    by rewrite <- !app_assoc. }
  rewrite (emitted_prefix _ _ _ Hnew).
  unfold crossfilters. rewrite !List.filter_app, forallb_filter_nil by done.
  simpl. rewrite rev_app_distr. simpl. f_equal.
  rewrite <- (rev_involutive adds) at 2. f_equal.
  apply forallb_filter_id. apply forallb_forall. intros ev Hev.
  apply in_rev in Hev. subst adds.
  apply list_elem_of_In, elem_of_lookup_imap in Hev as (i & s & -> & _).
  reflexivity.
Qed.

Lemma dcs_rev l : dcs (rev l) = rev (dcs l).
Proof.
  induction l as [|ev l IH]; [done|].
  simpl. rewrite dcs_app, IH. unfold dcs at 2 3. simpl.
  destruct ev; simpl; by rewrite ?app_nil_r.
Qed.

Lemma dcs_imap_dc {A : Type} (f : nat -> nat) ty parent (l : list A) :
  dcs (imap (fun j _ => EvDc (f j) ty parent) l)
  = imap (fun j _ => (f j, ty, parent)) l.
Proof.
  revert f. induction l as [|a l IH]; intros f; [done|].
  simpl. unfold dcs in *. simpl. f_equal. apply (IH (f ∘ S)).
Qed.

Lemma dcs_imap_other {A : Type} (g : nat -> A -> Event) (l : list A) :
  (forall j a, not_dc (g j a) = true) -> dcs (imap g l) = [].
Proof.
  intros Hg. apply dcs_not_dc, forallb_forall. intros ev Hev.
  apply list_elem_of_In, elem_of_lookup_imap in Hev as (j & a & -> & _).
  apply Hg.
Qed.

(** X21: the charts of [lineAreaBar].  Given a first series with at
    least two columns, whatever happens later, an area chart or a chart
    of one series is one dc.js chart in the element, of the type of the
    first card's display; any other is a composite chart in the element
    with one sub-chart per series, each created in the composite and of
    the type of the first card's display.  No other chart is created. *)
Theorem lineAreaBar_charts_created element chartType props s0 w :
  head (p_series props) = Some s0 ->
  (2 <= length (cols (s_data s0)))%nat ->
  rev (dcs (emitted (CardRenderer_lineAreaBar element chartType props) w))
  = if String.eqb chartType "area" || (length (p_series props) =? 1)%nat
    then [(fresh w, getDcjsChartType (display (s_card s0)), PElement element)]
    else (fresh w, "compositeChart", PElement element)
         :: imap (fun i _ => (S (fresh w) + i,
                              getDcjsChartType (display (s_card s0)),
                              PChart (fresh w)))
                 (p_series props).
Proof.
  intros Hs Hcols.
  set (adds := imap (fun index s =>
                       EvCrossfilterAdd
                         (series_records (dimensionIsTimeseries (s_data s0)) index s))
                    (p_series props)).
  set (subs := imap (fun i (_ : Series) =>
                       EvDc (S (fresh w) + i) (getDcjsChartType (display (s_card s0)))
                            (PChart (fresh w)))
                    (p_series props)).
  assert (exists new legend ty,
             trace (CardRenderer_lineAreaBar element chartType props w).2
             = (new
                ++ (if String.eqb chartType "area" || (length (p_series props) =? 1)%nat
                    then [] else rev subs)
                ++ [EvCall (TChart (fresh w)) "transitionDuration" [ANum 0]]
                ++ legend
                ++ [EvCall (TChart (fresh w)) "height"
                      [AVal (num_or_null (getAvailableCanvasHeight element))];
                    EvCall (TChart (fresh w)) "width"
                      [AVal (num_or_null (getAvailableCanvasWidth element))];
                    EvDc (fresh w) ty (PElement element)]
                ++ rev adds ++ [EvCrossfilter []] ++ trace w)
             /\ forallb not_dc new = true
             /\ forallb not_dc legend = true
             /\ ty = if String.eqb chartType "area" || (length (p_series props) =? 1)%nat
                     then getDcjsChartType (display (s_card s0))
                     else "compositeChart")
    as (new & legend & ty & Hnew & Hkeep & Hlegend & ->).
  { unfold CardRenderer_lineAreaBar. cbv zeta. rewrite Hs.
    rewrite run_bind. cbn [prop mret M_ret].
    destruct (Nat.ltb_spec (length (cols (s_data s0))) 2) as [|_]; [lia|].
    rewrite run_bind. unfold emit at 1. cbn [fst snd].
    rewrite run_bind, forEach_emit_exact. fold adds.
    destruct (String.eqb chartType "area" || (length (p_series props) =? 1)%nat).
    - rewrite bind_assoc, run_bind, initializeChart_exact
        by apply dc_constructs_default.
      cbv zeta. cbn [fresh trace doms default].
      match goal with
      | |- context [trace (?rest ?w3).2] =>
          assert (emits_only not_dc rest) as Hrest
      end.
      { emits_more. }
      match goal with
      | |- context [trace (?rest ?w3).2] =>
          destruct (Hrest w3) as (new & Hnew & Hkeep)
      end.
      eexists new, _, _. split; [|split; [done|split; [|reflexivity]]].
      + rewrite Hnew. reflexivity.
      + by destruct (truthy _).
    - rewrite bind_assoc, run_bind, initializeChart_exact by reflexivity.
      cbv zeta. cbn [fresh trace doms default chart_id].
      rewrite bind_assoc, run_bind, mapM_dc_create
        by apply dc_constructs_default.
      cbn [fresh trace doms].
      fold subs.
      match goal with
      | |- context [trace (?rest ?w3).2] =>
          assert (emits_only not_dc rest) as Hrest
      end.
      { emits_more. }
      match goal with
      | |- context [trace (?rest ?w3).2] =>
          destruct (Hrest w3) as (new & Hnew & Hkeep)
      end.
      eexists new, _, _. split; [|split; [done|split; [|reflexivity]]].
      + rewrite Hnew. reflexivity.
      + by destruct (truthy _). }
  rewrite !app_assoc in Hnew. rewrite (emitted_prefix _ _ _ Hnew).
  rewrite <- !app_assoc.
  rewrite !dcs_app, (dcs_not_dc new), (dcs_not_dc legend) by done.
  rewrite dcs_rev. unfold adds at 1. rewrite dcs_imap_other by done.
  unfold dcs at 2 3 4. simpl.
  destruct (String.eqb chartType "area" || (length (p_series props) =? 1)%nat);
    simpl; [reflexivity|].
  rewrite dcs_rev. unfold subs. rewrite (dcs_imap_dc (fun i => S (fresh w) + i)).
  rewrite rev_app_distr, rev_involutive. reflexivity.
Qed.
End Properties.

(** * The properties at concrete inputs *)

Import Samples.

(** Against C1 as stated: with the latitude column index null and the
    three other values given, [pin_map] throws nothing; it returns. *)
Lemma pin_map_returns_without_throwing :
  let m := map_settings VNull (VNum 1) (VNum 10) (VNum 11) in
  let card := card "pin_map" (Some m) in
  is_nullish (latitude_dataset_col_index m) = true
  /\ @CardRenderer_pin_map env target card 3 4 world = (Ok (), world)
  /\ ~ exists message,
         (@CardRenderer_pin_map env target card 3 4 world).1
         = Throw (ExnString message).
Proof.
  split; [reflexivity|]. split; [reflexivity|].
  intros [message Hthrow]. vm_compute in Hthrow. discriminate.
Qed.

Lemma pin_map_missing_configuration_witness :
  @CardRenderer_pin_map env target
    (card "pin_map" (Some (map_settings (VNum 0) (VNum 1) VNull (VNum 11))))
    3 4 world
  = (Throw (ExnString "Map ERROR: latitude and longitude column indices must be specified"),
     world).
Proof.
  apply (@pin_map_missing_configuration env target _ 3 4 world
           (map_settings (VNum 0) (VNum 1) VNull (VNum 11)));
    reflexivity.
Defined.

Lemma pin_map_second_throw_unreachable_witness :
  @CardRenderer_pin_map env target
    (card "pin_map" (Some (map_settings (VNum 0) VUndefined VNull VNull)))
    3 4 world
  = (Ok (), world).
Proof.
  apply (proj2 (@pin_map_second_throw_unreachable env target _ 3 4 world)
           (map_settings (VNum 0) VUndefined VNull VNull));
    reflexivity.
Defined.

(** Without a map group in the settings, what is thrown is a TypeError. *)
Example pin_map_without_map_settings :
  @CardRenderer_pin_map env target (card "pin_map" None) 3 4 world
  = (Throw (TypeError "vs.map"), world).
Proof. reflexivity. Qed.




(** What the first block does on that chart before its exception is
    caught: it throws the TypeError of [customizeX] reading the length of
    the label that is not there. *)
Example lineAndBarOnRender_block_throws :
  (@mbind M _ _ _
     (fun e => customizer bar_chart (OneElement <$> e) "fill" (VStr "#707070") None)
     (svg_select bar_chart (Some [0%nat]) [class_sel ["x-axis-label"]])
     (mkWorld [] {[0 := axes_only_root]} 1)).1
  = Throw (TypeError "element.length").
Proof. reflexivity. Qed.

(** The first bar of the sample chart, which has a [title] inside: after
    the renderlet it is still there, hovering it calls the caller's
    function with the bar, its datum 7 and its series index, and leaving
    it calls the function with [null]. *)
Lemma applyChartTooltips_binds_mouse_events_witness :
  exists bar,
    bar ∈ descendants (renderlet_tooltips (Some (HoverUser 5)) root)
    /\ elem bar = el 12 "rect" ["bar"]
    /\ datum bar = OPrim (VNum 7)
    /\ @dispatch env "mousemove" bar world
       = (Ok (),
          mkWorld [EvCallback 5 [OElem (el 12 "rect" ["bar"]); OPrim (VNum 7);
                                 OPrim (VNum 0)]] ∅ 0)
    /\ @dispatch env "mouseleave" bar world
       = (Ok (), mkWorld [EvCallback 5 [OPrim VNull]] ∅ 0).
Proof.
  set (bar0 := node (el 12 "rect" ["bar"]) (VNum 7)
                 [node (el 13 "title" []) VUndefined []]).
  set (body := node (el 11 "g" ["chart-body"]) VUndefined
                 [bar0; node (el 14 "rect" ["bar"]) (VNum 9) []]).
  assert (outside_titles root bar0) as Hout.
  { apply (outside_below root svg); [by left | discriminate |].
    apply (outside_below svg body);
      [apply list_elem_of_lookup; exists 6%nat; reflexivity | discriminate |].
    apply (outside_child body bar0); [by left | discriminate]. }
  destruct (@applyChartTooltips_binds_mouse_events env bar_chart (HoverUser 5) root)
    as (_ & _ & _ & Hkept).
  destruct (Hkept bar0 Hout) as (bar & Hin & Helem & Hdatum & Hbound).
  destruct (Hbound eq_refl world) as (_ & _ & Huser).
  destruct (Huser 5 eq_refl) as [Hmove Hleave].
  exists bar. auto.
Defined.

(** The first bar of the sample chart, hovered and left. *)
Example tooltips_on_first_bar :
  exists bar,
    descendants (renderlet_tooltips (Some (HoverUser 5)) root) !! 11 = Some bar
    /\ elem bar = el 12 "rect" ["bar"]
    /\ children bar = []
    /\ @dispatch env "mousemove" bar world
       = (Ok (),
          mkWorld [EvCallback 5 [OElem (el 12 "rect" ["bar"]); OPrim (VNum 7);
                                 OPrim (VNum 0)]] ∅ 0)
    /\ @dispatch env "mouseleave" bar world
       = (Ok (), mkWorld [EvCallback 5 [OPrim VNull]] ∅ 0).
Proof. eexists. split; [vm_compute; reflexivity|]. repeat split; reflexivity. Qed.

(** The country codes of the sample rows. *)
Example countryCode_samples :
  countryCode <$> rows dataset = [VStr "UN"; VStr "FR"; VNum 44]
  /\ countryCode [VStr "u"] = VStr "U"
  /\ countryCode [] = VUndefined.
Proof. repeat split; reflexivity. Qed.

Lemma lineAreaBar_fewer_than_two_columns_witness :
  @CardRenderer_lineAreaBar env target "line" (chart_props one_column) world
  = (Ok (), world).
Proof.
  apply (@lineAreaBar_fewer_than_two_columns env target "line"
           (chart_props one_column)
           {| s_card := card "bar" None; s_data := one_column |} world);
    [reflexivity | simpl; lia].
Defined.

Lemma renderers_render_before_returning_witness :
  let run := @CardRenderer_lineAreaBar env target "bar" (chart_props dataset) world in
  run.1 = Ok ()
  /\ exists ty rest,
       trace run.2
       = [EvCallback 2 [OSplit [[0]]]] ++ EvCall (TChart 0) "render" [] :: rest
       /\ EvDc 0 ty (PElement target) ∈ rest.
Proof.
  split; [reflexivity|].
  destruct (@renderers_render_before_returning env target card_props "bar"
              (chart_props dataset) world) as (_ & _ & _ & Hchart).
  apply (Hchart {| s_card := card "bar" None; s_data := dataset |});
    [reflexivity | simpl; lia | vm_compute; reflexivity].
Defined.

(** ** Further properties at the sample inputs *)

Lemma dimensionIsTimeseries_first_value_witness :
  @dimensionIsTimeseries env
    {| cols := [column "Flag"; column "Count"]; rows := [[VNull; VNum 1]] |}
  = true.
Proof.
  apply (proj1 (@dimensionIsTimeseries_first_value env
                  {| cols := [column "Flag"; column "Count"];
                     rows := [[VNull; VNum 1]] |}
                  VNull [VNum 1] [] eq_refl)).
  left. reflexivity.
Defined.

Lemma adjustTicksIfNeeded_never_more_ticks_witness :
  ((50 * 10 <= 400)%Z
   /\ @adjustTicksIfNeeded env bar_chart "xAxis" 400 50 world = (Ok (), world))
  \/ exists k,
       (0 <= k <= 10)%Z
       /\ @adjustTicksIfNeeded env bar_chart "xAxis" 400 50 world
          = (Ok (),
             mkWorld (EvCall (TAxis (chart_id bar_chart) "xAxis") "ticks" [ANum k]
                      :: trace world)
                     (doms world) (fresh world)).
Proof.
  apply (@adjustTicksIfNeeded_never_more_ticks env bar_chart "xAxis" 400 50 10 world);
    [lia | lia | lia | right; exists []; reflexivity].
Defined.

Lemma every_nth_visible_keys_witness :
  head (every_nth 2 0 (rows dataset)) = head (rows dataset).
Proof.
  apply (proj2 (proj2 (proj2 (every_nth_visible_keys 2 (rows dataset))))).
  lia.
Defined.

Lemma countryCode_short_and_stable_witness :
  exists code,
    countryCode [VStr "united states"; VNum 12] = VStr code
    /\ String.length code = String.length "united states" `min` 2
    /\ ascii_only code = true
    /\ countryCode [VStr code] = VStr code.
Proof.
  apply (countryCode_short_and_stable [VStr "united states"; VNum 12]
           "united states");
    reflexivity.
Defined.

Lemma country_code_first_two_characters_witness :
  exists chartData record,
    geo_calls "setData" (emitted (CardRenderer_country target card_props) world)
    = [[ARecords chartData; AVal (VStr "code"); AVal (VStr "value")]]
    /\ rows dataset !! 0%nat = Some [VStr "united states"; VNum 12]
    /\ chartData !! 0%nat = Some record
    /\ record !! "code" = Some (CVal (VStr "UN")).
Proof.
  destruct (country_code_first_two_characters target card_props world)
    as (chartData & Hcalls & _ & Hrows).
  destruct (Hrows 0%nat [VStr "united states"; VNum 12] eq_refl eq_refl)
    as (record & Hrecord & Hcode).
  exists chartData, record. auto.
Defined.

Lemma axis_functions_failures_witness :
  @applyChartYAxis env bar_chart (bare_card "bar") (cols dataset) world
  = (Throw (TypeError "settings.yAxis"), world).
Proof.
  apply (proj1 (proj2 (@axis_functions_failures env bar_chart (bare_card "bar")
                         (cols dataset) [] world))).
  reflexivity.
Defined.

Lemma axis_labels_disabled_witness :
  @applyChartOrdinalXAxis env bar_chart quiet_card (cols dataset) [CVal (VStr "fr")] world
  = (Ok (),
     mkWorld ([EvCall (TChart (chart_id bar_chart)) "xUnits" [AUnitsOrdinal];
               EvCall (TChart (chart_id bar_chart)) "x"
                 [AScale (OrdinalScale [CVal (VStr "fr")])];
               EvCall (TAxis (chart_id bar_chart) "xAxis") "tickFormat" [AVal (VStr "")];
               EvCall (TAxis (chart_id bar_chart) "xAxis") "ticks" [ANum 0]]
              ++ trace world) (doms world) (fresh world)).
Proof.
  apply (proj1 (@axis_labels_disabled env bar_chart quiet_card (cols dataset)
                  [CVal (VStr "fr")] world quiet_axis quiet_axis
                  eq_refl eq_refl eq_refl eq_refl)).
Defined.

Lemma timeseries_quarter_units_witness :
  exists rest ds,
    @applyChartTimeseriesXAxis env bar_chart (card "bar" None)
      (quarter_column :: [column "Count"]) [] world
    = (Ok (),
       mkWorld (EvCall (TChart (chart_id bar_chart)) "xUnits" [ATimeInterval "quarters"]
                :: rest ++ trace world) ds (fresh world)).
Proof.
  apply (@timeseries_quarter_units env bar_chart (card "bar" None) quarter_column
           [column "Count"] [] axis world);
    reflexivity.
Defined.

Lemma customizer_sets_attribute_witness :
  @customizer bar_chart None "fill" (VStr "#707070") None rendered_world
  = (Throw (TypeError "element.length"), rendered_world).
Proof.
  apply (proj1 (proj2 (@customizer_sets_attribute bar_chart None "fill"
                         (VStr "#707070") None rendered_world))).
  reflexivity.
Defined.

Lemma lineAndBarOnRender_without_y_axis_witness :
  exists ds,
    @lineAndBarOnRender env bar_chart (card "bar" None) (mkWorld [] {[0 := bare_root]} 1)
    = (Throw (TypeError "chart.select('.axis.y')[0][0]"),
       mkWorld (on_lineAndBarOnRender bar_chart :: []) ds 1).
Proof.
  apply (@lineAndBarOnRender_without_y_axis env bar_chart (card "bar" None)
           (mkWorld [] {[0 := bare_root]} 1)).
  reflexivity.
Defined.

Lemma hovering_without_callback_witness :
  exists bar,
    descendants (renderlet_tooltips None root) !! 11 = Some bar
    /\ @dispatch env "mousemove" bar world = (Ok (), world)
    /\ @dispatch env "mouseleave" bar world = (Ok (), world).
Proof.
  eexists. split; [vm_compute; reflexivity|].
  apply (@hovering_without_callback env None dataset root);
    [left; reflexivity | | reflexivity].
  apply list_elem_of_lookup. exists 11. vm_compute. reflexivity.
Defined.


Lemma map_hover_reports_the_row_witness :
  @apply_hover (HoverCountry dataset (Some 5))
    [OPrim VNull; OFeature {["ISO_A2" := VStr "DE"; "NAME" := VStr "Germany"]};
     OPrim VUndefined] world
  = emit (EvCallback 5 [OPrim VNull; OPrim (VBool false); OPrim VUndefined]) world.
Proof.
  apply (proj2 (proj2 (proj2
           (@map_hover_reports_the_row dataset 5 (OPrim VNull)
              {["ISO_A2" := VStr "DE"; "NAME" := VStr "Germany"]}
              (OPrim VUndefined) world)))).
  repeat constructor.
Defined.

Lemma pie_without_pie_settings_witness :
  (@CardRenderer_pie env target
     {| p_card := bare_card "pie"; p_data := dataset; p_onHoverChange := None |}
     world).1
  = Throw (TypeError "settings.pie").
Proof.
  apply (proj1 (@pie_without_pie_settings env target
                  {| p_card := bare_card "pie"; p_data := dataset;
                     p_onHoverChange := None |}
                  world eq_refl)).
Defined.

Lemma renderlet_tooltips_leaves_the_rest_witness :
  exists bar n0,
    descendants (renderlet_tooltips (Some (HoverUser 5)) root) !! 11 = Some bar
    /\ n0 ∈ descendants root
    /\ el_tag (elem n0) <> "title"
    /\ elem bar = elem n0 /\ attrs bar = attrs n0 /\ datum bar = datum n0.
Proof.
  eexists.
  destruct (@renderlet_tooltips_leaves_the_rest (Some (HoverUser 5)) root _
              ltac:(apply list_elem_of_lookup; exists 11; vm_compute; reflexivity))
    as (n0 & Hin & Htag & Helem & Hattrs & Hdatum & _).
  exists n0. split; [vm_compute; reflexivity|]. auto.
Defined.

Lemma pin_map_configured_witness :
  exists w',
    @CardRenderer_pin_map env target
      (card "pin_map" (Some (map_settings (VNum 0) (VNum 1) (VNum 10) (VNum 11))))
      3 4 world
    = (Ok (), w').
Proof.
  eexists.
  apply (@pin_map_configured env target _ 3 4 world
           (map_settings (VNum 0) (VNum 1) (VNum 10) (VNum 11)));
    reflexivity.
Defined.

Lemma lineAreaBar_needs_axis_settings_witness :
  exists e,
    (@CardRenderer_lineAreaBar env target "bar" (bare_props "bar") world).1 = Throw e.
Proof.
  apply (proj1 (@lineAreaBar_needs_axis_settings env target "bar" (bare_props "bar")
                  {| s_card := bare_card "bar"; s_data := dataset |} world
                  eq_refl ltac:(simpl; lia) ltac:(left; reflexivity))).
Defined.

Lemma lineAreaBar_fills_one_dataset_witness :
  rev (crossfilters (emitted (@CardRenderer_lineAreaBar env target "bar" two_series)
                       world))
  = EvCrossfilter []
    :: imap (fun index s =>
               EvCrossfilterAdd
                 (@series_records env (@dimensionIsTimeseries env dataset) index s))
            (p_series two_series).
Proof.
  apply (@lineAreaBar_fills_one_dataset env target "bar" two_series
           {| s_card := card "line" None; s_data := dataset |} world);
    [reflexivity | simpl; lia].
Defined.

Lemma lineAreaBar_charts_created_witness :
  rev (dcs (emitted (@CardRenderer_lineAreaBar env target "line" two_series) world))
  = [(0, "compositeChart", PElement target);
     (1, "lineChart", PChart 0);
     (2, "lineChart", PChart 0)].
Proof.
  apply (@lineAreaBar_charts_created env target "line" two_series
           {| s_card := card "line" None; s_data := dataset |} world);
    [reflexivity | simpl; lia].
Defined.
